(** * LuxStyle booking: the route handlers of [app.py]

    A shallow embedding of the Flask application: the five tables, the
    session, the flashed messages and the route handlers that read and
    write them.  Each handler is a computation over the state of a request
    (the database as the request sees it and as it is stored, the session,
    the flashed messages) that may end early with a response, the way the
    Python functions [return redirect(...)] in the middle of their body.
    What lies outside the repository ([strptime], [int], [float], the
    password hashing, the storage engine's reading of integers) is a
    parameter of the development.  The storage engine is the SQLite file
    the configuration defaults to. *)

From Stdlib Require Import ZArith NArith List String Ascii Bool Lia.
From Stdlib Require Import PrimFloat Uint63.
From stdpp Require Import base decidable strings gmap.
From Stdlib Require Import Permutation Sorted.

Local Open Scope Z_scope.

(** ** Python values *)

(** A [str] is a sequence of Unicode code points; [len] and [strip] work on
    code points, not on bytes. *)
Abbreviation pystr := (list N).

(** A literal of the source, for ASCII text. *)
Definition lit (s : string) : pystr :=
  map N_of_ascii (list_ascii_of_string s).

(** The values the application keeps in the session and hands to the
    database as query parameters. *)
Inductive pyval :=
  | PyInt (z : Z)
  | PyStr (s : pystr).

#[global] Instance pyval_eq_dec : EqDecision pyval.
Proof. solve_decision. Defined.

(** Truth value of [x] where [x] is the result of [dict.get]: [None], [0]
    and the empty string are false. *)
Definition truthy (v : option pyval) : bool :=
  match v with
  | None => false
  | Some (PyInt z) => negb (z =? 0)
  | Some (PyStr s) => negb (bool_decide (s = []))
  end.

(** Truth value of a [str] or [None]. *)
Definition truthy_str (v : option pystr) : bool :=
  match v with
  | None | Some [] => false
  | Some (_ :: _) => true
  end.

(** [x or ""] for [x] a [str] or [None]. *)
Definition or_empty (v : option pystr) : pystr :=
  match v with
  | Some s => s
  | None => []
  end.

(** [f"{x}"] for [x] a [str] or [None]. *)
Definition format_str (v : option pystr) : pystr :=
  match v with
  | Some s => s
  | None => lit "None"
  end.

(** *** [str.strip()] *)

(** The code points for which [str.isspace] holds; [strip()] without an
    argument removes exactly these from both ends. *)
Definition isspace (c : N) : bool :=
  ((9 <=? c) && (c <=? 13) || (28 <=? c) && (c <=? 32)
   || (c =? 133) || (c =? 160) || (c =? 5760)
   || (8192 <=? c) && (c <=? 8202)
   || (c =? 8232) || (c =? 8233) || (c =? 8239) || (c =? 8287)
   || (c =? 12288))%N.

Fixpoint lstrip (s : pystr) : pystr :=
  match s with
  | c :: s' => if isspace c then lstrip s' else s
  | [] => []
  end.

Definition rstrip (s : pystr) : pystr := rev (lstrip (rev s)).

Definition strip (s : pystr) : pystr := rstrip (lstrip s).

(** [len(s)] *)
Definition len (s : pystr) : Z := Z.of_nat (length s).

(** *** [datetime] *)

(** A naive [datetime.datetime]: its seven fields. *)
Record datetime := mk_datetime {
  year : Z; month : Z; day : Z;
  hour : Z; minute : Z; second : Z; microsecond : Z
}.

#[global] Instance datetime_eq_dec : EqDecision datetime.
Proof. solve_decision. Defined.

(** Naive datetimes compare field by field, most significant first. *)
Definition lex (c : comparison) (k : comparison) : comparison :=
  match c with
  | Eq => k
  | _ => c
  end.

Definition dt_compare (a b : datetime) : comparison :=
  lex (year a ?= year b)
  (lex (month a ?= month b)
  (lex (day a ?= day b)
  (lex (hour a ?= hour b)
  (lex (minute a ?= minute b)
  (lex (second a ?= second b)
       (microsecond a ?= microsecond b)))))).

(** [a < b] on datetimes. *)
Definition dt_ltb (a b : datetime) : bool :=
  match dt_compare a b with
  | Lt => true
  | _ => false
  end.

(** [a >= b] on datetimes. *)
Definition dt_geb (a b : datetime) : bool := negb (dt_ltb a b).

(** ** The models (tables) *)

Module Service.
Record t := mk {
  id : Z;
  name : pystr;
  description : option pystr;
  duration_minutes : Z;
  price : float;
  is_active : bool
}.
End Service.

Module Barber.
Record t := mk {
  id : Z;
  name : pystr;
  specialty : option pystr;
  is_active : bool
}.
End Barber.

Module Client.
Record t := mk {
  id : Z;
  user_id : Z;
  full_name : pystr;
  phone : pystr;
  email : option pystr
}.
End Client.

Module Appointment.
Record t := mk {
  id : Z;
  appointment_datetime : datetime;
  status : pystr;
  notes : option pystr;
  client_id : Z;
  service_id : Z;
  barber_id : Z
}.

Definition set_status (st : pystr) (a : t) : t :=
  mk (id a) (appointment_datetime a) st (notes a)
     (client_id a) (service_id a) (barber_id a).
End Appointment.

Module User.
Record t := mk {
  id : Z;
  username : pystr;
  password : pystr;
  role : pystr
}.
End User.

(** The database: each table is the list of its rows in the order the
    engine scans them (insertion order), which is the order [first()]
    follows when the query has no [order_by]. *)
Record database := mk_database {
  services : list Service.t;
  barbers : list Barber.t;
  clients : list Client.t;
  appointments : list Appointment.t;
  users : list User.t
}.

(** The key the engine gives a new row of a table whose integer primary
    key is not supplied: one more than the largest key in use, 1 for an
    empty table. *)
Definition next_id (ids : list Z) : Z := 1 + fold_right Z.max 0 ids.

(** ** Requests, responses and the handler monad *)

Inductive http_method := GET | POST.

(** What a view function returns (or how it ends): a redirect to the
    endpoint given to [url_for], a rendered template, [abort(404)] from
    [get_or_404], or an exception nobody catches. *)
Inductive response :=
  | Redirect (endpoint : string)
  | Render (template : string)
  | NotFound404
  | Uncaught (exception : string).

(** A flashed message: a literal of the source, or an f-string that ends
    with a value of the request. *)
Inductive message :=
  | Literal (text : string)
  | Formatted (text : string) (value : pystr).
Coercion Literal : string >-> message.

(** What outlives a request: the stored database and the session.  Of
    the session, the keys the application itself uses ([user_id], [role])
    are one field, and the flashed messages, which Flask keeps in the
    session under a key of its own, are another; each message is the pair
    (message, category) given to [flash]. *)
Record world := mk_world {
  db : database;
  session : gmap string pyval;
  flashes : list (message * string)
}.

(** The state of a request in progress.  [view] is what the queries of the
    request see: the stored rows and the writes of [db.session] that are
    not committed yet.  [stored] is what the database holds. *)
Record request_state := mk_state {
  view : database;
  stored : database;
  st_session : gmap string pyval;
  st_flashes : list (message * string)
}.

(** A statement either falls through with a value or returns from the view
    function. *)
Inductive step (A : Type) :=
  | Next (a : A)
  | Return (r : response).
Arguments Next {A} a.
Arguments Return {A} r.

Definition handler (A : Type) : Type := request_state -> step A * request_state.

#[global] Instance handler_ret : MRet handler :=
  fun A a st => (Next a, st).

#[global] Instance handler_bind : MBind handler :=
  fun A B k m st =>
    match m st with
    | (Next a, st') => k a st'
    | (Return r, st') => (Return r, st')
    end.

(** [return r] *)
Definition return_ {A} (r : response) : handler A :=
  fun st => (Return r, st).

(** [if c: body] *)
Definition when_ (c : bool) (body : handler unit) : handler unit :=
  if c then body else mret tt.

(** [flash(message, category)] *)
Definition flash (msg : message) (category : string) : handler unit :=
  fun st => (Next tt, mk_state (view st) (stored st) (st_session st)
                               (st_flashes st ++ [(msg, category)])).

(** [session.get(key)] *)
Definition session_get (key : string) : handler (option pyval) :=
  fun st => (Next (st_session st !! key), st).

(** [session[key] = v] *)
Definition session_set (key : string) (v : pyval) : handler unit :=
  fun st => (Next tt, mk_state (view st) (stored st) (<[key := v]> (st_session st))
                               (st_flashes st)).

(** [session.clear()].  The messages flashed and not shown yet wait in
    the session, under a key of their own, and go with the rest of it. *)
Definition session_clear : handler unit :=
  fun st => (Next tt, mk_state (view st) (stored st) ∅ []).

(** Truth value of the result of [first()] or [get()]: a row is true,
    [None] is false. *)
Definition found {A} (row : option A) : bool :=
  match row with
  | Some _ => true
  | None => false
  end.

(** An attribute of [row], which raises [AttributeError] on [None]. *)
Definition attr {A} (row : option A) : handler A :=
  match row with
  | Some x => mret x
  | None => return_ (Uncaught "AttributeError")
  end.

(** A read through [db.session]. *)
Definition query {A} (q : database -> A) : handler A :=
  fun st => (Next (q (view st)), st).

(** A write through [db.session]; it is pending until the commit. *)
Definition update (f : database -> database) : handler unit :=
  fun st => (Next tt, mk_state (f (view st)) (stored st) (st_session st) (st_flashes st)).

(** [db.session.commit()] *)
Definition commit : handler unit :=
  fun st => (Next tt, mk_state (view st) (view st) (st_session st) (st_flashes st)).

(** A request: the view function runs on the stored database; what it
    wrote and did not commit is dropped when the request ends. *)
Definition respond (h : handler response) (w : world) : response * world :=
  match h (mk_state (db w) (db w) (session w) (flashes w)) with
  | (Next r, st) | (Return r, st) =>
      (r, mk_world (stored st) (st_session st) (st_flashes st))
  end.

(** ** Instances of the outside functions

    The handlers below take [strptime], [int], [float], the password
    hashing and the engine's reading of integers as parameters.  These are
    instances to run the handlers on: each reads the plain ASCII form of
    its input and refuses everything else. *)

Definition digit (c : N) : option Z :=
  if ((48 <=? c) && (c <=? 57))%N then Some (Z.of_N c - 48) else None.

Fixpoint digits_acc (acc : Z) (s : pystr) : option Z :=
  match s with
  | [] => Some acc
  | c :: s' =>
      match digit c with
      | Some v => digits_acc (10 * acc + v) s'
      | None => None
      end
  end.

(** A non-empty run of ASCII digits, read in base ten. *)
Definition decimal (s : pystr) : option Z :=
  match s with
  | [] => None
  | _ :: _ => digits_acc 0 s
  end.

Definition decimal_float (s : pystr) : option float :=
  match decimal s with
  | Some z => Some (PrimFloat.of_uint63 (Uint63.of_Z z))
  | None => None
  end.

Definition is_leap (y : Z) : bool :=
  (y mod 4 =? 0) && (negb (y mod 100 =? 0) || (y mod 400 =? 0)).

Definition days_in_month (y m : Z) : Z :=
  if m =? 2 then (if is_leap y then 29 else 28)
  else if (m =? 4) || (m =? 6) || (m =? 9) || (m =? 11) then 30
  else 31.

(** [strptime] for the format ["%Y-%m-%d %H:%M"] on zero-padded input of
    the shape [YYYY-MM-DD HH:MM]. *)
Definition strptime_padded (data fmt : pystr) : option datetime :=
  if bool_decide (fmt = lit "%Y-%m-%d %H:%M") then
    match data with
    | [y1; y2; y3; y4; 45%N; m1; m2; 45%N; d1; d2; 32%N; h1; h2; 58%N; n1; n2] =>
        match decimal [y1; y2; y3; y4], decimal [m1; m2], decimal [d1; d2],
              decimal [h1; h2], decimal [n1; n2] with
        | Some y, Some m, Some d, Some h, Some n =>
            if (1 <=? y) && (1 <=? m) && (m <=? 12)
               && (1 <=? d) && (d <=? days_in_month y m)
               && (h <=? 23) && (n <=? 59)
            then Some (mk_datetime y m d h n 0 0)
            else None
        | _, _, _, _, _ => None
        end
    | _ => None
    end
  else None.

(** [float] on what [decimal_float] reads and on [nan], which [float]
    reads as the NaN. *)
Definition decimal_or_nan (s : pystr) : option float :=
  if bool_decide (s = lit "nan") then Some PrimFloat.nan else decimal_float s.

(** A stand-in for the password hashing: the hash is the password and the
    salt is not used. *)
Definition plain_hash (salt password : pystr) : pystr := password.

Definition plain_check (pwhash password : pystr) : bool :=
  bool_decide (pwhash = password).

(** ** A shop to run the handlers on *)

Definition at_ (y m d h n : Z) : datetime := mk_datetime y m d h n 0 0.

Definition shop : database :=
  mk_database
    [ Service.mk 1 (lit "Corte clasico") (Some (lit "Corte tradicional")) 30 10%float true;
      Service.mk 2 (lit "Afeitado premium") None 40 15%float false ]
    [ Barber.mk 1 (lit "Carlos") (Some (lit "Cortes modernos")) true;
      Barber.mk 2 (lit "Luis") None false ]
    [ Client.mk 1 2 (lit "Ana Mora") (lit "8888-0000") (Some (lit "ana@example.com"));
      Client.mk 2 3 (lit "Beto Rojas") (lit "7777-0000") (Some []) ]
    [ Appointment.mk 1 (at_ 2030 1 2 10 0) (lit "cancelada") (Some []) 1 1 1;
      Appointment.mk 2 (at_ 2029 6 1 9 30) (lit "pendiente") (Some []) 1 1 1;
      Appointment.mk 3 (at_ 2030 2 10 15 0) (lit "pendiente") (Some []) 2 1 1;
      Appointment.mk 4 (at_ 2030 3 5 11 0) (lit "pendiente") (Some []) 1 1 1 ]
    [ User.mk 1 (lit "admin") (lit "1234") (lit "admin");
      User.mk 2 (lit "ana") (lit "secret1") (lit "cliente");
      User.mk 3 (lit "beto") (lit "secret2") (lit "cliente");
      User.mk 4 (lit "dora") (lit "secret3") (lit "cliente") ].

Definition now_ : datetime := mk_datetime 2029 12 31 8 30 15 250.

Definition ana_session : gmap string pyval :=
  {[ "user_id" := PyInt 2; "role" := PyStr (lit "cliente") ]}.

Definition dora_session : gmap string pyval :=
  {[ "user_id" := PyInt 4; "role" := PyStr (lit "cliente") ]}.

Definition admin_session : gmap string pyval :=
  {[ "user_id" := PyInt 1; "role" := PyStr (lit "admin") ]}.

Definition booking_form (full_name phone service_id barber_id date time : string)
  : gmap string pystr :=
  {[ "full_name" := lit full_name; "phone" := lit phone;
     "email" := lit ""; "notes" := lit "";
     "service_id" := lit service_id; "barber_id" := lit barber_id;
     "date" := lit date; "time" := lit time ]}.

Definition service_form (name duration price : string) : gmap string pystr :=
  {[ "name" := lit name; "description" := lit "";
     "duration" := lit duration; "price" := lit price ]}.

Definition credentials (username password : string) : gmap string pystr :=
  {[ "username" := lit username; "password" := lit password ]}.

(** ** The application *)

Section App.

(** *** What the application takes from outside *)

(** [datetime.strptime(data, format)]; [None] stands for [ValueError]. *)
Variable strptime : pystr -> pystr -> option datetime.

(** How the storage engine reads a text parameter that is compared with,
    or stored in, an integer column; [None] when the text is no integer
    for it. *)
Variable db_int : pystr -> option Z.

(** [int(s)] and [float(s)]; [None] stands for [ValueError]. *)
Variable py_int : pystr -> option Z.
Variable py_float : pystr -> option float.

(** [generate_password_hash(password)], as a function of the salt it
    draws, and [check_password_hash(pwhash, password)]. *)
Variable generate_password_hash : pystr -> pystr -> pystr.
Variable check_password_hash : pystr -> pystr -> bool.

(** *** Queries *)

(** A Python value bound to an integer column.  An [int] that reaches a
    query this way is a key read from a row (the [user.id] that [login]
    put in the session, the [id] of a row just fetched), so it is one of
    the engine's integers; a text is read by the engine. *)
Definition int_param (v : option pyval) : option Z :=
  match v with
  | Some (PyInt z) => Some z
  | Some (PyStr s) => db_int s
  | None => None
  end.

(** [request.form.get(key)] handed on to a query as it is. *)
Definition form_get (form : gmap string pystr) (key : string) : option pystr :=
  form !! key.

Definition str_param (v : option pystr) : option pyval := PyStr <$> v.

(** [Service.query.get(ident)], and the row
    [Service.query.get_or_404(ident)] looks up; [or_404] settles the request
    when there is none. *)
Definition Service_query_get (ident : option pyval) : handler (option Service.t) :=
  query (fun d =>
    match int_param ident with
    | Some k => find (fun s => Service.id s =? k) (services d)
    | None => None
    end).

(** [Barber.query.get(ident)], and the row
    [Barber.query.get_or_404(ident)] looks up. *)
Definition Barber_query_get (ident : option pyval) : handler (option Barber.t) :=
  query (fun d =>
    match int_param ident with
    | Some k => find (fun b => Barber.id b =? k) (barbers d)
    | None => None
    end).

(** The row [Appointment.query.get_or_404(ident)] looks up: the one with
    that key, if there is one; [or_404] settles the request when there is
    none. *)
Definition Appointment_query_get (ident : Z) : handler (option Appointment.t) :=
  query (fun d => find (fun a => Appointment.id a =? ident) (appointments d)).

(** [Appointment.query.filter_by(barber_id=..., appointment_datetime=...).first()] *)
Definition Appointment_first_by_slot (barber_id : option pyval) (dt : datetime)
  : handler (option Appointment.t) :=
  query (fun d =>
    match int_param barber_id with
    | Some k =>
        find (fun a => (Appointment.barber_id a =? k)
                       && bool_decide (Appointment.appointment_datetime a = dt))
             (appointments d)
    | None => None
    end).

(** [Appointment.query.filter_by(service_id=...).first()] *)
Definition Appointment_first_by_service (service_id : Z) : handler (option Appointment.t) :=
  query (fun d => find (fun a => Appointment.service_id a =? service_id) (appointments d)).

(** [Appointment.query.filter_by(barber_id=...).first()] *)
Definition Appointment_first_by_barber (barber_id : Z) : handler (option Appointment.t) :=
  query (fun d => find (fun a => Appointment.barber_id a =? barber_id) (appointments d)).

(** [Client.query.filter_by(user_id=...).first()] *)
Definition Client_first_by_user (user_id : option pyval) : handler (option Client.t) :=
  query (fun d =>
    match int_param user_id with
    | Some k => find (fun c => Client.user_id c =? k) (clients d)
    | None => None
    end).

(** [User.query.filter_by(username=...).first()] *)
Definition User_first_by_username (username : pystr) : handler (option User.t) :=
  query (fun d => find (fun u => bool_decide (User.username u = username)) (users d)).

(** The integers of the storage engine (SQLite) are 64 bits wide, signed.
    The driver hands a Python [int] on as one of them and raises
    [OverflowError] for an [int] outside that range. *)
Definition int64 (z : Z) : bool := (- 2 ^ 63 <=? z) && (z <? 2 ^ 63).

(** How a request ends when [get_or_404(ident)] has no row for the [int]
    a path carries.  The keys of the rows are integers of the engine, so a
    row is only ever found under a key in their range.  A key in that
    range without a row is a 404; for any other [int] the driver has raised
    [OverflowError] when the key was bound to the statement, and nothing in
    the view functions catches it. *)
Definition no_row (ident : Z) : response :=
  if int64 ident then NotFound404 else Uncaught "OverflowError".

(** [get_or_404(ident)], on what the lookup by that key gives. *)
Definition or_404 {A} (ident : Z) (row : option A) : handler A :=
  match row with
  | Some x => mret x
  | None => return_ (no_row ident)
  end.

(** The integer an insert stores for a Python value; a text the engine
    cannot read as an integer ends the request. *)
Definition column_int (v : option pyval) : handler Z :=
  match int_param v with
  | Some k => mret k
  | None => return_ (Uncaught "StatementError")
  end.

(** *** Writes *)

(** [db.session.add(Client(...)); db.session.flush()]: the row gets its
    key. *)
Definition add_client (user_id : Z) (full_name phone email : pystr) : handler Client.t :=
  fun st =>
    let d := view st in
    let c := Client.mk (next_id (map Client.id (clients d)))
                       user_id full_name phone (Some email) in
    (Next c,
     mk_state (mk_database (services d) (barbers d) (clients d ++ [c])
                           (appointments d) (users d))
              (stored st) (st_session st) (st_flashes st)).

(** [db.session.add(Appointment(...))] *)
Definition add_appointment (dt : datetime) (client_id service_id barber_id : Z)
    (notes status : pystr) : handler unit :=
  update (fun d =>
    let a := Appointment.mk (next_id (map Appointment.id (appointments d)))
                            dt status (Some notes) client_id service_id barber_id in
    mk_database (services d) (barbers d) (clients d)
                (appointments d ++ [a]) (users d)).

(** What a Float column gives back for a float stored in it: the float
    itself, except that the engine keeps a float with an integer value as
    that integer, which loses the sign of a negative zero. *)
Definition stored_float (x : float) : float :=
  if PrimFloat.eqb x PrimFloat.zero then PrimFloat.zero else x.

(** [db.session.add(Service(...))], with the INSERT the flush that
    follows it sends; what the flush raises ends the request, nothing
    stored.  The driver binds the parameters of the statement first: a
    duration outside the engine's integers raises [OverflowError].  The
    engine then checks the NOT NULL columns: a price that is NaN, which the
    engine stores as NULL, raises [IntegrityError]. *)
Definition add_service (name : pystr) (description : option pystr)
    (duration_minutes : Z) (price : float) (is_active : bool) : handler unit :=
  if negb (int64 duration_minutes) then return_ (Uncaught "OverflowError")
  else if PrimFloat.is_nan price then return_ (Uncaught "IntegrityError")
  else
    update (fun d =>
      let s := Service.mk (next_id (map Service.id (services d)))
                          name description duration_minutes (stored_float price)
                          is_active in
      mk_database (services d ++ [s]) (barbers d) (clients d)
                  (appointments d) (users d)).

(** [db.session.add(User(...))] *)
Definition add_user (username password role : pystr) : handler unit :=
  update (fun d =>
    let u := User.mk (next_id (map User.id (users d))) username password role in
    mk_database (services d) (barbers d) (clients d)
                (appointments d) (users d ++ [u])).

(** [db.session.delete(service)] *)
Definition delete_service (s : Service.t) : handler unit :=
  update (fun d =>
    mk_database (List.filter (fun s' => negb (Service.id s' =? Service.id s)) (services d))
                (barbers d) (clients d) (appointments d) (users d)).

(** [db.session.delete(barber)] *)
Definition delete_barber_row (b : Barber.t) : handler unit :=
  update (fun d =>
    mk_database (services d)
                (List.filter (fun b' => negb (Barber.id b' =? Barber.id b)) (barbers d))
                (clients d) (appointments d) (users d)).

(** [appointment.status = st]: the row with the appointment's key is
    rewritten. *)
Definition set_appointment_status (a : Appointment.t) (st : pystr) : handler unit :=
  update (fun d =>
    mk_database (services d) (barbers d) (clients d)
                (map (fun a' => if Appointment.id a' =? Appointment.id a
                                then Appointment.set_status st a' else a')
                     (appointments d))
                (users d)).

(** *** [/book] *)

(** [not s] for a [str]. *)
Definition empty (s : pystr) : bool :=
  match s with
  | [] => true
  | _ :: _ => false
  end.

Definition book_appointment (method : http_method) (form : gmap string pystr)
    (now : datetime) : handler response :=
  (* Solo usuarios logueados pueden reservar *)
  uid ← session_get "user_id";
  when_ (negb (truthy uid))
    (flash "Debes iniciar sesión para reservar una cita." "warning";;
     return_ (Redirect "login"));;
  (* the lists the form offers, handed to the template *)
  services_ ← query (fun d => List.filter Service.is_active (services d));
  barbers_ ← query (fun d => List.filter Barber.is_active (barbers d));
  match method with
  | POST =>
      let full_name := strip (or_empty (form_get form "full_name")) in
      let phone := strip (or_empty (form_get form "phone")) in
      let email := strip (or_empty (form_get form "email")) in
      let service_id := form_get form "service_id" in
      let barber_id := form_get form "barber_id" in
      let date_str := form_get form "date" in
      let time_str := form_get form "time" in
      let notes := strip (or_empty (form_get form "notes")) in
      when_ (empty full_name || empty phone
             || negb (truthy_str service_id) || negb (truthy_str barber_id)
             || negb (truthy_str date_str) || negb (truthy_str time_str))
        (flash "Por favor completa todos los campos obligatorios." "warning";;
         return_ (Redirect "book_appointment"));;
      service ← Service_query_get (str_param service_id);
      barber ← Barber_query_get (str_param barber_id);
      when_ (negb (found service) || negb (found barber))
        (flash "Servicio o profesional no válido." "danger";;
         return_ (Redirect "book_appointment"));;
      (* Fecha y hora válidas *)
      appointment_datetime ←
        match strptime (format_str date_str ++ lit " " ++ format_str time_str)
                       (lit "%Y-%m-%d %H:%M") with
        | Some dt => mret dt
        | None =>
            flash "Fecha u hora inválida." "danger";;
            return_ (Redirect "book_appointment")
        end;
      (* No aceptar citas en el pasado *)
      when_ (dt_ltb appointment_datetime now)
        (flash "No puedes reservar una cita en el pasado." "warning";;
         return_ (Redirect "book_appointment"));;
      (* Evitar choques con el barbero *)
      existing ← Appointment_first_by_slot (str_param barber_id) appointment_datetime;
      when_ (found existing)
        (flash "Ese horario ya está ocupado con ese profesional. Elige otra hora." "warning";;
         return_ (Redirect "book_appointment"));;
      logged_user_id ← session_get "user_id";
      (* Buscar perfil de cliente ligado al usuario *)
      client ← Client_first_by_user logged_user_id;
      (* Si no existe, se crea *)
      client ←
        match client with
        | Some c => mret c
        | None =>
            user_id ← column_int logged_user_id;
            add_client user_id full_name phone email
        end;
      service_id ← column_int (str_param service_id);
      barber_id ← column_int (str_param barber_id);
      add_appointment appointment_datetime (Client.id client) service_id barber_id
                      notes (lit "pendiente");;
      commit;;
      flash "Tu cita ha sido registrada con éxito." "success";;
      return_ (Redirect "index")
  | GET => return_ (Render "book_appointment.html")
  end.

(** *** [/admin/services/...] and [/admin/barbers/...] *)

(** [session.get("role") != "admin"] *)
Definition not_admin (role : option pyval) : bool :=
  negb (bool_decide (role = Some (PyStr (lit "admin")))).

(** [int(x)] and [float(x)] raise [ValueError] on text they cannot
    read; nothing in the view functions catches it. *)
Definition int_ (s : pystr) : handler Z :=
  match py_int s with
  | Some z => mret z
  | None => return_ (Uncaught "ValueError")
  end.

Definition float_ (s : pystr) : handler float :=
  match py_float s with
  | Some x => mret x
  | None => return_ (Uncaught "ValueError")
  end.

Definition admin_service_create (method : http_method) (form : gmap string pystr)
  : handler response :=
  role ← session_get "role";
  when_ (not_admin role)
    (flash "No tienes permiso" "danger";;
     return_ (Redirect "index"));;
  match method with
  | POST =>
      let name := form_get form "name" in
      let description := form_get form "description" in
      let duration := form_get form "duration" in
      let price := form_get form "price" in
      when_ (negb (truthy_str name) || negb (truthy_str duration)
             || negb (truthy_str price))
        (flash "Completa los campos obligatorios." "warning";;
         return_ (Redirect "admin_service_create"));;
      duration_minutes ← int_ (or_empty duration);
      price ← float_ (or_empty price);
      add_service (or_empty name) description duration_minutes price true;;
      commit;;
      flash "Servicio creado correctamente" "success";;
      return_ (Redirect "admin_services")
  | GET => return_ (Render "admin_service_create.html")
  end.

Definition admin_service_delete (service_id : Z) : handler response :=
  role ← session_get "role";
  when_ (not_admin role)
    (flash "No tienes permiso" "danger";;
     return_ (Redirect "index"));;
  service ← (Service_query_get (Some (PyInt service_id)) ≫= or_404 service_id);
  has_appointments ← Appointment_first_by_service (Service.id service);
  when_ (found has_appointments)
    (flash "No puedes eliminar un servicio con citas registradas. Desactívalo." "warning";;
     return_ (Redirect "admin_services"));;
  delete_service service;;
  commit;;
  flash "Servicio eliminado" "success";;
  return_ (Redirect "admin_services").

Definition delete_barber (barber_id : Z) : handler response :=
  role ← session_get "role";
  when_ (not_admin role)
    (flash "No tienes permiso" "danger";;
     return_ (Redirect "index"));;
  barber ← (Barber_query_get (Some (PyInt barber_id)) ≫= or_404 barber_id);
  has_appointments ← Appointment_first_by_barber (Barber.id barber);
  when_ (found has_appointments)
    (flash "No puedes eliminar un barbero con citas registradas." "warning";;
     return_ (Redirect "admin_barbers"));;
  delete_barber_row barber;;
  commit;;
  flash "Barbero eliminado" "success";;
  return_ (Redirect "admin_barbers").

(** *** [/mis-citas/cancel/<int:appointment_id>] *)

Definition cancel_user_appointment (appointment_id : Z) (now : datetime)
  : handler response :=
  (* Debe estar logueado *)
  uid ← session_get "user_id";
  when_ (negb (truthy uid))
    (flash "Debes iniciar sesión." "warning";;
     return_ (Redirect "login"));;
  logged_user_id ← session_get "user_id";
  (* Buscar al cliente asociado *)
  client ← Client_first_by_user logged_user_id;
  client ←
    match client with
    | Some c => mret c
    | None =>
        flash "No tienes permiso para cancelar esta cita." "danger";;
        return_ (Redirect "user_appointments")
    end;
  appointment ← (Appointment_query_get appointment_id ≫= or_404 appointment_id);
  (* Verifica que la cita pertenezca al usuario *)
  when_ (negb (Appointment.client_id appointment =? Client.id client))
    (flash "No puedes cancelar una cita que no es tuya." "danger";;
     return_ (Redirect "user_appointments"));;
  (* No se puede cancelar citas pasadas *)
  when_ (dt_ltb (Appointment.appointment_datetime appointment) now)
    (flash "No puedes cancelar una cita que ya pasó." "warning";;
     return_ (Redirect "user_appointments"));;
  (* Cancelamos la cita *)
  set_appointment_status appointment (lit "cancelada");;
  commit;;
  flash "Cita cancelada correctamente." "success";;
  return_ (Redirect "user_appointments").

(** *** [/register], [/login], [/logout] *)

(** [salt] is the salt [generate_password_hash] draws for this request. *)
Definition register (method : http_method) (form : gmap string pystr)
    (salt : pystr) : handler response :=
  match method with
  | POST =>
      let username := strip (or_empty (form_get form "username")) in
      let password := strip (or_empty (form_get form "password")) in
      when_ (empty username || empty password)
        (flash "Todos los campos son obligatorios." "warning";;
         return_ (Redirect "register"));;
      when_ (len username <? 3)
        (flash "El usuario debe tener al menos 3 caracteres." "warning";;
         return_ (Redirect "register"));;
      when_ (len password <? 6)
        (flash "La contraseña debe tener al menos 6 caracteres." "warning";;
         return_ (Redirect "register"));;
      taken ← User_first_by_username username;
      when_ (found taken)
        (flash "Ese usuario ya existe." "danger";;
         return_ (Redirect "register"));;
      add_user username (generate_password_hash salt password) (lit "cliente");;
      commit;;
      flash "Registro exitoso." "success";;
      return_ (Redirect "login")
  | GET => return_ (Render "register.html")
  end.

Definition login (method : http_method) (form : gmap string pystr)
  : handler response :=
  match method with
  | POST =>
      let username := strip (or_empty (form_get form "username")) in
      let password := strip (or_empty (form_get form "password")) in
      when_ (empty username || empty password)
        (flash "Completa todos los campos." "warning";;
         return_ (Redirect "login"));;
      user ← User_first_by_username username;
      when_ (match user with
             | Some u => negb (check_password_hash (User.password u) password)
             | None => true
             end)
        (flash "Credenciales incorrectas." "danger";;
         return_ (Redirect "login"));;
      user ← attr user;
      session_set "user_id" (PyInt (User.id user));;
      session_set "role" (PyStr (User.role user));;
      flash (Formatted "Bienvenido " (User.username user)) "success";;
      return_ (Redirect "index")
  | GET => return_ (Render "login.html")
  end.

Definition logout : handler response :=
  session_clear;;
  flash "Sesión cerrada." "info";;
  return_ (Redirect "index").

(** ** The booking validations as the specification lists them *)

Inductive booking_error :=
  | MissingFieldError
  | NotFoundError
  | InvalidFormatError
  | PastDateError
  | SlotConflictError.

(** The message a rejected booking is redirected with. *)
Definition booking_flash (e : booking_error) : message * string :=
  match e with
  | MissingFieldError =>
      (Literal "Por favor completa todos los campos obligatorios.", "warning")
  | NotFoundError => (Literal "Servicio o profesional no válido.", "danger")
  | InvalidFormatError => (Literal "Fecha u hora inválida.", "danger")
  | PastDateError => (Literal "No puedes reservar una cita en el pasado.", "warning")
  | SlotConflictError =>
      (Literal "Ese horario ya está ocupado con ese profesional. Elige otra hora.",
       "warning")
  end.

(** A rejected booking: a redirect back to the form with the message of
    the error; the database and the session are as they were. *)
Definition rejected (e : booking_error) (w : world) : response * world :=
  (Redirect "book_appointment",
   mk_world (db w) (session w) (flashes w ++ [booking_flash e])).

(** The key a submitted id stands for, and the submitted date and time
    as a datetime. *)
Definition submitted_id (form : gmap string pystr) (key : string) : option Z :=
  match form !! key with
  | Some s => db_int s
  | None => None
  end.

Definition submitted_datetime (form : gmap string pystr) : option datetime :=
  strptime (format_str (form !! "date") ++ lit " " ++ format_str (form !! "time"))
           (lit "%Y-%m-%d %H:%M").

(** 1. The required fields are present: submitted and not empty, the
    name and the phone after trimming. *)
Definition required_present (form : gmap string pystr) : bool :=
  negb (empty (strip (or_empty (form !! "full_name"))))
  && negb (empty (strip (or_empty (form !! "phone"))))
  && truthy_str (form !! "service_id")
  && truthy_str (form !! "barber_id")
  && truthy_str (form !! "date")
  && truthy_str (form !! "time").

(** 2. The service id and the barber id resolve to existing records. *)
Definition ids_resolve (d : database) (form : gmap string pystr) : bool :=
  match submitted_id form "service_id", submitted_id form "barber_id" with
  | Some sk, Some bk =>
      existsb (fun s => Service.id s =? sk) (services d)
      && existsb (fun b => Barber.id b =? bk) (barbers d)
  | _, _ => false
  end.

(** 3. Date and time parse as a datetime. *)
Definition datetime_parses (form : gmap string pystr) : bool :=
  found (submitted_datetime form).

(** 4. The datetime is not strictly before the current moment. *)
Definition not_in_past (form : gmap string pystr) (now : datetime) : bool :=
  match submitted_datetime form with
  | Some dt => negb (dt_ltb dt now)
  | None => false
  end.

(** 5. No existing appointment has the same barber and datetime. *)
Definition slot_taken (d : database) (barber_id : Z) (dt : datetime) : bool :=
  existsb (fun a => (Appointment.barber_id a =? barber_id)
                    && bool_decide (Appointment.appointment_datetime a = dt))
          (appointments d).

Definition slot_free (d : database) (form : gmap string pystr) : bool :=
  match submitted_id form "barber_id", submitted_datetime form with
  | Some bk, Some dt => negb (slot_taken d bk dt)
  | _, _ => false
  end.

(** The five validations in the order of the specification, each with
    the error it raises and whether the submission passes it. *)
Definition validations (d : database) (form : gmap string pystr) (now : datetime)
  : list (booking_error * bool) :=
  [ (MissingFieldError, required_present form);
    (NotFoundError, ids_resolve d form);
    (InvalidFormatError, datetime_parses form);
    (PastDateError, not_in_past form now);
    (SlotConflictError, slot_free d form) ].

(** First failure wins. *)
Definition first_failure (d : database) (form : gmap string pystr) (now : datetime)
  : option booking_error :=
  match find (fun v => negb (snd v)) (validations d form now) with
  | Some v => Some (fst v)
  | None => None
  end.

(** The user of the session, as [login] records it. *)
Definition logged_in (w : world) (uid : Z) : Prop :=
  session w !! "user_id" = Some (PyInt uid) /\ uid <> 0.

(** On success: find or create the Client profile of the session user,
    then create the Appointment, [pendiente], linked to that client and
    to the submitted service and barber. *)
Definition client_of (d : database) (uid : Z) : option Client.t :=
  find (fun c => Client.user_id c =? uid) (clients d).

Definition new_client (d : database) (uid : Z) (form : gmap string pystr) : Client.t :=
  Client.mk (next_id (map Client.id (clients d))) uid
            (strip (or_empty (form !! "full_name")))
            (strip (or_empty (form !! "phone")))
            (Some (strip (or_empty (form !! "email")))).

Definition new_appointment (d : database) (form : gmap string pystr)
    (dt : datetime) (client_id sk bk : Z) : Appointment.t :=
  Appointment.mk (next_id (map Appointment.id (appointments d))) dt
                 (lit "pendiente") (Some (strip (or_empty (form !! "notes"))))
                 client_id sk bk.

Definition booked (d : database) (uid : Z) (form : gmap string pystr)
    (dt : datetime) (sk bk : Z) : database :=
  match client_of d uid with
  | Some c =>
      mk_database (services d) (barbers d) (clients d)
                  (appointments d ++ [new_appointment d form dt (Client.id c) sk bk])
                  (users d)
  | None =>
      let c := new_client d uid form in
      mk_database (services d) (barbers d) (clients d ++ [c])
                  (appointments d ++ [new_appointment d form dt (Client.id c) sk bk])
                  (users d)
  end.

Definition accepted (d : database) (w : world) : response * world :=
  (Redirect "index",
   mk_world d (session w)
            (flashes w ++ [(Literal "Tu cita ha sido registrada con éxito.", "success")])).

(** ** Cancelling, as the specification words it *)

(** The requester is authenticated, the appointment exists and belongs to
    the Client record of the session user, and it is not in the past. *)
Definition may_cancel (w : world) (appointment_id : Z) (now : datetime) : Prop :=
  truthy (session w !! "user_id") = true
  /\ exists uid c a,
       int_param (session w !! "user_id") = Some uid
       /\ client_of (db w) uid = Some c
       /\ find (fun a' => Appointment.id a' =? appointment_id) (appointments (db w)) = Some a
       /\ Appointment.client_id a = Client.id c
       /\ dt_geb (Appointment.appointment_datetime a) now = true.

(** The database after the appointment with that key is cancelled. *)
Definition cancelled (d : database) (appointment_id : Z) : database :=
  mk_database (services d) (barbers d) (clients d)
    (map (fun a => if Appointment.id a =? appointment_id
                   then Appointment.set_status (lit "cancelada") a else a)
         (appointments d))
    (users d).

Definition cancel_success : message * string :=
  (Literal "Cita cancelada correctamente.", "success").

(** ** Deleting, as the specification words it *)

Definition is_admin (w : world) : Prop :=
  session w !! "role" = Some (PyStr (lit "admin")).

Definition without_service (d : database) (service_id : Z) : database :=
  mk_database (List.filter (fun s => negb (Service.id s =? service_id)) (services d))
              (barbers d) (clients d) (appointments d) (users d).

Definition without_barber (d : database) (barber_id : Z) : database :=
  mk_database (services d)
              (List.filter (fun b => negb (Barber.id b =? barber_id)) (barbers d))
              (clients d) (appointments d) (users d).

(** ** Creating a service *)

(** Some required field of the form is absent or empty. *)
Definition service_field_missing (form : gmap string pystr) : bool :=
  negb (truthy_str (form !! "name"))
  || negb (truthy_str (form !! "duration"))
  || negb (truthy_str (form !! "price")).

Definition is_redirect (r : response) : Prop :=
  match r with
  | Redirect _ => True
  | _ => False
  end.

(** The specification's sentence: a submission with a required field
    absent, or with a duration or a price that is not numeric, fails with
    a redirect and nothing is persisted. *)
Definition create_rejects_non_numeric (w : world) (form : gmap string pystr) : Prop :=
  service_field_missing form = true
  \/ py_int (or_empty (form !! "duration")) = None
  \/ py_float (or_empty (form !! "price")) = None ->
  is_redirect (fst (respond (admin_service_create POST form) w))
  /\ db (snd (respond (admin_service_create POST form) w)) = db w.

(** ** Logging in, as the specification words it *)

(** The trimmed credentials of a form. *)
Definition form_username (form : gmap string pystr) : pystr :=
  strip (or_empty (form !! "username")).

Definition form_password (form : gmap string pystr) : pystr :=
  strip (or_empty (form !! "password")).

Definition user_named (d : database) (username : pystr) : option User.t :=
  find (fun u => bool_decide (User.username u = username)) (users d).

(** The username does not exist, or the password does not match the
    stored hash. *)
Definition credentials_wrong (w : world) (form : gmap string pystr) : Prop :=
  match user_named (db w) (form_username form) with
  | Some u => check_password_hash (User.password u) (form_password form) = false
  | None => True
  end.

(** The failure the specification calls AuthError. *)
Definition auth_error (w : world) : response * world :=
  (Redirect "login",
   mk_world (db w) (session w)
            (flashes w ++ [(Literal "Credenciales incorrectas.", "danger")])).

(** The failure of a form with an empty field. *)
Definition login_incomplete (w : world) : response * world :=
  (Redirect "login",
   mk_world (db w) (session w)
            (flashes w ++ [(Literal "Completa todos los campos.", "warning")])).

(** The specification's sentence: every login with wrong credentials
    fails with AuthError, the session unchanged. *)
Definition failed_login_is_auth_error (w : world) (form : gmap string pystr) : Prop :=
  credentials_wrong w form ->
  respond (login POST form) w = auth_error w.

(** ** The other routes *)

(** *** Pages *)

(** [render_template(template, ...)] with the data it is given: a view
    that ends this way falls through with the template and the data. *)
Definition render_template {A} (template : string) (context : A) : handler (string * A) :=
  mret (template, context).

(** A request to a view that renders data: the page, or the response the
    view returned instead. *)
Definition serve {A} (h : handler A) (w : world) : (A + response) * world :=
  match h (mk_state (db w) (db w) (session w) (flashes w)) with
  | (Next a, st) => (inl a, mk_world (stored st) (st_session st) (st_flashes st))
  | (Return r, st) => (inr r, mk_world (stored st) (st_session st) (st_flashes st))
  end.

(** [order_by(key.desc())]: [before a b] says that the key of [a] is less
    than the key of [b].  Rows with equal keys stay in scan order. *)
Fixpoint insert_desc {A} (before : A -> A -> bool) (x : A) (l : list A) : list A :=
  match l with
  | [] => [x]
  | y :: l' => if before x y then y :: insert_desc before x l' else x :: l
  end.

Definition order_by_desc {A} (before : A -> A -> bool) (l : list A) : list A :=
  fold_right (insert_desc before) [] l.

Definition appointment_before (a b : Appointment.t) : bool :=
  dt_ltb (Appointment.appointment_datetime a) (Appointment.appointment_datetime b).

(** [/] *)
Definition index : handler (string * list Service.t) :=
  services ← query (fun d => List.filter Service.is_active (services d));
  render_template "index.html" services.

(** [/services] *)
Definition list_services : handler (string * list Service.t) :=
  services ← query services;
  render_template "services.html" services.

(** [/admin/appointments] *)
Definition admin_appointments : handler (string * list Appointment.t) :=
  role ← session_get "role";
  when_ (not_admin role)
    (flash "No tienes permiso para acceder aquí." "danger";;
     return_ (Redirect "index"));;
  appointments ← query (fun d => order_by_desc appointment_before (appointments d));
  render_template "admin_appointments.html" appointments.

(** [/admin/appointment/<int:appointment_id>/<string:new_status>] *)
Definition update_appointment_status (appointment_id : Z) (new_status : pystr)
  : handler response :=
  role ← session_get "role";
  when_ (not_admin role)
    (flash "No tienes permiso para acceder aquí." "danger";;
     return_ (Redirect "index"));;
  appointment ← (Appointment_query_get appointment_id ≫= or_404 appointment_id);
  set_appointment_status appointment new_status;;
  commit;;
  flash "Estado de la cita actualizado." "success";;
  return_ (Redirect "admin_appointments").

(** [/admin/services] *)
Definition admin_services : handler (string * list Service.t) :=
  role ← session_get "role";
  when_ (not_admin role)
    (flash "No tienes permiso" "danger";;
     return_ (Redirect "index"));;
  services ← query (fun d =>
    order_by_desc (fun a b => Service.id a <? Service.id b) (services d));
  render_template "admin_services.html" services.

(** [int(x)] and [float(x)] for [x] a [str] or [None]: [None] raises
    [TypeError]. *)
Definition int_of (v : option pystr) : handler Z :=
  match v with
  | Some s => int_ s
  | None => return_ (Uncaught "TypeError")
  end.

Definition float_of (v : option pystr) : handler float :=
  match v with
  | Some s => float_ s
  | None => return_ (Uncaught "TypeError")
  end.

(** The UPDATE the commit flushes for an edited service: every row with
    the key of [s] gets the new values, unless the flush raises.  As for
    the INSERT, a duration outside the engine's integers raises
    [OverflowError] when the parameters are bound; after that the NOT NULL
    columns raise [IntegrityError] for a name that is [None] and for a
    price that is NaN. *)
Definition set_service_fields (s : Service.t) (name description : option pystr)
    (duration_minutes : Z) (price : float) : handler unit :=
  if negb (int64 duration_minutes) then return_ (Uncaught "OverflowError")
  else
    match name with
    | Some n =>
        if PrimFloat.is_nan price then return_ (Uncaught "IntegrityError")
        else
          update (fun d =>
            mk_database
              (map (fun s' => if Service.id s' =? Service.id s
                              then Service.mk (Service.id s') n description
                                              duration_minutes (stored_float price)
                                              (Service.is_active s')
                              else s')
                   (services d))
              (barbers d) (clients d) (appointments d) (users d))
    | None => return_ (Uncaught "IntegrityError")
    end.

(** [/admin/services/edit/<int:service_id>] *)
Definition admin_service_edit (service_id : Z) (method : http_method)
    (form : gmap string pystr) : handler response :=
  role ← session_get "role";
  when_ (not_admin role)
    (flash "No tienes permiso" "danger";;
     return_ (Redirect "index"));;
  service ← (Service_query_get (Some (PyInt service_id)) ≫= or_404 service_id);
  match method with
  | POST =>
      let name := form_get form "name" in
      let description := form_get form "description" in
      duration_minutes ← int_of (form_get form "duration");
      price ← float_of (form_get form "price");
      set_service_fields service name description duration_minutes price;;
      commit;;
      flash "Servicio actualizado" "success";;
      return_ (Redirect "admin_services")
  | GET => return_ (Render "admin_service_edit.html")
  end.

(** [service.is_active = not service.is_active] *)
Definition set_service_active (s : Service.t) (active : bool) : handler unit :=
  update (fun d =>
    mk_database
      (map (fun s' => if Service.id s' =? Service.id s
                      then Service.mk (Service.id s') (Service.name s')
                                      (Service.description s') (Service.duration_minutes s')
                                      (Service.price s') active
                      else s')
           (services d))
      (barbers d) (clients d) (appointments d) (users d)).

(** [/admin/services/toggle/<int:service_id>] *)
Definition admin_service_toggle (service_id : Z) : handler response :=
  role ← session_get "role";
  when_ (not_admin role)
    (flash "No tienes permiso" "danger";;
     return_ (Redirect "index"));;
  service ← (Service_query_get (Some (PyInt service_id)) ≫= or_404 service_id);
  set_service_active service (negb (Service.is_active service));;
  commit;;
  flash "Estado actualizado" "info";;
  return_ (Redirect "admin_services").

(** [/admin/barbers] *)
Definition admin_barbers : handler (string * list Barber.t) :=
  role ← session_get "role";
  when_ (not_admin role)
    (flash "No tienes permiso" "danger";;
     return_ (Redirect "index"));;
  barbers ← query (fun d =>
    order_by_desc (fun a b => Barber.id a <? Barber.id b) (barbers d));
  render_template "admin_barbers.html" barbers.

(** [db.session.add(Barber(name=..., specialty=...))]; [is_active] takes
    its default. *)
Definition add_barber_row (name : pystr) (specialty : option pystr) : handler unit :=
  update (fun d =>
    let b := Barber.mk (next_id (map Barber.id (barbers d))) name specialty true in
    mk_database (services d) (barbers d ++ [b]) (clients d)
                (appointments d) (users d)).

(** [/admin/barbers/add] *)
Definition add_barber (method : http_method) (form : gmap string pystr)
  : handler response :=
  role ← session_get "role";
  when_ (not_admin role)
    (flash "No tienes permiso" "danger";;
     return_ (Redirect "index"));;
  match method with
  | POST =>
      let name := form_get form "name" in
      let specialty := form_get form "specialty" in
      when_ (negb (truthy_str name))
        (flash "El nombre es obligatorio" "warning";;
         return_ (Redirect "add_barber"));;
      add_barber_row (or_empty name) specialty;;
      commit;;
      flash "Barbero agregado" "success";;
      return_ (Redirect "admin_barbers")
  | GET => return_ (Render "add_barber.html")
  end.

(** The UPDATE the commit flushes for an edited barber; the name column
    is NOT NULL. *)
Definition set_barber_fields (b : Barber.t) (name specialty : option pystr) : handler unit :=
  match name with
  | Some n =>
      update (fun d =>
        mk_database (services d)
          (map (fun b' => if Barber.id b' =? Barber.id b
                          then Barber.mk (Barber.id b') n specialty (Barber.is_active b')
                          else b')
               (barbers d))
          (clients d) (appointments d) (users d))
  | None => return_ (Uncaught "IntegrityError")
  end.

(** [/admin/barbers/edit/<int:barber_id>] *)
Definition edit_barber (barber_id : Z) (method : http_method)
    (form : gmap string pystr) : handler response :=
  role ← session_get "role";
  when_ (not_admin role)
    (flash "No tienes permiso" "danger";;
     return_ (Redirect "index"));;
  barber ← (Barber_query_get (Some (PyInt barber_id)) ≫= or_404 barber_id);
  match method with
  | POST =>
      set_barber_fields barber (form_get form "name") (form_get form "specialty");;
      commit;;
      flash "Barbero actualizado" "success";;
      return_ (Redirect "admin_barbers")
  | GET => return_ (Render "edit_barber.html")
  end.

(** [barber.is_active = not barber.is_active] *)
Definition set_barber_active (b : Barber.t) (active : bool) : handler unit :=
  update (fun d =>
    mk_database (services d)
      (map (fun b' => if Barber.id b' =? Barber.id b
                      then Barber.mk (Barber.id b') (Barber.name b')
                                     (Barber.specialty b') active
                      else b')
           (barbers d))
      (clients d) (appointments d) (users d)).

(** [/admin/barbers/toggle/<int:barber_id>] *)
Definition toggle_barber (barber_id : Z) : handler response :=
  role ← session_get "role";
  when_ (not_admin role)
    (flash "No tienes permiso" "danger";;
     return_ (Redirect "index"));;
  barber ← (Barber_query_get (Some (PyInt barber_id)) ≫= or_404 barber_id);
  set_barber_active barber (negb (Barber.is_active barber));;
  commit;;
  flash "Estado actualizado" "info";;
  return_ (Redirect "admin_barbers").

(** [/mis-citas] *)
Definition user_appointments : handler (string * list Appointment.t) :=
  (* Debe estar logueado *)
  uid ← session_get "user_id";
  when_ (negb (truthy uid))
    (flash "Debes iniciar sesión para ver tus citas." "warning";;
     return_ (Redirect "login"));;
  logged_user_id ← session_get "user_id";
  (* Buscar el perfil de cliente asociado al usuario *)
  client ← Client_first_by_user logged_user_id;
  appointments ←
    match client with
    | None => mret []  (* No tiene citas aún *)
    | Some c =>
        query (fun d =>
          order_by_desc appointment_before
            (List.filter (fun a => Appointment.client_id a =? Client.id c)
                         (appointments d)))
    end;
  render_template "user_appointments.html" appointments.

(** *** Start-up *)

(** [seed_initial_data()] *)
Definition seed_initial_data : handler unit :=
  n ← query (fun d => Z.of_nat (length (services d)));
  when_ (n =? 0)
    (add_service (lit "Corte cl" ++ [225%N] ++ lit "sico")
                 (Some (lit "Corte tradicional")) 30 10%float true;;
     add_service (lit "Afeitado premium")
                 (Some (lit "Afeitado con toalla caliente")) 40 15%float true;;
     add_service (lit "Masaje relajante")
                 (Some (lit "Masaje de cuello y hombros")) 20 12%float true);;
  n ← query (fun d => Z.of_nat (length (barbers d)));
  when_ (n =? 0)
    (add_barber_row (lit "Carlos") (Some (lit "Cortes modernos"));;
     add_barber_row (lit "Luis") (Some (lit "Barbas y afeitados"));;
     add_barber_row (lit "Ana") (Some (lit "Spa y masajes")));;
  commit.

(** The block under [if __name__ == "__main__"], up to [app.run]: the
    tables are there, the seed data, and an [admin] user if there is no
    user of that name. *)
Definition startup (salt : pystr) : handler unit :=
  seed_initial_data;;
  admin_user ← User_first_by_username (lit "admin");
  when_ (negb (found admin_user))
    (add_user (lit "admin") (generate_password_hash salt (lit "1234")) (lit "admin");;
     commit).

(** The database a start-up leaves. *)
Definition started (salt : pystr) (d : database) : database :=
  stored (snd (startup salt (mk_state d d ∅ []))).

(** ** What the tables are expected to keep *)

(** Primary keys are unique in every table. *)
Definition keys_unique (d : database) : Prop :=
  List.NoDup (map Service.id (services d))
  /\ List.NoDup (map Barber.id (barbers d))
  /\ List.NoDup (map Client.id (clients d))
  /\ List.NoDup (map Appointment.id (appointments d))
  /\ List.NoDup (map User.id (users d)).

(** [username] is declared unique. *)
Definition usernames_unique (d : database) : Prop :=
  List.NoDup (map User.username (users d)).

(** At most one Client per user. *)
Definition one_client_per_user (d : database) : Prop :=
  List.NoDup (map Client.user_id (clients d)).

(** No two appointments have the same barber and datetime. *)
Definition slot_of (a : Appointment.t) : Z * datetime :=
  (Appointment.barber_id a, Appointment.appointment_datetime a).

Definition slots_unique (d : database) : Prop :=
  List.NoDup (map slot_of (appointments d)).

(** ** The routes *)

(** A request to one of the routes of the application, with what the
    view function takes from it: the method where the route accepts both,
    the form, the parts of the path, and what the view draws from outside
    (the current time, the salt of a new hash). *)
Inductive request :=
  | Index
  | ListServices
  | BookAppointment (method : http_method) (form : gmap string pystr) (now : datetime)
  | AdminAppointments
  | UpdateAppointmentStatus (appointment_id : Z) (new_status : pystr)
  | AdminServices
  | AdminServiceCreate (method : http_method) (form : gmap string pystr)
  | AdminServiceEdit (service_id : Z) (method : http_method) (form : gmap string pystr)
  | AdminServiceToggle (service_id : Z)
  | AdminServiceDelete (service_id : Z)
  | AdminBarbers
  | AddBarber (method : http_method) (form : gmap string pystr)
  | EditBarber (barber_id : Z) (method : http_method) (form : gmap string pystr)
  | ToggleBarber (barber_id : Z)
  | DeleteBarber (barber_id : Z)
  | UserAppointments
  | CancelUserAppointment (appointment_id : Z) (now : datetime)
  | Register (method : http_method) (form : gmap string pystr) (salt : pystr)
  | Login (method : http_method) (form : gmap string pystr)
  | Logout.

(** The response of a view that renders data. *)
Definition rendered {A} (h : handler (string * A)) : handler response :=
  page ← h;
  return_ (Render (fst page)).

(** The view function of each route. *)
Definition dispatch (req : request) : handler response :=
  match req with
  | Index => rendered index
  | ListServices => rendered list_services
  | BookAppointment m f now => book_appointment m f now
  | AdminAppointments => rendered admin_appointments
  | UpdateAppointmentStatus k st => update_appointment_status k st
  | AdminServices => rendered admin_services
  | AdminServiceCreate m f => admin_service_create m f
  | AdminServiceEdit k m f => admin_service_edit k m f
  | AdminServiceToggle k => admin_service_toggle k
  | AdminServiceDelete k => admin_service_delete k
  | AdminBarbers => rendered admin_barbers
  | AddBarber m f => add_barber m f
  | EditBarber k m f => edit_barber k m f
  | ToggleBarber k => toggle_barber k
  | DeleteBarber k => delete_barber k
  | UserAppointments => rendered user_appointments
  | CancelUserAppointment k now => cancel_user_appointment k now
  | Register m f salt => register m f salt
  | Login m f => login m f
  | Logout => logout
  end.

(** The world after a sequence of requests, one after the other. *)
Fixpoint after (reqs : list request) (w : world) : world :=
  match reqs with
  | [] => w
  | req :: reqs' => after reqs' (snd (respond (dispatch req) w))
  end.

(** The appointments [/mis-citas] shows to the user of a session. *)
Definition own_appointments (w : world) : list Appointment.t :=
  match match int_param (session w !! "user_id") with
        | Some uid => client_of (db w) uid
        | None => None
        end with
  | Some c =>
      order_by_desc appointment_before
        (List.filter (fun a => Appointment.client_id a =? Client.id c)
                     (appointments (db w)))
  | None => []
  end.

(** The database after the status of the appointment with that key is
    set. *)
Definition with_status (d : database) (appointment_id : Z) (st : pystr) : database :=
  mk_database (services d) (barbers d) (clients d)
    (map (fun a => if Appointment.id a =? appointment_id
                   then Appointment.set_status st a else a)
         (appointments d))
    (users d).

(** The database after the [is_active] flag of the service, or of the
    barber, with that key is set. *)
Definition with_service_active (d : database) (service_id : Z) (active : bool) : database :=
  mk_database
    (map (fun s => if Service.id s =? service_id
                   then Service.mk (Service.id s) (Service.name s) (Service.description s)
                                   (Service.duration_minutes s) (Service.price s) active
                   else s)
         (services d))
    (barbers d) (clients d) (appointments d) (users d).

Definition with_barber_active (d : database) (barber_id : Z) (active : bool) : database :=
  mk_database (services d)
    (map (fun b => if Barber.id b =? barber_id
                   then Barber.mk (Barber.id b) (Barber.name b) (Barber.specialty b) active
                   else b)
         (barbers d))
    (clients d) (appointments d) (users d).

(** The rows [seed_initial_data] puts into an empty table. *)
Definition default_services : list Service.t :=
  [ Service.mk 1 (lit "Corte cl" ++ [225%N] ++ lit "sico")
               (Some (lit "Corte tradicional")) 30 10%float true;
    Service.mk 2 (lit "Afeitado premium")
               (Some (lit "Afeitado con toalla caliente")) 40 15%float true;
    Service.mk 3 (lit "Masaje relajante")
               (Some (lit "Masaje de cuello y hombros")) 20 12%float true ].

Definition default_barbers : list Barber.t :=
  [ Barber.mk 1 (lit "Carlos") (Some (lit "Cortes modernos")) true;
    Barber.mk 2 (lit "Luis") (Some (lit "Barbas y afeitados")) true;
    Barber.mk 3 (lit "Ana") (Some (lit "Spa y masajes")) true ].

(** A computation keeps [P] when [P], true of the database as the request
    sees it and as it is stored, is still true of both afterwards. *)
Definition keeps {A} (P : database -> Prop) (h : handler A) : Prop :=
  forall st, P (view st) -> P (stored st) ->
    P (view (snd (h st))) /\ P (stored (snd (h st))).

(** * Proofs *)

(** ** Datetimes *)

Lemma lex_opp c k : lex (CompOpp c) (CompOpp k) = CompOpp (lex c k).
Proof. destruct c; reflexivity. Qed.

Lemma dt_compare_antisym a b : dt_compare b a = CompOpp (dt_compare a b).
Proof.
  unfold dt_compare.
  rewrite (Z.compare_antisym (year a)), (Z.compare_antisym (month a)),
          (Z.compare_antisym (day a)), (Z.compare_antisym (hour a)),
          (Z.compare_antisym (minute a)), (Z.compare_antisym (second a)),
          (Z.compare_antisym (microsecond a)).
  rewrite !lex_opp. reflexivity.
Qed.

Lemma dt_compare_refl a : dt_compare a a = Eq.
Proof. unfold dt_compare. rewrite !Z.compare_refl. reflexivity. Qed.

Lemma dt_ltb_irrefl a : dt_ltb a a = false.
Proof. unfold dt_ltb. rewrite dt_compare_refl. reflexivity. Qed.

Lemma dt_ltb_asym a b : dt_ltb a b = true -> dt_ltb b a = false.
Proof.
  unfold dt_ltb. rewrite (dt_compare_antisym a b).
  destruct (dt_compare a b); cbn; congruence.
Qed.

Lemma dt_compare_eq a b : dt_compare a b = Eq -> a = b.
Proof.
  destruct a as [y m d h n s u], b as [y' m' d' h' n' s' u'].
  unfold dt_compare. cbn [year month day hour minute second microsecond].
  destruct (Z.compare_spec y y'); cbn [lex]; try discriminate.
  destruct (Z.compare_spec m m'); cbn [lex]; try discriminate.
  destruct (Z.compare_spec d d'); cbn [lex]; try discriminate.
  destruct (Z.compare_spec h h'); cbn [lex]; try discriminate.
  destruct (Z.compare_spec n n'); cbn [lex]; try discriminate.
  destruct (Z.compare_spec s s'); cbn [lex]; try discriminate.
  destruct (Z.compare_spec u u'); try discriminate.
  intros _. congruence.
Qed.

(** [a] equals [b] or is after it: then [a < b] is false. *)
Lemma dt_not_before a b : a = b \/ dt_ltb b a = true -> dt_ltb a b = false.
Proof. intros [->|H]; [apply dt_ltb_irrefl | apply dt_ltb_asym, H]. Qed.

(** [a >= b], the negation of [a < b], says that [a] equals [b] or is
    after it. *)
Lemma dt_geb_iff a b : dt_geb a b = true <-> a = b \/ dt_ltb b a = true.
Proof.
  unfold dt_geb. rewrite negb_true_iff. split; [|apply dt_not_before].
  unfold dt_ltb. rewrite (dt_compare_antisym a b).
  destruct (dt_compare a b) eqn:Hc; cbn; try discriminate.
  - intros _. left. apply dt_compare_eq, Hc.
  - intros _. right. reflexivity.
Qed.

(** ** Strings *)

Lemma lstrip_head s :
  lstrip s = [] \/ exists c t, lstrip s = c :: t /\ isspace c = false.
Proof.
  induction s as [|c s IH]; cbn; [left; reflexivity|].
  destruct (isspace c) eqn:Hc; [exact IH|].
  right. exists c, s. split; [reflexivity | exact Hc].
Qed.

Lemma lstrip_fixed c t : isspace c = false -> lstrip (c :: t) = c :: t.
Proof. intros H. cbn. rewrite H. reflexivity. Qed.

Lemma lstrip_lstrip s : lstrip (lstrip s) = lstrip s.
Proof.
  destruct (lstrip_head s) as [-> | (c & t & -> & Hc)]; [reflexivity|].
  apply lstrip_fixed, Hc.
Qed.

(** What [lstrip] removes is a prefix. *)
Lemma lstrip_suffix s : exists sp, s = sp ++ lstrip s.
Proof.
  induction s as [|c s [sp IH]]; cbn; [exists []; reflexivity|].
  destruct (isspace c).
  - exists (c :: sp). cbn. rewrite <- IH. reflexivity.
  - exists []. reflexivity.
Qed.

(** Trimming a trimmed string changes nothing. *)
Lemma strip_idempotent s : strip (strip s) = strip s.
Proof.
  unfold strip, rstrip.
  set (t := lstrip s). set (u := rev (lstrip (rev t))).
  assert (lstrip u = u) as Hu.
  { destruct (lstrip_suffix (rev t)) as [sp Hsp].
    assert (t = u ++ rev sp) as Ht.
    { unfold u. rewrite <- rev_app_distr, <- Hsp, rev_involutive. reflexivity. }
    destruct u as [|c u']; [reflexivity|].
    destruct (lstrip_head s) as [H | (c' & t' & H & Hc)]; fold t in H;
      rewrite Ht in H; [discriminate|].
    injection H as -> _. apply lstrip_fixed, Hc. }
  rewrite Hu. unfold u. rewrite rev_involutive, lstrip_lstrip. reflexivity.
Qed.

Lemma long_not_empty s n : 0 < n -> n <= len s -> empty s = false.
Proof. intros Hn Hl. destruct s; [unfold len in Hl; cbn in Hl; lia | reflexivity]. Qed.

(** ** Queries *)

Lemma found_find {A} (p : A -> bool) (l : list A) : found (find p l) = existsb p l.
Proof.
  induction l as [|x l IH]; cbn; [reflexivity|].
  destruct (p x); cbn; auto.
Qed.

Lemma int_param_form (form : gmap string pystr) key :
  int_param (str_param (form !! key)) = submitted_id form key.
Proof. unfold submitted_id. destruct (form !! key); reflexivity. Qed.

(** ** [/book] *)

Lemma missing_condition (form : gmap string pystr) :
  empty (strip (or_empty (form !! "full_name")))
  || empty (strip (or_empty (form !! "phone")))
  || negb (truthy_str (form !! "service_id"))
  || negb (truthy_str (form !! "barber_id"))
  || negb (truthy_str (form !! "date"))
  || negb (truthy_str (form !! "time"))
  = negb (required_present form).
Proof.
  unfold required_present.
  destruct (empty (strip (or_empty (form !! "full_name")))),
           (empty (strip (or_empty (form !! "phone")))),
           (truthy_str (form !! "service_id")), (truthy_str (form !! "barber_id")),
           (truthy_str (form !! "date")), (truthy_str (form !! "time")); reflexivity.
Qed.

Ltac run := cbn [found negb when_ mret handler_ret flash return_ fst snd
                  view stored st_session st_flashes].

(** Without a user in the session the submission goes to the login
    page and nothing is read or written. *)
Lemma book_needs_login w method form now :
  truthy (session w !! "user_id") = false ->
  respond (book_appointment method form now) w =
    (Redirect "login",
     mk_world (db w) (session w)
              (flashes w ++ [(Literal "Debes iniciar sesión para reservar una cita.",
                              "warning")])).
Proof.
  intros H. unfold respond, book_appointment, mbind, handler_bind, session_get.
  run. rewrite H. reflexivity.
Qed.

(** The view function follows the list of validations: the first one
    that fails decides the rejection, and a submission that passes all
    five is booked. *)
Lemma book_appointment_post w form now :
  truthy (session w !! "user_id") = true ->
  respond (book_appointment POST form now) w =
    match first_failure (db w) form now with
    | Some e => rejected e w
    | None =>
        match int_param (session w !! "user_id"),
              submitted_id form "service_id", submitted_id form "barber_id",
              submitted_datetime form with
        | Some uid, Some sk, Some bk, Some dt =>
            accepted (booked (db w) uid form dt sk bk) w
        | _, _, _, _ => (Uncaught "StatementError", w)
        end
    end.
Proof.
  intros Hs.
  unfold first_failure, validations. cbn [find snd fst negb].
  unfold respond, book_appointment, rejected, accepted.
  unfold mbind, handler_bind, session_get, form_get. run. rewrite Hs. run.
  unfold query at 1 2. run.
  rewrite missing_condition.
  destruct (required_present form) eqn:H1; run; [|reflexivity].
  unfold Service_query_get, Barber_query_get, query. run.
  rewrite !int_param_form. unfold ids_resolve.
  destruct (submitted_id form "service_id") as [sk|] eqn:Hsk; [|reflexivity].
  destruct (submitted_id form "barber_id") as [bk|] eqn:Hbk;
    [|cbn; rewrite orb_true_r; reflexivity].
  rewrite !found_find, <- negb_andb.
  destruct (_ && _) eqn:H2; run; [|reflexivity].
  unfold datetime_parses, not_in_past, slot_free. rewrite Hbk.
  fold (submitted_datetime form).
  destruct (submitted_datetime form) as [dt|] eqn:H3; run; [|reflexivity].
  destruct (dt_ltb dt now) eqn:H4; run; [reflexivity|].
  unfold Appointment_first_by_slot, query. rewrite int_param_form, Hbk, found_find.
  run. fold (slot_taken (db w) bk dt).
  destruct (slot_taken (db w) bk dt) eqn:H5; run; [reflexivity|].
  unfold Client_first_by_user, column_int, query. rewrite !int_param_form, Hsk, Hbk.
  run.
  destruct (int_param (session w !! "user_id")) as [uid|]; run;
    [|destruct w; reflexivity].
  unfold booked, client_of, add_client, add_appointment, update, commit.
  destruct (find _ (clients (db w))) as [c|]; reflexivity.
Qed.

Lemma logged_in_truthy w uid :
  logged_in w uid -> truthy (session w !! "user_id") = true.
Proof.
  intros [Hs Hu]. rewrite Hs. cbn. apply negb_true_iff, Z.eqb_neq, Hu.
Qed.

Lemma book_rejects w form now uid e :
  logged_in w uid ->
  first_failure (db w) form now = Some e ->
  respond (book_appointment POST form now) w = rejected e w.
Proof.
  intros Hl He.
  rewrite (book_appointment_post w form now (logged_in_truthy w uid Hl)), He.
  reflexivity.
Qed.

Lemma book_accepts w form now uid sk bk dt :
  logged_in w uid ->
  first_failure (db w) form now = None ->
  submitted_id form "service_id" = Some sk ->
  submitted_id form "barber_id" = Some bk ->
  submitted_datetime form = Some dt ->
  respond (book_appointment POST form now) w = accepted (booked (db w) uid form dt sk bk) w.
Proof.
  intros Hl He Hsk Hbk Hdt.
  rewrite (book_appointment_post w form now (logged_in_truthy w uid Hl)), He.
  destruct Hl as [-> _]. cbn [int_param]. rewrite Hsk, Hbk, Hdt. reflexivity.
Qed.

Lemma slot_taken_iff d bk dt :
  slot_taken d bk dt = true <->
  exists a, In a (appointments d)
            /\ Appointment.barber_id a = bk
            /\ Appointment.appointment_datetime a = dt.
Proof.
  unfold slot_taken. rewrite existsb_exists. split.
  - intros (a & Hin & H). apply andb_true_iff in H as [H1 H2].
    exists a. split; [exact Hin|]. split.
    + apply Z.eqb_eq, H1.
    + apply bool_decide_eq_true in H2. exact H2.
  - intros (a & Hin & H1 & H2). exists a. split; [exact Hin|].
    apply andb_true_iff. split.
    + apply Z.eqb_eq, H1.
    + apply bool_decide_eq_true. exact H2.
Qed.

(** Which validation fails first, spelled out. *)
Lemma first_failure_cases d form now :
  first_failure d form now =
    if negb (required_present form) then Some MissingFieldError
    else if negb (ids_resolve d form) then Some NotFoundError
    else if negb (datetime_parses form) then Some InvalidFormatError
    else if negb (not_in_past form now) then Some PastDateError
    else if negb (slot_free d form) then Some SlotConflictError
    else None.
Proof.
  unfold first_failure, validations. cbn [find snd fst].
  destruct (required_present form), (ids_resolve d form), (datetime_parses form),
           (not_in_past form now), (slot_free d form); reflexivity.
Qed.

(** C1.  A POST to [/book] by a logged-in user goes through the five
    validations in the order of the list (required fields, service and
    barber exist, date and time parse, not in the past, slot free).  The
    first one that fails decides the outcome: a redirect to the form
    with the message of that error, the database as it was, so no
    Client and no Appointment is created.  A submission that fails none
    is booked: one Appointment is added. *)
Theorem book_validation_order w form now uid :
  logged_in w uid ->
  match first_failure (db w) form now with
  | Some e =>
      respond (book_appointment POST form now) w =
        (Redirect "book_appointment",
         mk_world (db w) (session w) (flashes w ++ [booking_flash e]))
  | None =>
      exists d' a,
        respond (book_appointment POST form now) w =
          (Redirect "index",
           mk_world d' (session w)
             (flashes w ++ [(Literal "Tu cita ha sido registrada con éxito.", "success")]))
        /\ appointments d' = appointments (db w) ++ [a]
  end.
Proof.
  intros [Hs Hu].
  assert (truthy (session w !! "user_id") = true) as Ht.
  { rewrite Hs. cbn. apply negb_true_iff, Z.eqb_neq, Hu. }
  rewrite (book_appointment_post w form now Ht).
  rewrite first_failure_cases.
  destruct (required_present form); cbn [negb]; [|reflexivity].
  unfold ids_resolve, datetime_parses.
  destruct (submitted_id form "service_id") as [sk|]; [|reflexivity].
  destruct (submitted_id form "barber_id") as [bk|]; [|reflexivity].
  destruct (_ && _); cbn [negb]; [|reflexivity].
  destruct (submitted_datetime form) as [dt|] eqn:Hdt; cbn [found negb]; [|reflexivity].
  destruct (not_in_past form now); cbn [negb]; [|reflexivity].
  destruct (slot_free (db w) form); cbn [negb]; [|reflexivity].
  rewrite Hs. cbn [int_param]. unfold accepted.
  exists (booked (db w) uid form dt sk bk).
  unfold booked. destruct (client_of (db w) uid); eexists; split; reflexivity.
Qed.


(** Cancelling an appointment does not free its slot. *)
Lemma slot_taken_cancelled d k bk dt :
  slot_taken (cancelled d k) bk dt = slot_taken d bk dt.
Proof.
  unfold slot_taken, cancelled. cbn [appointments].
  induction (appointments d) as [|a l IH]; [reflexivity|].
  cbn [map existsb]. rewrite IH.
  destruct (Appointment.id a =? k); reflexivity.
Qed.

(** C2.  The slot check looks at the barber and the datetime of the
    existing appointments and at nothing else: a submission that passes
    the first four validations is rejected with the slot-conflict message
    as soon as some appointment, whatever its status ([cancelada]
    included), has the same barber and the same datetime.  Cancelling
    appointments changes nothing to that: the slot stays taken. *)
Theorem slot_conflict_ignores_status w form now uid bk dt a :
  logged_in w uid ->
  required_present form = true ->
  ids_resolve (db w) form = true ->
  submitted_id form "barber_id" = Some bk ->
  submitted_datetime form = Some dt ->
  dt_ltb dt now = false ->
  In a (appointments (db w)) ->
  Appointment.barber_id a = bk ->
  Appointment.appointment_datetime a = dt ->
  respond (book_appointment POST form now) w =
    (Redirect "book_appointment",
     mk_world (db w) (session w) (flashes w ++ [booking_flash SlotConflictError]))
  /\ forall k, slot_taken (cancelled (db w) k) bk dt = true.
Proof.
  intros Hl H1 H2 Hbk Hdt H4 Hin Hb Ha.
  split; [|intros k; rewrite slot_taken_cancelled; apply slot_taken_iff; exists a; auto].
  apply (book_rejects w form now uid SlotConflictError Hl).
  rewrite first_failure_cases, H1, H2.
  unfold datetime_parses, not_in_past, slot_free. rewrite Hbk, Hdt, H4.
  assert (slot_taken (db w) bk dt = true) as ->.
  { apply slot_taken_iff. exists a. auto. }
  reflexivity.
Qed.

(** C3.  Once date and time have parsed: a datetime strictly before the
    current moment is rejected with the past-date message; a datetime
    equal to the current moment or after it passes this check, and the
    submission is then either rejected for the slot or booked. *)
Theorem past_date_rejected_strictly w form now uid dt :
  logged_in w uid ->
  required_present form = true ->
  ids_resolve (db w) form = true ->
  submitted_datetime form = Some dt ->
  (dt_ltb dt now = true ->
   respond (book_appointment POST form now) w =
     (Redirect "book_appointment",
      mk_world (db w) (session w) (flashes w ++ [booking_flash PastDateError])))
  /\ (dt = now \/ dt_ltb now dt = true ->
      not_in_past form now = true
      /\ first_failure (db w) form now <> Some PastDateError
      /\ (respond (book_appointment POST form now) w =
            (Redirect "book_appointment",
             mk_world (db w) (session w) (flashes w ++ [booking_flash SlotConflictError]))
          \/ exists d' a,
               respond (book_appointment POST form now) w =
                 (Redirect "index",
                  mk_world d' (session w)
                    (flashes w ++ [(Literal "Tu cita ha sido registrada con éxito.",
                                    "success")]))
               /\ appointments d' = appointments (db w) ++ [a]
               /\ Appointment.appointment_datetime a = dt)).
Proof.
  intros Hl H1 H2 Hdt.
  pose proof (first_failure_cases (db w) form now) as Hff.
  rewrite H1, H2 in Hff. unfold datetime_parses in Hff. rewrite Hdt in Hff.
  cbn [negb found] in Hff.
  assert (not_in_past form now = negb (dt_ltb dt now)) as Hnp.
  { unfold not_in_past. rewrite Hdt. reflexivity. }
  rewrite Hnp in Hff. split.
  - intros Hlt. rewrite Hlt in Hff.
    exact (book_rejects w form now uid PastDateError Hl Hff).
  - intros Hge. apply dt_not_before in Hge. rewrite Hge in Hff, Hnp.
    cbn [negb] in Hff. split; [exact Hnp|].
    destruct (slot_free (db w) form) eqn:Hfree; cbn [negb] in Hff.
    + split; [rewrite Hff; discriminate|]. right.
      unfold ids_resolve in H2.
      destruct (submitted_id form "service_id") as [sk|] eqn:Hsk; [|discriminate].
      destruct (submitted_id form "barber_id") as [bk|] eqn:Hbk; [|discriminate].
      rewrite (book_accepts w form now uid sk bk dt Hl Hff Hsk Hbk Hdt).
      unfold accepted, booked.
      destruct (client_of (db w) uid); do 2 eexists; repeat split; reflexivity.
    + split; [rewrite Hff; discriminate|]. left.
      exact (book_rejects w form now uid SlotConflictError Hl Hff).
Qed.


(** C4.  A booking that passes the validations, by a session user who
    already has a Client profile: the clients table is left as it is (so
    the name, phone and email of the profile stay, whatever the form
    says), and the new Appointment is [pendiente] and linked to that
    profile.  Only when the user has no profile is a Client created, from
    the trimmed name, phone and email of the form, and the Appointment is
    linked to it. *)
Theorem booking_keeps_existing_client w form now uid sk bk dt :
  logged_in w uid ->
  first_failure (db w) form now = None ->
  submitted_id form "service_id" = Some sk ->
  submitted_id form "barber_id" = Some bk ->
  submitted_datetime form = Some dt ->
  let d := db w in
  let notes := Some (strip (or_empty (form !! "notes"))) in
  let success := (Literal "Tu cita ha sido registrada con éxito.", "success") in
  (forall c,
     find (fun c' => Client.user_id c' =? uid) (clients d) = Some c ->
     respond (book_appointment POST form now) w =
       (Redirect "index",
        mk_world
          (mk_database (services d) (barbers d) (clients d)
             (appointments d ++
                [Appointment.mk (next_id (map Appointment.id (appointments d)))
                   dt (lit "pendiente") notes (Client.id c) sk bk])
             (users d))
          (session w) (flashes w ++ [success])))
  /\ (find (fun c' => Client.user_id c' =? uid) (clients d) = None ->
      let c := Client.mk (next_id (map Client.id (clients d))) uid
                 (strip (or_empty (form !! "full_name")))
                 (strip (or_empty (form !! "phone")))
                 (Some (strip (or_empty (form !! "email")))) in
      respond (book_appointment POST form now) w =
        (Redirect "index",
         mk_world
           (mk_database (services d) (barbers d) (clients d ++ [c])
              (appointments d ++
                 [Appointment.mk (next_id (map Appointment.id (appointments d)))
                    dt (lit "pendiente") notes (Client.id c) sk bk])
              (users d))
           (session w) (flashes w ++ [success]))).
Proof.
  intros Hl Hff Hsk Hbk Hdt d notes success.
  rewrite (book_accepts w form now uid sk bk dt Hl Hff Hsk Hbk Hdt).
  unfold accepted, booked, client_of. fold d. split.
  - intros c Hc. rewrite Hc. reflexivity.
  - intros Hc. rewrite Hc. reflexivity.
Qed.

(** C10.  The second validation asks only that the service and the barber
    exist.  A submission naming a service or a barber whose [is_active]
    flag is false passes it, and when the other validations pass too the
    Appointment is created with that service and that barber. *)
Theorem inactive_service_or_barber_is_booked w form now uid s b dt :
  logged_in w uid ->
  In s (services (db w)) ->
  In b (barbers (db w)) ->
  Service.is_active s = false \/ Barber.is_active b = false ->
  submitted_id form "service_id" = Some (Service.id s) ->
  submitted_id form "barber_id" = Some (Barber.id b) ->
  required_present form = true ->
  submitted_datetime form = Some dt ->
  dt_ltb dt now = false ->
  slot_taken (db w) (Barber.id b) dt = false ->
  ids_resolve (db w) form = true
  /\ exists d' a,
       respond (book_appointment POST form now) w =
         (Redirect "index",
          mk_world d' (session w)
            (flashes w ++ [(Literal "Tu cita ha sido registrada con éxito.", "success")]))
       /\ appointments d' = appointments (db w) ++ [a]
       /\ Appointment.service_id a = Service.id s
       /\ Appointment.barber_id a = Barber.id b
       /\ Appointment.status a = lit "pendiente".
Proof.
  intros Hl Hs Hb _ Hsk Hbk H1 Hdt H4 H5.
  assert (ids_resolve (db w) form = true) as H2.
  { unfold ids_resolve. rewrite Hsk, Hbk. apply andb_true_iff. split.
    - apply existsb_exists. exists s. split; [exact Hs | apply Z.eqb_refl].
    - apply existsb_exists. exists b. split; [exact Hb | apply Z.eqb_refl]. }
  split; [exact H2|].
  assert (first_failure (db w) form now = None) as Hff.
  { rewrite first_failure_cases, H1, H2.
    unfold datetime_parses, not_in_past, slot_free. rewrite Hbk, Hdt, H4, H5.
    reflexivity. }
  rewrite (book_accepts w form now uid _ _ dt Hl Hff Hsk Hbk Hdt).
  unfold accepted, booked.
  destruct (client_of (db w) uid); do 2 eexists; repeat split; reflexivity.
Qed.


(** ** [/mis-citas/cancel] *)

Lemma cancel_user_appointment_cases w k now :
  respond (cancel_user_appointment k now) w =
    if negb (truthy (session w !! "user_id")) then
      (Redirect "login",
       mk_world (db w) (session w)
                (flashes w ++ [(Literal "Debes iniciar sesión.", "warning")]))
    else
      match match int_param (session w !! "user_id") with
            | Some uid => client_of (db w) uid
            | None => None
            end with
      | None =>
          (Redirect "user_appointments",
           mk_world (db w) (session w)
             (flashes w ++ [(Literal "No tienes permiso para cancelar esta cita.",
                             "danger")]))
      | Some c =>
          match find (fun a' => Appointment.id a' =? k) (appointments (db w)) with
          | None => (no_row k, w)
          | Some a =>
              if negb (Appointment.client_id a =? Client.id c) then
                (Redirect "user_appointments",
                 mk_world (db w) (session w)
                   (flashes w ++ [(Literal "No puedes cancelar una cita que no es tuya.",
                                   "danger")]))
              else if dt_ltb (Appointment.appointment_datetime a) now then
                (Redirect "user_appointments",
                 mk_world (db w) (session w)
                   (flashes w ++ [(Literal "No puedes cancelar una cita que ya pasó.",
                                   "warning")]))
              else
                (Redirect "user_appointments",
                 mk_world (cancelled (db w) (Appointment.id a)) (session w)
                          (flashes w ++ [cancel_success]))
          end
      end.
Proof.
  unfold respond, cancel_user_appointment, mbind, handler_bind, session_get. run.
  destruct (truthy (session w !! "user_id")); run; [|reflexivity].
  unfold Client_first_by_user, query, client_of. run.
  destruct (int_param (session w !! "user_id")) as [uid|]; [|reflexivity].
  destruct (find _ (clients (db w))) as [c|]; run; [|reflexivity].
  unfold Appointment_query_get, query, or_404. run.
  destruct (find _ (appointments (db w))) as [a|]; run; [|destruct w; reflexivity].
  destruct (Appointment.client_id a =? Client.id c); run; [|reflexivity].
  destruct (dt_ltb (Appointment.appointment_datetime a) now); run; reflexivity.
Qed.

Lemma find_id_eq k (l : list Appointment.t) a :
  find (fun a' => Appointment.id a' =? k) l = Some a -> Appointment.id a = k.
Proof. intros H. apply find_some in H as [_ H]. apply Z.eqb_eq, H. Qed.

(** The cancelled row is found under its key, with the new status. *)
Lemma find_cancelled k (l : list Appointment.t) a :
  find (fun a' => Appointment.id a' =? k) l = Some a ->
  find (fun a' => Appointment.id a' =? k)
       (map (fun a' => if Appointment.id a' =? k
                       then Appointment.set_status (lit "cancelada") a' else a') l)
    = Some (Appointment.set_status (lit "cancelada") a).
Proof.
  induction l as [|x l IH]; cbn; [discriminate|].
  destruct (Appointment.id x =? k) eqn:Hx.
  - intros [= ->]. cbn. rewrite Hx. reflexivity.
  - intros H. rewrite Hx. apply IH, H.
Qed.


Lemma flash_differs (l : list (message * string)) (x y : message * string) :
  x <> y -> l ++ [x] <> l ++ [y].
Proof. intros Hxy H. apply app_inv_head in H. congruence. Qed.

Lemma flash_added (l : list (message * string)) (x : message * string) :
  l <> l ++ [x].
Proof.
  intros H. apply (f_equal (@length _)) in H.
  rewrite length_app in H. cbn in H. lia.
Qed.

(** C8.  A client cancellation succeeds, setting the status of the
    appointment to [cancelada], exactly when the requester is
    authenticated, the appointment belongs to the Client record of the
    session user and its datetime is not before the current moment.  In
    every other case the database is left as it was; in particular an
    appointment of another client, or one strictly in the past, is
    rejected with a message and stays unchanged. *)
Theorem client_cancellation w k now :
  let out := respond (cancel_user_appointment k now) w in
  let lookup d := find (fun a' => Appointment.id a' =? k) (appointments d) in
  (may_cancel w k now ->
   exists a,
     lookup (db w) = Some a
     /\ out = (Redirect "user_appointments",
               mk_world (cancelled (db w) k) (session w) (flashes w ++ [cancel_success]))
     /\ lookup (db (snd out)) = Some (Appointment.set_status (lit "cancelada") a))
  /\ (~ may_cancel w k now ->
      db (snd out) = db w /\ flashes (snd out) <> flashes w ++ [cancel_success])
  /\ (forall uid c a,
        truthy (session w !! "user_id") = true ->
        int_param (session w !! "user_id") = Some uid ->
        client_of (db w) uid = Some c ->
        lookup (db w) = Some a ->
        (Appointment.client_id a <> Client.id c ->
         out = (Redirect "user_appointments",
                mk_world (db w) (session w)
                  (flashes w ++ [(Literal "No puedes cancelar una cita que no es tuya.",
                                  "danger")])))
        /\ (Appointment.client_id a = Client.id c ->
            dt_ltb (Appointment.appointment_datetime a) now = true ->
            out = (Redirect "user_appointments",
                   mk_world (db w) (session w)
                     (flashes w ++ [(Literal "No puedes cancelar una cita que ya pasó.",
                                     "warning")])))).
Proof.
  intros out lookup. subst out lookup. cbv beta.
  rewrite cancel_user_appointment_cases. split; [|split].
  - intros (Ht & uid & c & a & Hu & Hc & Ha & Hown & Hge).
    exists a. rewrite Ht, Hu, Hc, Ha, Hown, Z.eqb_refl. cbn [negb].
    unfold dt_geb in Hge. apply negb_true_iff in Hge. rewrite Hge.
    rewrite (find_id_eq k _ a Ha). cbn [snd db].
    split; [reflexivity|]. split; [reflexivity|].
    unfold cancelled. cbn [appointments]. apply find_cancelled, Ha.
  - intros Hno.
    destruct (truthy (session w !! "user_id")) eqn:Ht; cbn [negb];
      [|split; [reflexivity | apply flash_differs; discriminate]].
    destruct (int_param (session w !! "user_id")) as [uid|] eqn:Hu;
      [|split; [reflexivity | apply flash_differs; discriminate]].
    destruct (client_of (db w) uid) as [c|] eqn:Hc;
      [|split; [reflexivity | apply flash_differs; discriminate]].
    destruct (find _ (appointments (db w))) as [a|] eqn:Ha;
      [|split; [reflexivity | apply flash_added]].
    destruct (Appointment.client_id a =? Client.id c) eqn:Hown; cbn [negb];
      [|split; [reflexivity | apply flash_differs; discriminate]].
    destruct (dt_ltb (Appointment.appointment_datetime a) now) eqn:Hlt;
      [split; [reflexivity | apply flash_differs; discriminate]|].
    exfalso. apply Hno. split; [exact Ht|].
    exists uid, c, a. repeat split; try assumption.
    + apply Z.eqb_eq, Hown.
    + unfold dt_geb. rewrite Hlt. reflexivity.
  - intros uid c a Ht Hu Hc Ha. rewrite Ht, Hu, Hc, Ha. cbn [negb]. split.
    + intros Hown. apply Z.eqb_neq in Hown. rewrite Hown. reflexivity.
    + intros Hown Hlt. rewrite Hown, Z.eqb_refl, Hlt. reflexivity.
Qed.


(** ** [/admin/services/delete] and [/admin/barbers/delete] *)

Lemma is_admin_not_admin w : is_admin w -> not_admin (session w !! "role") = false.
Proof.
  unfold is_admin, not_admin. intros ->.
  apply negb_false_iff, bool_decide_eq_true. reflexivity.
Qed.

Lemma existsb_false_iff {A} (p : A -> bool) (l : list A) :
  existsb p l = false <-> forall x, In x l -> p x = false.
Proof.
  split.
  - intros H x Hin. destruct (p x) eqn:Hp; [|reflexivity].
    rewrite <- H. symmetry. apply existsb_exists. exists x. auto.
  - intros H. destruct (existsb p l) eqn:He; [|reflexivity].
    apply existsb_exists in He as (x & Hin & Hp). rewrite (H x Hin) in Hp. discriminate.
Qed.

Lemma admin_service_delete_cases w k s :
  is_admin w ->
  find (fun s' => Service.id s' =? k) (services (db w)) = Some s ->
  respond (admin_service_delete k) w =
    if existsb (fun a => Appointment.service_id a =? k) (appointments (db w)) then
      (Redirect "admin_services",
       mk_world (db w) (session w)
         (flashes w ++
          [(Literal "No puedes eliminar un servicio con citas registradas. Desactívalo.",
            "warning")]))
    else
      (Redirect "admin_services",
       mk_world (without_service (db w) k) (session w)
                (flashes w ++ [(Literal "Servicio eliminado", "success")])).
Proof.
  intros Hadm Hs.
  assert (Service.id s = k) as Hk.
  { apply find_some in Hs as [_ H]. apply Z.eqb_eq, H. }
  unfold respond, admin_service_delete, mbind, handler_bind, session_get. run.
  rewrite (is_admin_not_admin w Hadm). run.
  unfold Service_query_get, Appointment_first_by_service, query, or_404. run.
  cbn [int_param]. rewrite Hs. run. rewrite found_find, Hk.
  destruct (existsb _ (appointments (db w))); run; [reflexivity|].
  unfold delete_service, update, commit, without_service. run. rewrite Hk. reflexivity.
Qed.

Lemma delete_barber_cases w k b :
  is_admin w ->
  find (fun b' => Barber.id b' =? k) (barbers (db w)) = Some b ->
  respond (delete_barber k) w =
    if existsb (fun a => Appointment.barber_id a =? k) (appointments (db w)) then
      (Redirect "admin_barbers",
       mk_world (db w) (session w)
         (flashes w ++
          [(Literal "No puedes eliminar un barbero con citas registradas.", "warning")]))
    else
      (Redirect "admin_barbers",
       mk_world (without_barber (db w) k) (session w)
                (flashes w ++ [(Literal "Barbero eliminado", "success")])).
Proof.
  intros Hadm Hb.
  assert (Barber.id b = k) as Hk.
  { apply find_some in Hb as [_ H]. apply Z.eqb_eq, H. }
  unfold respond, delete_barber, mbind, handler_bind, session_get. run.
  rewrite (is_admin_not_admin w Hadm). run.
  unfold Barber_query_get, Appointment_first_by_barber, query, or_404. run.
  cbn [int_param]. rewrite Hb. run. rewrite found_find, Hk.
  destruct (existsb _ (appointments (db w))); run; [reflexivity|].
  unfold delete_barber_row, update, commit, without_barber. run. rewrite Hk. reflexivity.
Qed.

Lemma find_filter_out {A} (key : A -> Z) (k : Z) (l : list A) :
  find (fun x => key x =? k) (List.filter (fun x => negb (key x =? k)) l) = None.
Proof.
  induction l as [|x l IH]; cbn; [reflexivity|].
  destruct (key x =? k) eqn:Hx; cbn; [exact IH|].
  rewrite Hx. exact IH.
Qed.

Lemma in_filter_out {A} (key : A -> Z) (k : Z) (l : list A) x :
  In x (List.filter (fun x => negb (key x =? k)) l) <-> In x l /\ key x <> k.
Proof.
  rewrite filter_In, negb_true_iff, Z.eqb_neq. reflexivity.
Qed.

(** C9.  An admin deletes a Service (and, in the same way, a Barber) that
    exists: when at least one Appointment refers to it the request is
    rejected with a warning and the database is left as it was; when none
    does, the record is removed, every other record staying in place. *)
Theorem delete_only_without_appointments w k :
  is_admin w ->
  (forall s,
     find (fun s' => Service.id s' =? k) (services (db w)) = Some s ->
     let out := respond (admin_service_delete k) w in
     ((exists a, In a (appointments (db w)) /\ Appointment.service_id a = k) ->
      out = (Redirect "admin_services",
             mk_world (db w) (session w)
               (flashes w ++
                [(Literal "No puedes eliminar un servicio con citas registradas. Desactívalo.",
                  "warning")])))
     /\ ((forall a, In a (appointments (db w)) -> Appointment.service_id a <> k) ->
         out = (Redirect "admin_services",
                mk_world (without_service (db w) k) (session w)
                         (flashes w ++ [(Literal "Servicio eliminado", "success")]))
         /\ find (fun s' => Service.id s' =? k) (services (db (snd out))) = None
         /\ forall s', In s' (services (db (snd out)))
                       <-> In s' (services (db w)) /\ Service.id s' <> k))
  /\ (forall b,
        find (fun b' => Barber.id b' =? k) (barbers (db w)) = Some b ->
        let out := respond (delete_barber k) w in
        ((exists a, In a (appointments (db w)) /\ Appointment.barber_id a = k) ->
         out = (Redirect "admin_barbers",
                mk_world (db w) (session w)
                  (flashes w ++
                   [(Literal "No puedes eliminar un barbero con citas registradas.",
                     "warning")])))
        /\ ((forall a, In a (appointments (db w)) -> Appointment.barber_id a <> k) ->
            out = (Redirect "admin_barbers",
                   mk_world (without_barber (db w) k) (session w)
                            (flashes w ++ [(Literal "Barbero eliminado", "success")]))
            /\ find (fun b' => Barber.id b' =? k) (barbers (db (snd out))) = None
            /\ forall b', In b' (barbers (db (snd out)))
                          <-> In b' (barbers (db w)) /\ Barber.id b' <> k)).
Proof.
  intros Hadm. split.
  - intros s Hs out. subst out. rewrite (admin_service_delete_cases w k s Hadm Hs). split.
    + intros (a & Hin & Ha).
      assert (existsb (fun a => Appointment.service_id a =? k) (appointments (db w)) = true)
        as ->; [|reflexivity].
      apply existsb_exists. exists a. split; [exact Hin | apply Z.eqb_eq, Ha].
    + intros Hnone.
      assert (existsb (fun a => Appointment.service_id a =? k) (appointments (db w)) = false)
        as ->.
      { apply existsb_false_iff. intros a Hin. apply Z.eqb_neq, Hnone, Hin. }
      cbn [snd db without_service services]. split; [reflexivity|]. split.
      * apply (find_filter_out Service.id).
      * intros s'. apply (in_filter_out Service.id).
  - intros b Hb out. subst out. rewrite (delete_barber_cases w k b Hadm Hb). split.
    + intros (a & Hin & Ha).
      assert (existsb (fun a => Appointment.barber_id a =? k) (appointments (db w)) = true)
        as ->; [|reflexivity].
      apply existsb_exists. exists a. split; [exact Hin | apply Z.eqb_eq, Ha].
    + intros Hnone.
      assert (existsb (fun a => Appointment.barber_id a =? k) (appointments (db w)) = false)
        as ->.
      { apply existsb_false_iff. intros a Hin. apply Z.eqb_neq, Hnone, Hin. }
      cbn [snd db without_barber barbers]. split; [reflexivity|]. split.
      * apply (find_filter_out Barber.id).
      * intros b'. apply (in_filter_out Barber.id).
Qed.


(** ** [/admin/services/create] *)

Lemma admin_service_create_cases w form :
  is_admin w ->
  respond (admin_service_create POST form) w =
    if service_field_missing form then
      (Redirect "admin_service_create",
       mk_world (db w) (session w)
                (flashes w ++ [(Literal "Completa los campos obligatorios.", "warning")]))
    else
      match py_int (or_empty (form !! "duration")),
            py_float (or_empty (form !! "price")) with
      | Some n, Some x =>
          if negb (int64 n) then (Uncaught "OverflowError", w)
          else if PrimFloat.is_nan x then (Uncaught "IntegrityError", w)
          else
            let d := db w in
            (Redirect "admin_services",
             mk_world
               (mk_database
                  (services d ++
                     [Service.mk (next_id (map Service.id (services d)))
                        (or_empty (form !! "name")) (form !! "description") n
                        (stored_float x) true])
                  (barbers d) (clients d) (appointments d) (users d))
               (session w)
               (flashes w ++ [(Literal "Servicio creado correctamente", "success")]))
      | _, _ => (Uncaught "ValueError", w)
      end.
Proof.
  intros Hadm.
  unfold respond, admin_service_create, mbind, handler_bind, session_get, form_get. run.
  rewrite (is_admin_not_admin w Hadm). run.
  fold (service_field_missing form).
  destruct (service_field_missing form); run; [reflexivity|].
  unfold int_, float_.
  destruct (py_int _) as [n|]; run; [|destruct w; reflexivity].
  destruct (py_float _) as [x|]; run; [|destruct w; reflexivity].
  unfold add_service.
  destruct (int64 n); run; [|destruct w; reflexivity].
  destruct (PrimFloat.is_nan x); run; [destruct w; reflexivity|].
  reflexivity.
Qed.

(** C7, amended.  An admin Service-create submission is checked for the
    presence of name, duration and price only: when one of them is absent
    or empty it fails with a redirect and a warning, nothing persisted.
    Nothing else about the duration and the price is validated.  One that
    is present but does not convert ends the request with the uncaught
    [ValueError].  When both convert, a duration outside the 64-bit
    integers of the storage engine ends it with the uncaught
    [OverflowError], and a NaN price with the [IntegrityError] of the NOT
    NULL column; in each of these cases nothing is persisted.  In every
    other case (all three present, both converting, the duration within
    64 bits, the price not NaN) a Service is persisted with [is_active]
    true and the values submitted, the price as the Float column keeps it
    (a negative zero as zero). *)
Theorem service_create_checks_presence w form :
  is_admin w ->
  let out := respond (admin_service_create POST form) w in
  (service_field_missing form = true ->
   out = (Redirect "admin_service_create",
          mk_world (db w) (session w)
                   (flashes w ++ [(Literal "Completa los campos obligatorios.", "warning")])))
  /\ (service_field_missing form = false ->
      forall n x,
        py_int (or_empty (form !! "duration")) = Some n ->
        py_float (or_empty (form !! "price")) = Some x ->
        (int64 n = true -> PrimFloat.is_nan x = false ->
         exists s,
           out = (Redirect "admin_services",
                  mk_world
                    (mk_database (services (db w) ++ [s]) (barbers (db w))
                                 (clients (db w)) (appointments (db w)) (users (db w)))
                    (session w)
                    (flashes w ++ [(Literal "Servicio creado correctamente", "success")]))
           /\ Service.is_active s = true
           /\ Service.name s = or_empty (form !! "name")
           /\ Service.duration_minutes s = n
           /\ Service.price s = stored_float x)
        /\ (int64 n = false -> out = (Uncaught "OverflowError", w))
        /\ (int64 n = true -> PrimFloat.is_nan x = true ->
            out = (Uncaught "IntegrityError", w)))
  /\ (service_field_missing form = false ->
      py_int (or_empty (form !! "duration")) = None
      \/ py_float (or_empty (form !! "price")) = None ->
      out = (Uncaught "ValueError", w)).
Proof.
  intros Hadm out. subst out. rewrite (admin_service_create_cases w form Hadm).
  split; [|split].
  - intros ->. reflexivity.
  - intros -> n x -> ->. split; [|split].
    + intros -> ->. eexists. split; [reflexivity|]. repeat split; reflexivity.
    + intros ->. reflexivity.
    + intros -> ->. reflexivity.
  - intros -> [-> | ->]; [reflexivity|].
    destruct (py_int _); reflexivity.
Qed.


(** ** [/register] and [/login] *)

Lemma register_cases w form salt :
  respond (register POST form salt) w =
    let username := form_username form in
    let password := form_password form in
    let back (msg : string) (category : string) :=
      (Redirect "register",
       mk_world (db w) (session w) (flashes w ++ [(Literal msg, category)])) in
    if empty username || empty password then
      back "Todos los campos son obligatorios." "warning"
    else if len username <? 3 then
      back "El usuario debe tener al menos 3 caracteres." "warning"
    else if len password <? 6 then
      back "La contraseña debe tener al menos 6 caracteres." "warning"
    else if found (user_named (db w) username) then
      back "Ese usuario ya existe." "danger"
    else
      let d := db w in
      (Redirect "login",
       mk_world
         (mk_database (services d) (barbers d) (clients d) (appointments d)
            (users d ++
               [User.mk (next_id (map User.id (users d))) username
                        (generate_password_hash salt password) (lit "cliente")]))
         (session w)
         (flashes w ++ [(Literal "Registro exitoso.", "success")])).
Proof.
  unfold respond, register, mbind, handler_bind, form_get. run.
  fold (form_username form) (form_password form). cbv zeta.
  destruct (empty (form_username form) || empty (form_password form)); run;
    [reflexivity|].
  destruct (len (form_username form) <? 3); run; [reflexivity|].
  destruct (len (form_password form) <? 6); run; [reflexivity|].
  unfold User_first_by_username, query. run. fold (user_named (db w) (form_username form)).
  destruct (user_named (db w) (form_username form)); run; reflexivity.
Qed.

Lemma login_cases w form :
  respond (login POST form) w =
    if empty (form_username form) || empty (form_password form) then login_incomplete w
    else
      match user_named (db w) (form_username form) with
      | Some u =>
          if check_password_hash (User.password u) (form_password form) then
            (Redirect "index",
             mk_world (db w)
               (<["role" := PyStr (User.role u)]>
                  (<["user_id" := PyInt (User.id u)]> (session w)))
               (flashes w ++ [(Formatted "Bienvenido " (User.username u), "success")]))
          else auth_error w
      | None => auth_error w
      end.
Proof.
  unfold respond, login, mbind, handler_bind, form_get. run.
  fold (form_username form) (form_password form).
  destruct (empty (form_username form) || empty (form_password form)); run;
    [reflexivity|].
  unfold User_first_by_username, query. run. fold (user_named (db w) (form_username form)).
  destruct (user_named (db w) (form_username form)) as [u|]; run; [|reflexivity].
  destruct (check_password_hash (User.password u) (form_password form)); run;
    reflexivity.
Qed.


Lemma find_appended {A} (p : A -> bool) (l : list A) x :
  find p l = None -> p x = true -> find p (l ++ [x]) = Some x.
Proof.
  induction l as [|y l IH]; cbn.
  - intros _ ->. reflexivity.
  - destruct (p y); [discriminate | exact IH].
Qed.

(** C5.  A registration whose trimmed username has at least 3 characters
    and is not taken, and whose trimmed password has at least 6, succeeds:
    a user with that name, role [cliente] and the hash of the password is
    stored.  A later login with the same credentials (any form that trims
    to them), on the database the registration left, succeeds and puts
    the id and the role of that user in the session.  The hashing is
    assumed to accept the password it hashed. *)
Theorem register_then_login w form salt :
  3 <= len (form_username form) ->
  6 <= len (form_password form) ->
  user_named (db w) (form_username form) = None ->
  check_password_hash (generate_password_hash salt (form_password form))
                      (form_password form) = true ->
  let d := db w in
  let u := User.mk (next_id (map User.id (users d))) (form_username form)
                   (generate_password_hash salt (form_password form)) (lit "cliente") in
  let d1 := mk_database (services d) (barbers d) (clients d) (appointments d)
                        (users d ++ [u]) in
  respond (register POST form salt) w =
    (Redirect "login",
     mk_world d1 (session w) (flashes w ++ [(Literal "Registro exitoso.", "success")]))
  /\ forall w1 form',
       db w1 = d1 ->
       form_username form' = form_username form ->
       form_password form' = form_password form ->
       respond (login POST form') w1 =
         (Redirect "index",
          mk_world d1
            (<["role" := PyStr (lit "cliente")]>
               (<["user_id" := PyInt (User.id u)]> (session w1)))
            (flashes w1 ++ [(Formatted "Bienvenido " (form_username form), "success")]))
       /\ session (snd (respond (login POST form') w1)) !! "user_id"
           = Some (PyInt (User.id u))
       /\ session (snd (respond (login POST form') w1)) !! "role"
           = Some (PyStr (lit "cliente")).
Proof.
  intros Hu Hp Hfree Hhash d u d1.
  assert (empty (form_username form) = false) as Eu
    by (apply (long_not_empty _ 3); lia).
  assert (empty (form_password form) = false) as Ep
    by (apply (long_not_empty _ 6); lia).
  split.
  - rewrite register_cases. cbv zeta. rewrite Eu, Ep. cbn [orb].
    assert ((len (form_username form) <? 3) = false) as -> by lia.
    assert ((len (form_password form) <? 6) = false) as -> by lia.
    rewrite Hfree. reflexivity.
  - intros w1 form' Hdb Hu' Hp'.
    rewrite login_cases, Hu', Hp', Eu, Ep. cbn [orb].
    assert (user_named (db w1) (form_username form) = Some u) as ->.
    { rewrite Hdb. unfold user_named, d1. cbn [users].
      apply find_appended; [exact Hfree|].
      apply bool_decide_eq_true. reflexivity. }
    cbn [User.password User.role User.id User.username u].
    rewrite Hhash, Hdb. cbn [snd session].
    split; [reflexivity|]. split.
    + rewrite lookup_insert_ne by discriminate. apply lookup_insert_eq.
    + apply lookup_insert_eq.
Qed.

(** C6, amended.  A login whose username does not exist, or whose
    password does not match the stored hash, fails and leaves the session
    and the database as they were.  It fails with the wrong-credentials
    message when both trimmed fields are non-empty, and with the
    missing-fields warning when one of them is empty. *)
Theorem failed_login_keeps_session w form :
  credentials_wrong w form ->
  let out := respond (login POST form) w in
  fst out = Redirect "login"
  /\ session (snd out) = session w
  /\ db (snd out) = db w
  /\ out = (if empty (form_username form) || empty (form_password form)
            then login_incomplete w else auth_error w).
Proof.
  intros Hwrong out. subst out. unfold credentials_wrong in Hwrong.
  rewrite login_cases.
  destruct (empty (form_username form) || empty (form_password form)).
  - repeat split; reflexivity.
  - destruct (user_named (db w) (form_username form)) as [u|].
    + rewrite Hwrong. repeat split; reflexivity.
    + repeat split; reflexivity.
Qed.


(** * More of the application *)

(** ** Who may call what *)

Lemma not_admin_true (w : world) :
  session w !! "role" <> Some (PyStr (lit "admin")) ->
  not_admin (session w !! "role") = true.
Proof.
  intros H. unfold not_admin. apply negb_true_iff, bool_decide_eq_false. exact H.
Qed.

Ltac conjuncts := repeat match goal with |- _ /\ _ => split end.

Ltac deny H :=
  unfold respond, serve, mbind, handler_bind, session_get; run;
  rewrite (not_admin_true _ H); reflexivity.

(** X1.  Every admin route answers a session whose role is not [admin]
    with a redirect to the home page and a [danger] message, before it
    reads the form or the database: nothing is stored and the session is
    left alone. *)
Theorem admin_routes_need_admin w :
  session w !! "role" <> Some (PyStr (lit "admin")) ->
  let refused (msg : string) :=
    mk_world (db w) (session w) (flashes w ++ [(Literal msg, "danger")]) in
  (forall m f, respond (admin_service_create m f) w
               = (Redirect "index", refused "No tienes permiso"))
  /\ (forall k m f, respond (admin_service_edit k m f) w
                    = (Redirect "index", refused "No tienes permiso"))
  /\ (forall k, respond (admin_service_toggle k) w
                = (Redirect "index", refused "No tienes permiso"))
  /\ (forall k, respond (admin_service_delete k) w
                = (Redirect "index", refused "No tienes permiso"))
  /\ (forall m f, respond (add_barber m f) w
                  = (Redirect "index", refused "No tienes permiso"))
  /\ (forall k m f, respond (edit_barber k m f) w
                    = (Redirect "index", refused "No tienes permiso"))
  /\ (forall k, respond (toggle_barber k) w
                = (Redirect "index", refused "No tienes permiso"))
  /\ (forall k, respond (delete_barber k) w
                = (Redirect "index", refused "No tienes permiso"))
  /\ (forall k st, respond (update_appointment_status k st) w
                   = (Redirect "index", refused "No tienes permiso para acceder aquí."))
  /\ serve admin_services w = (inr (Redirect "index"), refused "No tienes permiso")
  /\ serve admin_barbers w = (inr (Redirect "index"), refused "No tienes permiso")
  /\ serve admin_appointments w
     = (inr (Redirect "index"), refused "No tienes permiso para acceder aquí.").
Proof.
  intros H refused. subst refused. cbv beta.
  conjuncts; intros.
  - unfold admin_service_create. deny H.
  - unfold admin_service_edit. deny H.
  - unfold admin_service_toggle. deny H.
  - unfold admin_service_delete. deny H.
  - unfold add_barber. deny H.
  - unfold edit_barber. deny H.
  - unfold toggle_barber. deny H.
  - unfold delete_barber. deny H.
  - unfold update_appointment_status. deny H.
  - unfold admin_services. deny H.
  - unfold admin_barbers. deny H.
  - unfold admin_appointments. deny H.
Qed.

(** X2.  The three routes of a client ([/book] with either method,
    [/mis-citas], [/mis-citas/cancel]) answer a session without a user id
    with a redirect to the login page and a warning; nothing is stored. *)
Theorem client_routes_need_login w :
  truthy (session w !! "user_id") = false ->
  let asked (msg : string) :=
    mk_world (db w) (session w) (flashes w ++ [(Literal msg, "warning")]) in
  (forall m f now, respond (book_appointment m f now) w
                   = (Redirect "login", asked "Debes iniciar sesión para reservar una cita."))
  /\ (forall k now, respond (cancel_user_appointment k now) w
                    = (Redirect "login", asked "Debes iniciar sesión."))
  /\ serve user_appointments w
     = (inr (Redirect "login"), asked "Debes iniciar sesión para ver tus citas.").
Proof.
  intros H asked. subst asked. cbv beta. conjuncts; intros.
  - apply book_needs_login, H.
  - rewrite cancel_user_appointment_cases, H. reflexivity.
  - unfold serve, user_appointments, mbind, handler_bind, session_get. run.
    rewrite H. reflexivity.
Qed.

(** X3.  [/logout] empties the session whatever it held, the messages
    flashed and not shown yet included: the one message left is the one
    [/logout] itself flashes after clearing.  Nothing is stored.  The
    session it leaves is refused by the client routes and by the admin
    routes. *)
Theorem logout_ends_session w :
  let out := respond logout w in
  out = (Redirect "index",
         mk_world (db w) ∅ [(Literal "Sesión cerrada.", "info")])
  /\ truthy (session (snd out) !! "user_id") = false
  /\ session (snd out) !! "role" <> Some (PyStr (lit "admin"))
  /\ (forall m f now, fst (respond (book_appointment m f now) (snd out)) = Redirect "login")
  /\ (forall k now, fst (respond (cancel_user_appointment k now) (snd out)) = Redirect "login")
  /\ (forall k, fst (respond (admin_service_delete k) (snd out)) = Redirect "index")
  /\ (forall k st, fst (respond (update_appointment_status k st) (snd out)) = Redirect "index").
Proof.
  intros out. subst out.
  assert (respond logout w
          = (Redirect "index",
             mk_world (db w) ∅ [(Literal "Sesión cerrada.", "info")])) as ->
    by reflexivity.
  cbn [snd].
  set (w' := mk_world (db w) ∅ [(Literal "Sesión cerrada.", "info")]).
  assert (truthy (session w' !! "user_id") = false) as Hu by reflexivity.
  assert (session w' !! "role" <> Some (PyStr (lit "admin"))) as Hr by discriminate.
  split; [reflexivity|]. split; [exact Hu|]. split; [exact Hr|].
  conjuncts; intros.
  - rewrite (book_needs_login w' m f now Hu). reflexivity.
  - rewrite cancel_user_appointment_cases, Hu. reflexivity.
  - unfold admin_service_delete. unfold respond, mbind, handler_bind, session_get. run.
    rewrite (not_admin_true _ Hr). reflexivity.
  - unfold update_appointment_status. unfold respond, mbind, handler_bind, session_get. run.
    rewrite (not_admin_true _ Hr). reflexivity.
Qed.


(** ** Accounts *)

Lemma register_get w form salt :
  respond (register GET form salt) w = (Render "register.html", w).
Proof. destruct w; reflexivity. Qed.

Lemma found_false {A} (o : option A) : found o = false -> o = None.
Proof. destruct o; [discriminate | reflexivity]. Qed.

Lemma user_named_none d name :
  user_named d name = None -> ~ In name (map User.username (users d)).
Proof.
  unfold user_named. intros Hnone Hin.
  apply in_map_iff in Hin as (u & Hu & Hin).
  pose proof (find_none _ _ Hnone u Hin) as H. cbn in H.
  apply bool_decide_eq_false in H. exact (H Hu).
Qed.

Lemma NoDup_snoc {A} (l : list A) x :
  List.NoDup l -> ~ In x l -> List.NoDup (l ++ [x]).
Proof.
  intros Hl Hx. induction Hl as [|y l Hy Hl IH]; cbn.
  - constructor; [intros [] | constructor].
  - constructor.
    + rewrite in_app_iff. intros [H | [H | []]]; [exact (Hy H)|].
      apply Hx. left. symmetry. exact H.
    + apply IH. intros H. apply Hx. right. exact H.
Qed.

(** What a registration can do to the world. *)
Lemma register_outcome w m form salt :
  let out := respond (register m form salt) w in
  let d := db w in
  (db (snd out) = d /\ session (snd out) = session w /\ fst out <> Redirect "login")
  \/ (out = (Redirect "login",
             mk_world
               (mk_database (services d) (barbers d) (clients d) (appointments d)
                  (users d ++
                     [User.mk (next_id (map User.id (users d))) (form_username form)
                        (generate_password_hash salt (form_password form))
                        (lit "cliente")]))
               (session w) (flashes w ++ [(Literal "Registro exitoso.", "success")]))
      /\ m = POST
      /\ 3 <= len (form_username form)
      /\ 6 <= len (form_password form)
      /\ user_named d (form_username form) = None).
Proof.
  intros out d. subst out d. destruct m.
  - left. rewrite register_get. repeat split; discriminate.
  - rewrite register_cases. cbv zeta.
    destruct (empty (form_username form) || empty (form_password form));
      [left; repeat split; discriminate|].
    destruct (len (form_username form) <? 3) eqn:Hu;
      [left; repeat split; discriminate|].
    destruct (len (form_password form) <? 6) eqn:Hp;
      [left; repeat split; discriminate|].
    destruct (found (user_named (db w) (form_username form))) eqn:Hf;
      [left; repeat split; discriminate|].
    right. split; [reflexivity|]. split; [reflexivity|].
    split; [lia|]. split; [lia|]. apply found_false, Hf.
Qed.

(** X4.  Whatever is submitted to [/register], with either method: the
    session is not touched (registering does not log in), the other four
    tables and the existing users stay as they are, and the users table
    gets at most one new row.  A new row always has the role [cliente],
    the trimmed username of the form, at least 3 characters long and not
    used before, and holds the hash of the trimmed password, never the
    password as typed. *)
Theorem register_adds_only_clients w m form salt :
  let w' := snd (respond (register m form salt) w) in
  session w' = session w
  /\ services (db w') = services (db w)
  /\ barbers (db w') = barbers (db w)
  /\ clients (db w') = clients (db w)
  /\ appointments (db w') = appointments (db w)
  /\ (users (db w') = users (db w)
      \/ exists u,
           users (db w') = users (db w) ++ [u]
           /\ User.role u = lit "cliente"
           /\ User.username u = strip (or_empty (form !! "username"))
           /\ 3 <= len (User.username u)
           /\ user_named (db w) (User.username u) = None
           /\ User.password u
              = generate_password_hash salt (strip (or_empty (form !! "password")))).
Proof.
  intros w'. subst w'.
  destruct (register_outcome w m form salt) as [(Hd & Hs & _) | (Hout & _ & Hu & _ & Hfree)].
  - rewrite Hd, Hs. repeat split; try reflexivity. left. reflexivity.
  - rewrite Hout. cbn [snd db session services barbers clients appointments users].
    repeat split; try reflexivity. right. eexists. split; [reflexivity|].
    cbn [User.role User.username User.password]. repeat split; assumption.
Qed.

(** X5.  After a successful registration the same username cannot be
    registered again, whatever the password and whatever surrounds the
    name in the form: the second request goes back to the form and
    stores nothing; with a password of at least 6 characters the message
    is the username-taken one. *)
Theorem register_twice_is_refused w form salt :
  3 <= len (form_username form) ->
  6 <= len (form_password form) ->
  user_named (db w) (form_username form) = None ->
  let w1 := snd (respond (register POST form salt) w) in
  forall form' salt',
    form_username form' = form_username form ->
    let out := respond (register POST form' salt') w1 in
    fst out = Redirect "register"
    /\ db (snd out) = db w1
    /\ (6 <= len (form_password form') ->
        out = (Redirect "register",
               mk_world (db w1) (session w1)
                        (flashes w1 ++ [(Literal "Ese usuario ya existe.", "danger")]))).
Proof.
  intros Hu Hp Hfree w1 form' salt' Hsame out. subst out.
  assert (found (user_named (db w1) (form_username form)) = true) as Htaken.
  { subst w1. rewrite register_cases. cbv zeta.
    rewrite (long_not_empty _ 3), (long_not_empty _ 6) by lia. cbn [orb].
    assert ((len (form_username form) <? 3) = false) as -> by lia.
    assert ((len (form_password form) <? 6) = false) as -> by lia.
    rewrite Hfree. cbn [found snd db]. unfold user_named. cbn [users].
    rewrite (find_appended _ _ _ Hfree); [reflexivity|].
    apply bool_decide_eq_true. reflexivity. }
  rewrite register_cases, Hsame. cbv zeta.
  rewrite (long_not_empty (form_username form) 3) by lia. cbn [orb].
  assert ((len (form_username form) <? 3) = false) as -> by lia.
  rewrite Htaken.
  destruct (empty (form_password form')) eqn:He.
  - split; [reflexivity|]. split; [reflexivity|]. intros H6.
    rewrite (long_not_empty _ 6) in He by lia. discriminate.
  - destruct (len (form_password form') <? 6) eqn:H6.
    + split; [reflexivity|]. split; [reflexivity|]. intros H. lia.
    + split; [reflexivity|]. split; reflexivity.
Qed.

(** X6.  [/login] succeeds exactly when both trimmed fields are non-empty,
    a user has the trimmed username and the hash check accepts the
    trimmed password.  On success the session gets the id and the role of
    that user over whatever it held; otherwise the session is as it was.
    In no case is anything stored. *)
Theorem login_succeeds_exactly w form :
  let out := respond (login POST form) w in
  let ok u :=
    empty (form_username form) = false
    /\ empty (form_password form) = false
    /\ user_named (db w) (form_username form) = Some u
    /\ check_password_hash (User.password u) (form_password form) = true in
  db (snd out) = db w
  /\ (fst out = Redirect "index" <-> exists u, ok u)
  /\ (forall u, ok u ->
        session (snd out)
        = <["role" := PyStr (User.role u)]> (<["user_id" := PyInt (User.id u)]> (session w)))
  /\ ((forall u, ~ ok u) ->
      fst out = Redirect "login" /\ session (snd out) = session w).
Proof.
  intros out ok. subst out ok. cbv beta. rewrite login_cases.
  destruct (empty (form_username form)) eqn:Eu; cbn [orb].
  { split; [reflexivity|]. split; [|split].
    - split; [discriminate | intros (u & H & _); discriminate].
    - intros u (H & _). discriminate.
    - intros _. split; reflexivity. }
  destruct (empty (form_password form)) eqn:Ep; cbn [orb].
  { split; [reflexivity|]. split; [|split].
    - split; [discriminate | intros (u & _ & H & _); discriminate].
    - intros u (_ & H & _). discriminate.
    - intros _. split; reflexivity. }
  destruct (user_named (db w) (form_username form)) as [u|] eqn:Hu.
  - destruct (check_password_hash (User.password u) (form_password form)) eqn:Hc.
    + split; [reflexivity|]. split; [|split].
      * split; [intros _; exists u; auto | reflexivity].
      * intros u' (_ & _ & [= <-] & _). reflexivity.
      * intros Hno. exfalso. apply (Hno u). auto.
    + split; [reflexivity|]. split; [|split].
      * split; [discriminate | intros (u' & _ & _ & [= <-] & H); congruence].
      * intros u' (_ & _ & [= <-] & H). congruence.
      * intros _. split; reflexivity.
  - split; [reflexivity|]. split; [|split].
    + split; [discriminate | intros (u' & _ & _ & H & _); discriminate].
    + intros u' (_ & _ & H & _). discriminate.
    + intros _. split; reflexivity.
Qed.


(** ** Primary keys *)

Section Keeping.

Context {P : database -> Prop}.

Lemma keeps_ret {A} (a : A) : keeps P (mret a).
Proof. intros st Hv Hs. split; assumption. Qed.

Lemma keeps_return {A} r : keeps P (@return_ A r).
Proof. intros st Hv Hs. split; assumption. Qed.

Lemma keeps_bind {A B} (m : handler A) (k : A -> handler B) :
  keeps P m -> (forall a, keeps P (k a)) -> keeps P (m ≫= k).
Proof.
  intros Hm Hk st Hv Hs. unfold mbind, handler_bind.
  specialize (Hm st Hv Hs). destruct (m st) as [[a | r] st']; cbn [snd] in *.
  - apply Hk; apply Hm.
  - exact Hm.
Qed.

Lemma keeps_when c body : keeps P body -> keeps P (when_ c body).
Proof. intros H. destruct c; [exact H | apply keeps_ret]. Qed.

Lemma keeps_flash msg category : keeps P (flash msg category).
Proof. intros st Hv Hs. split; assumption. Qed.

Lemma keeps_session_get key : keeps P (session_get key).
Proof. intros st Hv Hs. split; assumption. Qed.

Lemma keeps_session_set key v : keeps P (session_set key v).
Proof. intros st Hv Hs. split; assumption. Qed.

Lemma keeps_session_clear : keeps P session_clear.
Proof. intros st Hv Hs. split; assumption. Qed.

Lemma keeps_query {A} (q : database -> A) : keeps P (query q).
Proof. intros st Hv Hs. split; assumption. Qed.

Lemma keeps_commit : keeps P commit.
Proof. intros st Hv Hs. split; assumption. Qed.

Lemma keeps_update f : (forall d, P d -> P (f d)) -> keeps P (update f).
Proof. intros Hf st Hv Hs. split; [apply Hf, Hv | exact Hs]. Qed.

Lemma keeps_render {A} template (context : A) : keeps P (render_template template context).
Proof. apply keeps_ret. Qed.

Lemma respond_keeps h w : keeps P h -> P (db w) -> P (db (snd (respond h w))).
Proof.
  intros Hh Hw. unfold respond.
  specialize (Hh (mk_state (db w) (db w) (session w) (flashes w)) Hw Hw).
  destruct (h _) as [[r | r] st]; apply Hh.
Qed.

Lemma serve_keeps {A} (h : handler A) w :
  keeps P h -> P (db w) -> P (db (snd (serve h w))).
Proof.
  intros Hh Hw. unfold serve.
  specialize (Hh (mk_state (db w) (db w) (session w) (flashes w)) Hw Hw).
  destruct (h _) as [[r | r] st]; apply Hh.
Qed.

End Keeping.

(** The key of a new row is larger than every key in use. *)
Lemma next_id_above l x : In x l -> x < next_id l.
Proof.
  unfold next_id. induction l as [|y l IH]; cbn; [intros []|].
  intros [-> | H]; [lia|]. specialize (IH H). lia.
Qed.

Lemma next_id_fresh l : ~ In (next_id l) l.
Proof. intros H. apply next_id_above in H. lia. Qed.

Lemma NoDup_map_filter {A} (key : A -> Z) (p : A -> bool) (l : list A) :
  List.NoDup (map key l) -> List.NoDup (map key (List.filter p l)).
Proof.
  induction l as [|x l IH]; cbn; [auto|].
  intros H. inversion H as [|? ? Hx Hl]; subst.
  destruct (p x); cbn; [|auto].
  constructor; [|auto].
  intros Hin. apply Hx. apply in_map_iff in Hin as (y & Hy & Hin).
  apply filter_In in Hin as [Hin _]. apply in_map_iff. exists y. auto.
Qed.

Lemma map_key_rewritten {A} (key : A -> Z) (k : Z) (f : A -> A) (l : list A) :
  (forall x, key (f x) = key x) ->
  map key (map (fun x => if key x =? k then f x else x) l) = map key l.
Proof.
  intros Hf. induction l as [|x l IH]; cbn; [reflexivity|].
  rewrite IH. destruct (key x =? k); [rewrite Hf|]; reflexivity.
Qed.

Ltac keys_split :=
  unfold keys_unique;
  cbn [services barbers clients appointments users];
  intros (Ks & Kb & Kc & Ka & Ku); repeat split; try assumption.

Lemma add_client_keeps_keys uid full_name phone email :
  keeps keys_unique (add_client uid full_name phone email).
Proof.
  intros st Hv Hs. unfold add_client. cbn [snd view stored]. split; [|exact Hs].
  revert Hv. keys_split.
  rewrite map_app. apply NoDup_snoc; [exact Kc | apply next_id_fresh].
Qed.

Lemma add_appointment_keeps_keys dt c s b notes status :
  keeps keys_unique (add_appointment dt c s b notes status).
Proof.
  apply keeps_update. intros d. keys_split.
  rewrite map_app. apply NoDup_snoc; [exact Ka | apply next_id_fresh].
Qed.

Lemma add_service_keeps_keys name description duration price active :
  keeps keys_unique (add_service name description duration price active).
Proof.
  unfold add_service.
  destruct (int64 duration); cbn [negb]; [|apply keeps_return].
  destruct (PrimFloat.is_nan price); [apply keeps_return|].
  apply keeps_update. intros d. keys_split.
  rewrite map_app. apply NoDup_snoc; [exact Ks | apply next_id_fresh].
Qed.

Lemma add_user_keeps_keys username password role :
  keeps keys_unique (add_user username password role).
Proof.
  apply keeps_update. intros d. keys_split.
  rewrite map_app. apply NoDup_snoc; [exact Ku | apply next_id_fresh].
Qed.

Lemma add_barber_row_keeps_keys name specialty :
  keeps keys_unique (add_barber_row name specialty).
Proof.
  apply keeps_update. intros d. keys_split.
  rewrite map_app. apply NoDup_snoc; [exact Kb | apply next_id_fresh].
Qed.

Lemma delete_service_keeps_keys s : keeps keys_unique (delete_service s).
Proof.
  apply keeps_update. intros d. keys_split. apply NoDup_map_filter, Ks.
Qed.

Lemma delete_barber_row_keeps_keys b : keeps keys_unique (delete_barber_row b).
Proof.
  apply keeps_update. intros d. keys_split. apply NoDup_map_filter, Kb.
Qed.

Lemma set_appointment_status_keeps_keys a st :
  keeps keys_unique (set_appointment_status a st).
Proof.
  apply keeps_update. intros d. keys_split.
  rewrite (map_key_rewritten Appointment.id); [exact Ka | reflexivity].
Qed.

Lemma set_service_fields_keeps_keys s name description duration price :
  keeps keys_unique (set_service_fields s name description duration price).
Proof.
  unfold set_service_fields.
  destruct (int64 duration); cbn [negb]; [|apply keeps_return].
  destruct name as [n|]; [|apply keeps_return].
  destruct (PrimFloat.is_nan price); [apply keeps_return|].
  apply keeps_update. intros d. keys_split.
  rewrite (map_key_rewritten Service.id _
             (fun s' => Service.mk (Service.id s') n description duration
                                   (stored_float price) (Service.is_active s')));
    [exact Ks | reflexivity].
Qed.

Lemma set_service_active_keeps_keys s active :
  keeps keys_unique (set_service_active s active).
Proof.
  apply keeps_update. intros d. keys_split.
  rewrite (map_key_rewritten Service.id _
             (fun s' => Service.mk (Service.id s') (Service.name s')
                                   (Service.description s') (Service.duration_minutes s')
                                   (Service.price s') active));
    [exact Ks | reflexivity].
Qed.

Lemma set_barber_fields_keeps_keys b name specialty :
  keeps keys_unique (set_barber_fields b name specialty).
Proof.
  destruct name as [n|]; [|apply keeps_return].
  apply keeps_update. intros d. keys_split.
  rewrite (map_key_rewritten Barber.id _
             (fun b' => Barber.mk (Barber.id b') n specialty (Barber.is_active b')));
    [exact Kb | reflexivity].
Qed.

Lemma set_barber_active_keeps_keys b active :
  keeps keys_unique (set_barber_active b active).
Proof.
  apply keeps_update. intros d. keys_split.
  rewrite (map_key_rewritten Barber.id _
             (fun b' => Barber.mk (Barber.id b') (Barber.name b')
                                  (Barber.specialty b') active));
    [exact Kb | reflexivity].
Qed.

(** One step of a proof that a view function keeps the keys unique. *)
Ltac keep_keys :=
  unfold Service_query_get, Barber_query_get, Appointment_query_get,
         Appointment_first_by_slot, Appointment_first_by_service,
         Appointment_first_by_barber, Client_first_by_user, User_first_by_username,
         or_404, attr, column_int, int_of, float_of, int_, float_;
  repeat (intros; cbv zeta;
    lazymatch goal with
    | |- keeps _ (mbind _ _) => apply keeps_bind
    | |- keeps _ (when_ _ _) => apply keeps_when
    | |- keeps _ (mret _) => apply keeps_ret
    | |- keeps _ (return_ _) => apply keeps_return
    | |- keeps _ (flash _ _) => apply keeps_flash
    | |- keeps _ (session_get _) => apply keeps_session_get
    | |- keeps _ (session_set _ _) => apply keeps_session_set
    | |- keeps _ session_clear => apply keeps_session_clear
    | |- keeps _ (query _) => apply keeps_query
    | |- keeps _ commit => apply keeps_commit
    | |- keeps _ (render_template _ _) => apply keeps_render
    | |- keeps _ (add_client _ _ _ _) => apply add_client_keeps_keys
    | |- keeps _ (add_appointment _ _ _ _ _ _) => apply add_appointment_keeps_keys
    | |- keeps _ (add_service _ _ _ _ _) => apply add_service_keeps_keys
    | |- keeps _ (add_user _ _ _) => apply add_user_keeps_keys
    | |- keeps _ (add_barber_row _ _) => apply add_barber_row_keeps_keys
    | |- keeps _ (delete_service _) => apply delete_service_keeps_keys
    | |- keeps _ (delete_barber_row _) => apply delete_barber_row_keeps_keys
    | |- keeps _ (set_appointment_status _ _) => apply set_appointment_status_keeps_keys
    | |- keeps _ (set_service_fields _ _ _ _ _) => apply set_service_fields_keeps_keys
    | |- keeps _ (set_service_active _ _) => apply set_service_active_keeps_keys
    | |- keeps _ (set_barber_fields _ _ _) => apply set_barber_fields_keeps_keys
    | |- keeps _ (set_barber_active _ _) => apply set_barber_active_keeps_keys
    | |- keeps _ (match ?x with _ => _ end) => destruct x
    end).


Lemma after_keeps (P : database -> Prop) :
  (forall req w, P (db w) -> P (db (snd (respond (dispatch req) w)))) ->
  forall reqs w, P (db w) -> P (db (after reqs w)).
Proof.
  intros Hstep reqs. induction reqs as [|req reqs IH]; intros w Hw; [exact Hw|].
  cbn [after]. apply IH, Hstep, Hw.
Qed.

Ltac unfold_views :=
  unfold dispatch, rendered, index, list_services, book_appointment,
         admin_appointments, update_appointment_status, admin_services,
         admin_service_create, admin_service_edit, admin_service_toggle,
         admin_service_delete, admin_barbers, add_barber, edit_barber,
         toggle_barber, delete_barber, user_appointments,
         cancel_user_appointment, register, login, logout.

(** X7.  No sequence of requests breaks the primary keys: if the keys of
    each of the five tables are pairwise different, they still are after
    any requests to any routes, whatever the sessions, the forms and the
    outcomes.  A new row always gets a key larger than every key in use;
    edits, toggles, status changes and deletions leave keys alone. *)
Theorem requests_keep_keys_unique reqs w :
  keys_unique (db w) -> keys_unique (db (after reqs w)).
Proof.
  revert reqs w. apply after_keeps. intros req w Hw.
  apply respond_keeps; [|exact Hw].
  destruct req; unfold_views; keep_keys.
Qed.

(** ** What the view functions check before they insert *)

Lemma map_slot_status k st (l : list Appointment.t) :
  map slot_of (map (fun a' => if Appointment.id a' =? k
                              then Appointment.set_status st a' else a') l)
  = map slot_of l.
Proof.
  induction l as [|a l IH]; cbn [map]; [reflexivity|].
  rewrite IH. destruct (Appointment.id a =? k); reflexivity.
Qed.

(** A view function whose writes leave the table of [P] alone keeps [P];
    [side] shows it for each write. *)
Ltac keep_frame side :=
  unfold Service_query_get, Barber_query_get, Appointment_query_get,
         Appointment_first_by_slot, Appointment_first_by_service,
         Appointment_first_by_barber, Client_first_by_user, User_first_by_username,
         or_404, attr, column_int, int_of, float_of, int_, float_,
         add_service, add_barber_row, delete_service, delete_barber_row,
         set_appointment_status, set_service_fields, set_service_active,
         set_barber_fields, set_barber_active;
  repeat (intros; cbv zeta;
    lazymatch goal with
    | |- keeps _ (mbind _ _) => apply keeps_bind
    | |- keeps _ (when_ _ _) => apply keeps_when
    | |- keeps _ (mret _) => apply keeps_ret
    | |- keeps _ (return_ _) => apply keeps_return
    | |- keeps _ (flash _ _) => apply keeps_flash
    | |- keeps _ (session_get _) => apply keeps_session_get
    | |- keeps _ (session_set _ _) => apply keeps_session_set
    | |- keeps _ session_clear => apply keeps_session_clear
    | |- keeps _ (query _) => apply keeps_query
    | |- keeps _ commit => apply keeps_commit
    | |- keeps _ (render_template _ _) => apply keeps_render
    | |- keeps _ (update _) => apply keeps_update; intros ?; side
    | |- keeps _ (match ?x with _ => _ end) => destruct x
    end).

Lemma first_failure_none d form now :
  first_failure d form now = None ->
  required_present form = true /\ ids_resolve d form = true
  /\ datetime_parses form = true /\ not_in_past form now = true
  /\ slot_free d form = true.
Proof.
  rewrite first_failure_cases.
  destruct (required_present form), (ids_resolve d form), (datetime_parses form),
           (not_in_past form now), (slot_free d form); cbn; try discriminate.
  intros _. repeat split; reflexivity.
Qed.

Lemma book_get w form now :
  truthy (session w !! "user_id") = true ->
  respond (book_appointment GET form now) w = (Render "book_appointment.html", w).
Proof.
  intros H. unfold respond, book_appointment, mbind, handler_bind, session_get, query.
  run. rewrite H. destruct w; reflexivity.
Qed.

(** What a request to [/book] can do to the database: nothing, or one
    booking into a slot that was free. *)
Lemma book_outcome w m form now :
  db (snd (respond (book_appointment m form now) w)) = db w
  \/ exists uid sk bk dt,
       slot_taken (db w) bk dt = false
       /\ db (snd (respond (book_appointment m form now) w))
          = booked (db w) uid form dt sk bk.
Proof.
  destruct (truthy (session w !! "user_id")) eqn:Ht;
    [|left; rewrite (book_needs_login w m form now Ht); reflexivity].
  destruct m; [left; rewrite (book_get w form now Ht); reflexivity|].
  rewrite (book_appointment_post w form now Ht).
  destruct (first_failure (db w) form now) as [e|] eqn:Hff; [left; reflexivity|].
  apply first_failure_none in Hff as (_ & _ & _ & _ & Hfree).
  unfold slot_free in Hfree.
  destruct (int_param (session w !! "user_id")) as [uid|]; [|left; reflexivity].
  destruct (submitted_id form "service_id") as [sk|]; [|left; reflexivity].
  destruct (submitted_id form "barber_id") as [bk|]; [|discriminate].
  destruct (submitted_datetime form) as [dt|]; [|discriminate].
  right. exists uid, sk, bk, dt. split; [|reflexivity].
  apply negb_true_iff, Hfree.
Qed.

Lemma client_of_none d uid :
  client_of d uid = None -> ~ In uid (map Client.user_id (clients d)).
Proof.
  unfold client_of. intros Hnone Hin.
  apply in_map_iff in Hin as (c & Hc & Hin).
  pose proof (find_none _ _ Hnone c Hin) as H. cbn in H.
  apply Z.eqb_neq in H. exact (H Hc).
Qed.

Lemma slot_free_not_in d bk dt :
  slot_taken d bk dt = false -> ~ In (bk, dt) (map slot_of (appointments d)).
Proof.
  intros Hfree Hin. apply in_map_iff in Hin as (a & Ha & Hin).
  unfold slot_of in Ha. injection Ha as Hb Hd.
  assert (slot_taken d bk dt = true) as Ht
    by (apply slot_taken_iff; exists a; auto).
  congruence.
Qed.

(** X8.  The [unique] username column is never violated: if the usernames
    in the table are pairwise different, they still are after any
    sequence of requests.  [/register] is the only route that adds a
    user, and it looks the trimmed username up first. *)
Theorem requests_keep_usernames_unique reqs w :
  usernames_unique (db w) -> usernames_unique (db (after reqs w)).
Proof.
  revert reqs w. apply after_keeps. intros req w Hw.
  destruct req;
    try (apply respond_keeps; [|exact Hw]; unfold_views;
         unfold add_client, add_appointment;
         keep_frame ltac:(unfold usernames_unique; cbn [users]; trivial);
         intros st Hv Hs; cbn [snd view stored]; split; assumption).
  cbn [dispatch]. unfold usernames_unique in *.
  destruct (register_outcome w method form salt) as [(Hd & _) | (Hout & _ & _ & _ & Hfree)].
  - rewrite Hd. exact Hw.
  - rewrite Hout. cbn [snd db users]. rewrite map_app. cbn [map User.username].
    apply NoDup_snoc; [exact Hw | apply user_named_none, Hfree].
Qed.


(** X9.  At most one Client per user: if no two Client rows have the same
    user id, none do after any sequence of requests.  [/book] is the only
    route that adds a Client, and only when the session user has none. *)
Theorem requests_keep_one_client_per_user reqs w :
  one_client_per_user (db w) -> one_client_per_user (db (after reqs w)).
Proof.
  revert reqs w. apply after_keeps. intros req w Hw.
  destruct req;
    try (apply respond_keeps; [|exact Hw]; unfold_views; unfold add_user;
         keep_frame ltac:(unfold one_client_per_user; cbn [clients]; trivial);
         fail).
  cbn [dispatch]. unfold one_client_per_user in *.
  destruct (book_outcome w method form now) as [-> | (uid & sk & bk & dt & _ & ->)];
    [exact Hw|].
  unfold booked. destruct (client_of (db w) uid) eqn:Hc; cbn [clients]; [exact Hw|].
  rewrite map_app. cbn [map new_client Client.user_id].
  apply NoDup_snoc; [exact Hw | apply client_of_none, Hc].
Qed.

(** X10.  No two appointments of one barber at one datetime: if the
    (barber, datetime) pairs of the appointments are pairwise different,
    they still are after any sequence of requests, one after the other.
    [/book] is the only route that adds an appointment, and only into a
    slot no appointment has; cancelling and status changes keep barber
    and datetime. *)
Theorem requests_keep_slots_unique reqs w :
  slots_unique (db w) -> slots_unique (db (after reqs w)).
Proof.
  revert reqs w. apply after_keeps. intros req w Hw.
  destruct req;
    try (apply respond_keeps; [|exact Hw]; unfold_views; unfold add_user;
         keep_frame ltac:(unfold slots_unique; cbn [appointments];
                          rewrite ?map_slot_status; trivial);
         fail).
  cbn [dispatch]. unfold slots_unique in *.
  destruct (book_outcome w method form now) as [-> | (uid & sk & bk & dt & Hfree & ->)];
    [exact Hw|].
  unfold booked.
  destruct (client_of (db w) uid); cbn [appointments]; rewrite map_app;
    cbn [map new_appointment slot_of Appointment.barber_id
         Appointment.appointment_datetime];
    (apply NoDup_snoc; [exact Hw | apply slot_free_not_in, Hfree]).
Qed.


(** ** Booking twice *)

(** X11.  Once a booking has gone through, a second submission for the
    same barber at the same datetime is rejected with the slot-conflict
    message and stores nothing, whoever sends it and whenever (as long as
    the datetime is not in the past by then): the second of two bookings
    of one slot never gets in. *)
Theorem second_booking_of_slot_rejected w form now uid w2 form' now' uid' bk dt :
  logged_in w uid ->
  first_failure (db w) form now = None ->
  submitted_id form "barber_id" = Some bk ->
  submitted_datetime form = Some dt ->
  db w2 = db (snd (respond (book_appointment POST form now) w)) ->
  logged_in w2 uid' ->
  required_present form' = true ->
  ids_resolve (db w2) form' = true ->
  submitted_id form' "barber_id" = Some bk ->
  submitted_datetime form' = Some dt ->
  dt_ltb dt now' = false ->
  respond (book_appointment POST form' now') w2 =
    (Redirect "book_appointment",
     mk_world (db w2) (session w2) (flashes w2 ++ [booking_flash SlotConflictError])).
Proof.
  intros Hl Hff Hbk Hdt Hdb Hl' H1 H2 Hbk' Hdt' Hnow.
  apply (book_rejects w2 form' now' uid' SlotConflictError Hl').
  rewrite first_failure_cases, H1, H2.
  unfold datetime_parses, not_in_past, slot_free. rewrite Hbk', Hdt', Hnow.
  cbn [found negb].
  assert (slot_taken (db w2) bk dt = true) as ->; [|reflexivity].
  rewrite Hdb.
  pose proof (first_failure_none _ _ _ Hff) as (_ & Hres & _).
  unfold ids_resolve in Hres. rewrite Hbk in Hres.
  destruct (submitted_id form "service_id") as [sk|] eqn:Hsk; [|discriminate].
  rewrite (book_accepts w form now uid sk bk dt Hl Hff Hsk Hbk Hdt).
  apply slot_taken_iff. unfold accepted, booked. cbn [snd db].
  destruct (client_of (db w) uid); cbn [appointments];
    eexists; (split; [apply in_app_iff; right; left; reflexivity|]);
    split; reflexivity.
Qed.

(** ** Lists *)

Lemma insert_desc_perm {A} (before : A -> A -> bool) x l :
  Permutation (insert_desc before x l) (x :: l).
Proof.
  induction l as [|y l IH]; cbn; [reflexivity|].
  destruct (before x y); [|reflexivity].
  rewrite IH. apply perm_swap.
Qed.

Lemma order_by_desc_perm {A} (before : A -> A -> bool) l :
  Permutation (order_by_desc before l) l.
Proof.
  induction l as [|x l IH]; cbn; [reflexivity|].
  rewrite insert_desc_perm. constructor. exact IH.
Qed.

Lemma order_by_desc_in {A} (before : A -> A -> bool) l x :
  In x (order_by_desc before l) <-> In x l.
Proof.
  split; apply Permutation_in; [|symmetry]; apply order_by_desc_perm.
Qed.

Section Descending.

Context {A : Type} (before : A -> A -> bool).
Hypothesis before_asym : forall a b, before a b = true -> before b a = false.

Lemma insert_desc_sorted x l :
  Sorted (fun a b => before a b = false) l ->
  Sorted (fun a b => before a b = false) (insert_desc before x l).
Proof.
  induction l as [|y l IH]; cbn; intros Hl.
  - constructor; constructor.
  - destruct (before x y) eqn:Hxy.
    + inversion Hl as [|? ? Hl' Hhd]; subst. constructor; [apply IH, Hl'|].
      destruct l as [|z l]; cbn.
      * constructor. apply before_asym, Hxy.
      * destruct (before x z); constructor.
        -- inversion Hhd; assumption.
        -- apply before_asym, Hxy.
    + constructor; [exact Hl | constructor; exact Hxy].
Qed.

Lemma order_by_desc_sorted l :
  Sorted (fun a b => before a b = false) (order_by_desc before l).
Proof.
  induction l as [|x l IH]; cbn; [constructor | apply insert_desc_sorted, IH].
Qed.

End Descending.

Lemma appointment_before_asym a b :
  appointment_before a b = true -> appointment_before b a = false.
Proof. apply dt_ltb_asym. Qed.

Lemma user_appointments_page w :
  truthy (session w !! "user_id") = true ->
  serve user_appointments w = (inl ("user_appointments.html", own_appointments w), w).
Proof.
  intros Ht. unfold serve, user_appointments, mbind, handler_bind, session_get,
    own_appointments, render_template. run. rewrite Ht. run.
  unfold Client_first_by_user, query, client_of. run.
  destruct (int_param (session w !! "user_id")) as [uid|]; [|destruct w; reflexivity].
  destruct (find _ (clients (db w))) as [c|]; destruct w; reflexivity.
Qed.


(** X12.  [/mis-citas] shows a logged-in user the appointments of the
    Client record of that user and nothing else: every appointment of the
    table whose client is that record is on the page, no appointment of
    another client is, and a user without a Client record gets an empty
    page.  The page is ordered by datetime, latest first. *)
Theorem user_sees_own_appointments w uid :
  truthy (session w !! "user_id") = true ->
  int_param (session w !! "user_id") = Some uid ->
  exists l,
    serve user_appointments w = (inl ("user_appointments.html", l), w)
    /\ (forall a,
          In a l <->
          In a (appointments (db w))
          /\ exists c, client_of (db w) uid = Some c
                       /\ Appointment.client_id a = Client.id c)
    /\ (client_of (db w) uid = None -> l = [])
    /\ Sorted (fun a b => dt_ltb (Appointment.appointment_datetime a)
                                 (Appointment.appointment_datetime b) = false) l.
Proof.
  intros Ht Hu. exists (own_appointments w).
  split; [apply user_appointments_page, Ht|].
  unfold own_appointments. rewrite Hu.
  destruct (client_of (db w) uid) as [c|].
  - split; [|split; [discriminate|]].
    + intros a. rewrite order_by_desc_in, filter_In, Z.eqb_eq. split.
      * intros [Hin Hc]. split; [exact Hin|]. exists c. auto.
      * intros (Hin & c' & [= <-] & Hc). auto.
    + apply (order_by_desc_sorted appointment_before appointment_before_asym).
  - split; [|split; [reflexivity | constructor]].
    intros a. split; [intros [] | intros (_ & c & H & _); discriminate].
Qed.

(** X13.  A booking that goes through is on the user's [/mis-citas] page
    right after, with the status [pendiente], the datetime, the service
    and the barber that were submitted. *)
Theorem booked_appointment_is_listed w form now uid sk bk dt :
  logged_in w uid ->
  first_failure (db w) form now = None ->
  submitted_id form "service_id" = Some sk ->
  submitted_id form "barber_id" = Some bk ->
  submitted_datetime form = Some dt ->
  let w1 := snd (respond (book_appointment POST form now) w) in
  exists a l,
    serve user_appointments w1 = (inl ("user_appointments.html", l), w1)
    /\ In a l
    /\ Appointment.status a = lit "pendiente"
    /\ Appointment.appointment_datetime a = dt
    /\ Appointment.service_id a = sk
    /\ Appointment.barber_id a = bk.
Proof.
  intros Hl Hff Hsk Hbk Hdt w1. subst w1.
  rewrite (book_accepts w form now uid sk bk dt Hl Hff Hsk Hbk Hdt).
  unfold accepted. cbn [snd].
  set (w1 := mk_world _ _ _).
  assert (truthy (session w1 !! "user_id") = true) as Ht
    by apply (logged_in_truthy w uid Hl).
  assert (exists c, client_of (db w1) uid = Some c
                    /\ In (new_appointment (db w) form dt (Client.id c) sk bk)
                          (appointments (db w1))) as (c & Hc & Hin).
  { subst w1. cbn [db]. unfold booked.
    destruct (client_of (db w) uid) as [c|] eqn:Hc.
    - exists c. split; [exact Hc|]. cbn [appointments].
      apply in_app_iff. right. left. reflexivity.
    - exists (new_client (db w) uid form). split.
      + unfold client_of. cbn [clients]. apply find_appended; [exact Hc|].
        cbn [new_client Client.user_id]. apply Z.eqb_refl.
      + cbn [appointments]. apply in_app_iff. right. left. reflexivity. }
  exists (new_appointment (db w) form dt (Client.id c) sk bk), (own_appointments w1).
  split; [apply user_appointments_page, Ht|].
  split; [|repeat split; reflexivity].
  unfold own_appointments.
  assert (int_param (session w1 !! "user_id") = Some uid) as ->
    by (subst w1; cbn [session]; destruct Hl as [-> _]; reflexivity).
  rewrite Hc. apply order_by_desc_in, filter_In. split; [exact Hin|].
  apply Z.eqb_refl.
Qed.

(** X14.  The three admin lists show an admin the whole table (each row
    once for each time it is in the table), ordered by key, highest first
    for services and barbers, and by datetime, latest first, for
    appointments.  The home page shows the active services only, and
    [/services] all of them, in table order; neither needs a session. *)
Theorem lists_show_the_tables w :
  (is_admin w ->
   (exists l, serve admin_services w = (inl ("admin_services.html", l), w)
              /\ Permutation l (services (db w))
              /\ Sorted (fun a b => (Service.id a <? Service.id b) = false) l)
   /\ (exists l, serve admin_barbers w = (inl ("admin_barbers.html", l), w)
                 /\ Permutation l (barbers (db w))
                 /\ Sorted (fun a b => (Barber.id a <? Barber.id b) = false) l)
   /\ (exists l, serve admin_appointments w = (inl ("admin_appointments.html", l), w)
                 /\ Permutation l (appointments (db w))
                 /\ Sorted (fun a b => dt_ltb (Appointment.appointment_datetime a)
                                              (Appointment.appointment_datetime b) = false) l))
  /\ serve index w = (inl ("index.html", List.filter Service.is_active (services (db w))), w)
  /\ serve list_services w = (inl ("services.html", services (db w)), w).
Proof.
  split; [|split; destruct w; reflexivity].
  intros Hadm. pose proof (is_admin_not_admin w Hadm) as Hna. conjuncts.
  - eexists. split; [|split].
    + unfold serve, admin_services, mbind, handler_bind, session_get, query,
        render_template. run. rewrite Hna. destruct w; reflexivity.
    + apply order_by_desc_perm.
    + apply order_by_desc_sorted. intros a b H. lia.
  - eexists. split; [|split].
    + unfold serve, admin_barbers, mbind, handler_bind, session_get, query,
        render_template. run. rewrite Hna. destruct w; reflexivity.
    + apply order_by_desc_perm.
    + apply order_by_desc_sorted. intros a b H. lia.
  - eexists. split; [|split].
    + unfold serve, admin_appointments, mbind, handler_bind, session_get, query,
        render_template. run. rewrite Hna. destruct w; reflexivity.
    + apply order_by_desc_perm.
    + apply (order_by_desc_sorted appointment_before appointment_before_asym).
Qed.


(** ** Rows rewritten in place *)

Section Rewriting.

Context {A : Type} (key : A -> Z) (k : Z).

(** Looking a key up after the rows with key [k] went through [f], when
    [f] keeps the key. *)
Lemma find_rewritten (f : A -> A) (l : list A) k' :
  (forall x, key (f x) = key x) ->
  find (fun x => key x =? k') (map (fun x => if key x =? k then f x else x) l)
  = option_map (fun x => if key x =? k then f x else x)
               (find (fun x => key x =? k') l).
Proof.
  intros Hf. induction l as [|x l IH]; cbn; [reflexivity|].
  assert (key (if key x =? k then f x else x) = key x) as ->
    by (destruct (key x =? k); [apply Hf | reflexivity]).
  destruct (key x =? k'); [reflexivity | exact IH].
Qed.

Lemma rewrite_absent (f : A -> A) (l : list A) :
  ~ In k (map key l) ->
  map (fun x => if key x =? k then f x else x) l = l.
Proof.
  induction l as [|x l IH]; cbn; [reflexivity|].
  intros H. rewrite IH by tauto.
  destruct (Z.eqb_spec (key x) k); [tauto | reflexivity].
Qed.

(** With unique keys, rewriting the row with key [k] by [f] and then by
    [g] gives the table back when [g] undoes [f] on that row. *)
Lemma rewrite_back (f g : A -> A) (l : list A) a :
  List.NoDup (map key l) ->
  find (fun x => key x =? k) l = Some a ->
  (forall x, key (f x) = key x) ->
  g (f a) = a ->
  map (fun x => if key x =? k then g x else x)
      (map (fun x => if key x =? k then f x else x) l) = l.
Proof.
  intros Hnd Ha Hf Hgf. induction l as [|x l IH]; cbn in *; [discriminate|].
  inversion Hnd as [|? ? Hx Hl]; subst.
  destruct (Z.eqb_spec (key x) k) as [Hk | Hk].
  - injection Ha as ->. rewrite Hf.
    destruct (Z.eqb_spec (key a) k); [|tauto].
    rewrite Hgf. f_equal.
    rewrite (rewrite_absent f l), (rewrite_absent g l); congruence.
  - destruct (Z.eqb_spec (key x) k); [tauto|].
    f_equal. apply IH; assumption.
Qed.

End Rewriting.

(** ** [/admin/appointment/<id>/<status>] *)

Lemma update_appointment_status_cases w k st :
  is_admin w ->
  respond (update_appointment_status k st) w =
    match find (fun a' => Appointment.id a' =? k) (appointments (db w)) with
    | Some a =>
        (Redirect "admin_appointments",
         mk_world (with_status (db w) k st) (session w)
                  (flashes w ++ [(Literal "Estado de la cita actualizado.", "success")]))
    | None => (no_row k, w)
    end.
Proof.
  intros Hadm.
  unfold respond, update_appointment_status, mbind, handler_bind, session_get. run.
  rewrite (is_admin_not_admin w Hadm). run.
  unfold Appointment_query_get, query, or_404. run.
  destruct (find _ (appointments (db w))) as [a|] eqn:Ha; run;
    [|destruct w; reflexivity].
  unfold set_appointment_status, update, commit, with_status. run.
  rewrite (find_id_eq k _ a Ha). reflexivity.
Qed.

(** X15.  An admin sets the status of an existing appointment to any
    string at all: no list of allowed values is checked.  Afterwards the
    appointment is found under its key with the new status and all its
    other fields as before, every appointment with another key is as it
    was, and so are the other tables.  A key that no appointment has
    changes nothing: it gives a 404 when it lies within the 64-bit
    integers of the storage engine, and the uncaught [OverflowError] of
    the driver when it does not. *)
Theorem admin_sets_any_status w k st :
  is_admin w ->
  let out := respond (update_appointment_status k st) w in
  let lookup k' d := find (fun a' => Appointment.id a' =? k') (appointments d) in
  (lookup k (db w) = None ->
   (int64 k = true -> out = (NotFound404, w))
   /\ (int64 k = false -> out = (Uncaught "OverflowError", w)))
  /\ (forall a,
        lookup k (db w) = Some a ->
        fst out = Redirect "admin_appointments"
        /\ lookup k (db (snd out)) = Some (Appointment.set_status st a)
        /\ (forall k', k' <> k -> lookup k' (db (snd out)) = lookup k' (db w))
        /\ services (db (snd out)) = services (db w)
        /\ barbers (db (snd out)) = barbers (db w)
        /\ clients (db (snd out)) = clients (db w)
        /\ users (db (snd out)) = users (db w)
        /\ session (snd out) = session w).
Proof.
  intros Hadm out lookup. subst out lookup. cbv beta.
  rewrite (update_appointment_status_cases w k st Hadm). split.
  - intros ->. unfold no_row. split; intros ->; reflexivity.
  - intros a Ha. rewrite Ha. cbn [fst snd db session with_status appointments
                                   services barbers clients users].
    split; [reflexivity|]. split; [|split; [|repeat split; reflexivity]].
    + rewrite (find_rewritten Appointment.id k (Appointment.set_status st))
        by reflexivity.
      rewrite Ha. cbn [option_map]. rewrite (find_id_eq k _ a Ha), Z.eqb_refl.
      reflexivity.
    + intros k' Hk'.
      rewrite (find_rewritten Appointment.id k (Appointment.set_status st))
        by reflexivity.
      destruct (find (fun x => Appointment.id x =? k') (appointments (db w)))
        as [a'|] eqn:Ha'; [|reflexivity].
      cbn [option_map]. rewrite (find_id_eq k' _ a' Ha').
      destruct (Z.eqb_spec k' k); [contradiction | reflexivity].
Qed.

Lemma set_status_back st (a : Appointment.t) :
  Appointment.set_status (Appointment.status a) (Appointment.set_status st a) = a.
Proof. destruct a; reflexivity. Qed.

(** X16.  A cancellation can be undone by an admin: with unique keys,
    after the owner cancels an appointment and an admin then sets its
    status back to what it was, the database is exactly as before the
    cancellation. *)
Theorem cancellation_can_be_undone w k now a w2 :
  keys_unique (db w) ->
  may_cancel w k now ->
  find (fun a' => Appointment.id a' =? k) (appointments (db w)) = Some a ->
  db w2 = db (snd (respond (cancel_user_appointment k now) w)) ->
  is_admin w2 ->
  db (snd (respond (update_appointment_status k (Appointment.status a)) w2)) = db w.
Proof.
  intros (_ & _ & _ & Hnd & _) (Ht & uid & c & a' & Hu & Hc & Ha' & Hown & Hge) Ha Hdb Hadm.
  rewrite Ha in Ha'. injection Ha' as <-.
  rewrite (update_appointment_status_cases w2 k _ Hadm), Hdb.
  rewrite cancel_user_appointment_cases, Ht, Hu, Hc, Ha, Hown, Z.eqb_refl.
  unfold dt_geb in Hge. apply negb_true_iff in Hge. rewrite Hge.
  cbn [negb snd db]. rewrite (find_id_eq k _ a Ha).
  unfold cancelled at 1. cbn [appointments].
  rewrite (find_cancelled k _ a Ha). cbn [snd db].
  unfold with_status, cancelled. cbn [appointments services barbers clients users].
  rewrite (rewrite_back Appointment.id k
             (Appointment.set_status (lit "cancelada"))
             (Appointment.set_status (Appointment.status a))
             (appointments (db w)) a Hnd Ha (fun _ => eq_refl) (set_status_back _ a)).
  destruct (db w); reflexivity.
Qed.

(** X17.  Cancelling is not tied to the current status: the owner can
    cancel an appointment again after it was cancelled, as long as it is
    still not in the past; the request succeeds again, with the same
    message, and changes nothing in the database. *)
Theorem cancelling_twice_changes_nothing w k now now2 :
  may_cancel w k now ->
  may_cancel w k now2 ->
  let w1 := snd (respond (cancel_user_appointment k now) w) in
  respond (cancel_user_appointment k now2) w1
  = (Redirect "user_appointments",
     mk_world (db w1) (session w1) (flashes w1 ++ [cancel_success])).
Proof.
  intros Hmay Hmay2 w1.
  assert (db w1 = cancelled (db w) k /\ session w1 = session w) as [Hdb Hse].
  { subst w1. destruct Hmay as (Ht & uid & c & a & Hu & Hc & Ha & Hown & Hge).
    rewrite cancel_user_appointment_cases, Ht, Hu, Hc, Ha, Hown, Z.eqb_refl.
    unfold dt_geb in Hge. apply negb_true_iff in Hge. rewrite Hge.
    rewrite (find_id_eq k _ a Ha). split; reflexivity. }
  destruct Hmay2 as (Ht & uid & c & a & Hu & Hc & Ha & Hown & Hge).
  assert (find (fun a' => Appointment.id a' =? k) (appointments (db w1))
          = Some (Appointment.set_status (lit "cancelada") a)) as Ha1.
  { rewrite Hdb. unfold cancelled. cbn [appointments]. apply find_cancelled, Ha. }
  assert (client_of (db w1) uid = Some c) as Hc1 by (rewrite Hdb; exact Hc).
  rewrite cancel_user_appointment_cases, Hse, Ht, Hu, Hc1, Ha1. cbn [Appointment.set_status Appointment.client_id
                   Appointment.appointment_datetime Appointment.id].
  rewrite Hown, Z.eqb_refl.
  unfold dt_geb in Hge. apply negb_true_iff in Hge. rewrite Hge.
  cbn [negb]. rewrite (find_id_eq k _ a Ha). f_equal. f_equal.
  rewrite Hdb. unfold cancelled. cbn [services barbers clients appointments users].
  f_equal. rewrite map_map. apply map_ext. intros x.
  destruct (Appointment.id x =? k) eqn:Hx; cbn [Appointment.set_status Appointment.id];
    rewrite Hx; reflexivity.
Qed.


(** ** Toggling *)

Lemma admin_service_toggle_cases w k :
  is_admin w ->
  respond (admin_service_toggle k) w =
    match find (fun s' => Service.id s' =? k) (services (db w)) with
    | Some s =>
        (Redirect "admin_services",
         mk_world (with_service_active (db w) k (negb (Service.is_active s))) (session w)
                  (flashes w ++ [(Literal "Estado actualizado", "info")]))
    | None => (no_row k, w)
    end.
Proof.
  intros Hadm.
  unfold respond, admin_service_toggle, mbind, handler_bind, session_get. run.
  rewrite (is_admin_not_admin w Hadm). run.
  unfold Service_query_get, query, or_404. run. cbn [int_param].
  destruct (find _ (services (db w))) as [s|] eqn:Hs; run; [|destruct w; reflexivity].
  assert (Service.id s = k) as Hk
    by (apply find_some in Hs as [_ H]; apply Z.eqb_eq, H).
  unfold set_service_active, update, commit, with_service_active. run.
  rewrite Hk. reflexivity.
Qed.

Lemma toggle_barber_cases w k :
  is_admin w ->
  respond (toggle_barber k) w =
    match find (fun b' => Barber.id b' =? k) (barbers (db w)) with
    | Some b =>
        (Redirect "admin_barbers",
         mk_world (with_barber_active (db w) k (negb (Barber.is_active b))) (session w)
                  (flashes w ++ [(Literal "Estado actualizado", "info")]))
    | None => (no_row k, w)
    end.
Proof.
  intros Hadm.
  unfold respond, toggle_barber, mbind, handler_bind, session_get. run.
  rewrite (is_admin_not_admin w Hadm). run.
  unfold Barber_query_get, query, or_404. run. cbn [int_param].
  destruct (find _ (barbers (db w))) as [b|] eqn:Hb; run; [|destruct w; reflexivity].
  assert (Barber.id b = k) as Hk
    by (apply find_some in Hb as [_ H]; apply Z.eqb_eq, H).
  unfold set_barber_active, update, commit, with_barber_active. run.
  rewrite Hk. reflexivity.
Qed.

Lemma database_eta (d : database) :
  mk_database (services d) (barbers d) (clients d) (appointments d) (users d) = d.
Proof. destruct d; reflexivity. Qed.

(** X18.  Toggling twice gives the database back: with unique keys, two
    toggle requests of an admin for the same service (and likewise for
    the same barber) leave the database exactly as it was. *)
Theorem toggling_twice_restores w k :
  is_admin w ->
  keys_unique (db w) ->
  (forall s,
     find (fun s' => Service.id s' =? k) (services (db w)) = Some s ->
     db (snd (respond (admin_service_toggle k)
                      (snd (respond (admin_service_toggle k) w)))) = db w)
  /\ (forall b,
        find (fun b' => Barber.id b' =? k) (barbers (db w)) = Some b ->
        db (snd (respond (toggle_barber k) (snd (respond (toggle_barber k) w)))) = db w).
Proof.
  intros Hadm (Hs & Hb & _). split.
  - intros s Hfind.
    set (f := fun s' => Service.mk (Service.id s') (Service.name s')
                          (Service.description s') (Service.duration_minutes s')
                          (Service.price s') (negb (Service.is_active s))).
    set (g := fun s' => Service.mk (Service.id s') (Service.name s')
                          (Service.description s') (Service.duration_minutes s')
                          (Service.price s') (Service.is_active s)).
    rewrite (admin_service_toggle_cases w k Hadm), Hfind. cbn [snd].
    rewrite admin_service_toggle_cases by exact Hadm.
    cbn [db with_service_active services]. fold f.
    rewrite (find_rewritten Service.id k f) by reflexivity.
    rewrite Hfind. cbn [option_map].
    assert (Service.id s = k) as Hk
      by (apply find_some in Hfind as [_ H]; apply Z.eqb_eq, H).
    rewrite Hk, Z.eqb_refl. cbn [snd db f Service.is_active].
    rewrite negb_involutive. unfold with_service_active.
    cbn [services barbers clients appointments users]. fold g.
    rewrite <- (database_eta (db w)) at 6. f_equal.
    apply (rewrite_back Service.id k f g (services (db w)) s Hs Hfind);
      [reflexivity | destruct s; reflexivity].
  - intros b Hfind.
    set (f := fun b' => Barber.mk (Barber.id b') (Barber.name b')
                          (Barber.specialty b') (negb (Barber.is_active b))).
    set (g := fun b' => Barber.mk (Barber.id b') (Barber.name b')
                          (Barber.specialty b') (Barber.is_active b)).
    rewrite (toggle_barber_cases w k Hadm), Hfind. cbn [snd].
    rewrite toggle_barber_cases by exact Hadm.
    cbn [db with_barber_active barbers]. fold f.
    rewrite (find_rewritten Barber.id k f) by reflexivity.
    rewrite Hfind. cbn [option_map].
    assert (Barber.id b = k) as Hk
      by (apply find_some in Hfind as [_ H]; apply Z.eqb_eq, H).
    rewrite Hk, Z.eqb_refl. cbn [snd db f Barber.is_active].
    rewrite negb_involutive. unfold with_barber_active.
    cbn [services barbers clients appointments users]. fold g.
    rewrite <- (database_eta (db w)) at 6. f_equal.
    apply (rewrite_back Barber.id k f g (barbers (db w)) b Hb Hfind);
      [reflexivity | destruct b; reflexivity].
Qed.

(** X19.  Deactivating a service takes it off the home page and nowhere
    else: after an admin toggles an active service, the home page lists
    no service with that key and lists every other service exactly when
    it did before, while [/services] still has a service with that key,
    same name, duration and price, now inactive. *)
Theorem deactivated_service_leaves_home_page w k s :
  is_admin w ->
  find (fun s' => Service.id s' =? k) (services (db w)) = Some s ->
  Service.is_active s = true ->
  let w1 := snd (respond (admin_service_toggle k) w) in
  exists home all,
    serve index w1 = (inl ("index.html", home), w1)
    /\ serve list_services w1 = (inl ("services.html", all), w1)
    /\ (forall s', In s' home -> Service.id s' <> k)
    /\ (forall s', Service.id s' <> k ->
                   (In s' home <-> In s' (services (db w)) /\ Service.is_active s' = true))
    /\ In (Service.mk k (Service.name s) (Service.description s)
                      (Service.duration_minutes s) (Service.price s) false) all.
Proof.
  intros Hadm Hfind Hact w1. subst w1.
  rewrite (admin_service_toggle_cases w k Hadm), Hfind, Hact. cbn [snd negb].
  set (w1 := mk_world _ _ _).
  assert (Service.id s = k) as Hk
    by (apply find_some in Hfind as [_ H]; apply Z.eqb_eq, H).
  exists (List.filter Service.is_active (services (db w1))), (services (db w1)).
  split; [reflexivity|]. split; [reflexivity|].
  subst w1. cbn [db with_service_active services]. conjuncts.
  - intros s' Hin Hid. apply filter_In in Hin as [Hin Ha].
    apply in_map_iff in Hin as (x & Hx & _).
    destruct (Z.eqb_spec (Service.id x) k) as [Hxk | Hxk]; subst s'; cbn in *;
      congruence.
  - intros s' Hid. rewrite filter_In, in_map_iff. split.
    + intros ((x & Hx & Hin) & Ha).
      destruct (Z.eqb_spec (Service.id x) k) as [Hxk | Hxk]; subst s'; cbn in *;
        [congruence | auto].
    + intros [Hin Ha]. split; [|exact Ha]. exists s'. split; [|exact Hin].
      destruct (Z.eqb_spec (Service.id s') k); [tauto | reflexivity].
  - apply in_map_iff. exists s. split.
    + rewrite Hk, Z.eqb_refl. reflexivity.
    + apply find_some in Hfind. apply Hfind.
Qed.


(** ** Editing and adding *)

Lemma admin_service_edit_cases w k s form :
  is_admin w ->
  find (fun s' => Service.id s' =? k) (services (db w)) = Some s ->
  respond (admin_service_edit k POST form) w =
    match form !! "duration" with
    | None => (Uncaught "TypeError", w)
    | Some duration =>
        match py_int duration with
        | None => (Uncaught "ValueError", w)
        | Some n =>
            match form !! "price" with
            | None => (Uncaught "TypeError", w)
            | Some price =>
                match py_float price with
                | None => (Uncaught "ValueError", w)
                | Some x =>
                    if negb (int64 n) then (Uncaught "OverflowError", w)
                    else
                      match form !! "name" with
                      | None => (Uncaught "IntegrityError", w)
                      | Some name =>
                          if PrimFloat.is_nan x then (Uncaught "IntegrityError", w)
                          else
                            let d := db w in
                            (Redirect "admin_services",
                             mk_world
                               (mk_database
                                  (map (fun s' =>
                                          if Service.id s' =? k
                                          then Service.mk (Service.id s') name
                                                 (form !! "description") n
                                                 (stored_float x)
                                                 (Service.is_active s')
                                          else s')
                                       (services d))
                                  (barbers d) (clients d) (appointments d) (users d))
                               (session w)
                               (flashes w ++ [(Literal "Servicio actualizado", "success")]))
                      end
                end
            end
        end
    end.
Proof.
  intros Hadm Hs.
  assert (Service.id s = k) as Hk
    by (apply find_some in Hs as [_ H]; apply Z.eqb_eq, H).
  unfold respond, admin_service_edit, mbind, handler_bind, session_get, form_get. run.
  rewrite (is_admin_not_admin w Hadm). run.
  unfold Service_query_get, query, or_404. run. cbn [int_param]. rewrite Hs. run.
  unfold int_of, float_of, int_, float_.
  destruct (form !! "duration") as [duration|]; run; [|destruct w; reflexivity].
  destruct (py_int duration) as [n|]; run; [|destruct w; reflexivity].
  destruct (form !! "price") as [price|]; run; [|destruct w; reflexivity].
  destruct (py_float price) as [x|]; run; [|destruct w; reflexivity].
  unfold set_service_fields.
  destruct (int64 n); run; [|destruct w; reflexivity].
  destruct (form !! "name") as [name|]; run; [|destruct w; reflexivity].
  destruct (PrimFloat.is_nan x); run; [destruct w; reflexivity|].
  unfold update, commit. run. rewrite Hk. reflexivity.
Qed.

(** X20.  An admin edit of a service with a duration and a price that
    convert, the duration within the 64-bit integers of the storage
    engine and the price not NaN, overwrites name, description, duration
    and price with what the form holds, whatever that is: an empty name or
    an absent description is stored as given, where creating a service
    would refuse the empty name; the price is stored as the Float column
    keeps it (a negative zero as zero).  The key and the [is_active] flag
    stay; every service with another key stays as it was. *)
Theorem service_edit_overwrites w k s form name duration price n x :
  is_admin w ->
  find (fun s' => Service.id s' =? k) (services (db w)) = Some s ->
  form !! "name" = Some name ->
  form !! "duration" = Some duration ->
  form !! "price" = Some price ->
  py_int duration = Some n ->
  py_float price = Some x ->
  int64 n = true ->
  PrimFloat.is_nan x = false ->
  let out := respond (admin_service_edit k POST form) w in
  let lookup k' d := find (fun s' => Service.id s' =? k') (services d) in
  fst out = Redirect "admin_services"
  /\ lookup k (db (snd out))
     = Some (Service.mk k name (form !! "description") n (stored_float x)
                        (Service.is_active s))
  /\ (forall k', k' <> k -> lookup k' (db (snd out)) = lookup k' (db w))
  /\ barbers (db (snd out)) = barbers (db w)
  /\ appointments (db (snd out)) = appointments (db w).
Proof.
  intros Hadm Hs Hname Hdur Hprice Hn Hx Hrange Hnan out lookup. subst out lookup.
  cbv beta.
  rewrite (admin_service_edit_cases w k s form Hadm Hs), Hdur, Hn, Hprice, Hx, Hname,
          Hrange, Hnan.
  cbv zeta. cbn [negb]. cbn [fst snd db services barbers appointments].
  assert (Service.id s = k) as Hk
    by (apply find_some in Hs as [_ H]; apply Z.eqb_eq, H).
  set (f := fun s' => Service.mk (Service.id s') name (form !! "description") n
                                 (stored_float x) (Service.is_active s')).
  conjuncts; try reflexivity.
  - rewrite (find_rewritten Service.id k f) by reflexivity.
    rewrite Hs. cbn [option_map]. rewrite Hk, Z.eqb_refl. unfold f. rewrite Hk.
    reflexivity.
  - intros k' Hk'. rewrite (find_rewritten Service.id k f) by reflexivity.
    destruct (find (fun x => Service.id x =? k') (services (db w))) as [s'|] eqn:Hs';
      [|reflexivity].
    cbn [option_map].
    assert (Service.id s' = k') as ->
      by (apply find_some in Hs' as [_ H]; apply Z.eqb_eq, H).
    destruct (Z.eqb_spec k' k); [contradiction | reflexivity].
Qed.

(** X21.  The edit form of a service is not validated: a duration or a
    price that is missing from the form ends the request with an uncaught
    [TypeError], and one that does not convert with an uncaught
    [ValueError].  When both convert, a duration outside the 64-bit
    integers of the storage engine ends it with the [OverflowError] of the
    driver, whatever the name and the price; with the duration in range,
    a missing name and a NaN price each end it with the [IntegrityError]
    of the NOT NULL column.  None of them is answered with a redirect and
    a message, and in each case nothing is stored. *)
Theorem service_edit_is_not_validated w k s form :
  is_admin w ->
  find (fun s' => Service.id s' =? k) (services (db w)) = Some s ->
  let out := respond (admin_service_edit k POST form) w in
  (form !! "duration" = None -> out = (Uncaught "TypeError", w))
  /\ (forall duration,
        form !! "duration" = Some duration -> py_int duration = None ->
        out = (Uncaught "ValueError", w))
  /\ (forall duration n,
        form !! "duration" = Some duration -> py_int duration = Some n ->
        (form !! "price" = None -> out = (Uncaught "TypeError", w))
        /\ (forall price,
              form !! "price" = Some price -> py_float price = None ->
              out = (Uncaught "ValueError", w))
        /\ (forall price x,
              form !! "price" = Some price -> py_float price = Some x ->
              (int64 n = false -> out = (Uncaught "OverflowError", w))
              /\ (int64 n = true -> form !! "name" = None ->
                  out = (Uncaught "IntegrityError", w))
              /\ (int64 n = true -> PrimFloat.is_nan x = true ->
                  out = (Uncaught "IntegrityError", w)))).
Proof.
  intros Hadm Hs out. subst out.
  rewrite (admin_service_edit_cases w k s form Hadm Hs). conjuncts.
  - intros ->. reflexivity.
  - intros duration -> ->. reflexivity.
  - intros duration n -> ->. conjuncts.
    + intros ->. reflexivity.
    + intros price -> ->. reflexivity.
    + intros price x -> ->. conjuncts.
      * intros ->. reflexivity.
      * intros -> ->. reflexivity.
      * intros -> ->. cbn [negb]. destruct (form !! "name"); reflexivity.
Qed.

Lemma edit_barber_cases w k b form :
  is_admin w ->
  find (fun b' => Barber.id b' =? k) (barbers (db w)) = Some b ->
  respond (edit_barber k POST form) w =
    match form !! "name" with
    | None => (Uncaught "IntegrityError", w)
    | Some name =>
        let d := db w in
        (Redirect "admin_barbers",
         mk_world
           (mk_database (services d)
              (map (fun b' => if Barber.id b' =? k
                              then Barber.mk (Barber.id b') name (form !! "specialty")
                                             (Barber.is_active b')
                              else b')
                   (barbers d))
              (clients d) (appointments d) (users d))
           (session w)
           (flashes w ++ [(Literal "Barbero actualizado", "success")]))
    end.
Proof.
  intros Hadm Hb.
  assert (Barber.id b = k) as Hk
    by (apply find_some in Hb as [_ H]; apply Z.eqb_eq, H).
  unfold respond, edit_barber, mbind, handler_bind, session_get, form_get. run.
  rewrite (is_admin_not_admin w Hadm). run.
  unfold Barber_query_get, query, or_404. run. cbn [int_param]. rewrite Hb. run.
  unfold set_barber_fields.
  destruct (form !! "name") as [name|]; run; [|destruct w; reflexivity].
  unfold update, commit. run. rewrite Hk. reflexivity.
Qed.

(** X22.  An admin edit of a barber overwrites name and specialty with
    what the form holds (an empty name included) and keeps the key and
    the [is_active] flag; barbers with another key, and the appointments
    that refer to the barber, stay as they were.  A form without a name
    ends with the uncaught [IntegrityError] and stores nothing. *)
Theorem barber_edit_overwrites w k b form :
  is_admin w ->
  find (fun b' => Barber.id b' =? k) (barbers (db w)) = Some b ->
  let out := respond (edit_barber k POST form) w in
  let lookup k' d := find (fun b' => Barber.id b' =? k') (barbers d) in
  (form !! "name" = None -> out = (Uncaught "IntegrityError", w))
  /\ (forall name,
        form !! "name" = Some name ->
        fst out = Redirect "admin_barbers"
        /\ lookup k (db (snd out))
           = Some (Barber.mk k name (form !! "specialty") (Barber.is_active b))
        /\ (forall k', k' <> k -> lookup k' (db (snd out)) = lookup k' (db w))
        /\ services (db (snd out)) = services (db w)
        /\ appointments (db (snd out)) = appointments (db w)).
Proof.
  intros Hadm Hb out lookup. subst out lookup. cbv beta.
  rewrite (edit_barber_cases w k b form Hadm Hb). split; [intros ->; reflexivity|].
  intros name ->. cbv zeta. cbn [fst snd db services barbers appointments].
  assert (Barber.id b = k) as Hk
    by (apply find_some in Hb as [_ H]; apply Z.eqb_eq, H).
  set (f := fun b' => Barber.mk (Barber.id b') name (form !! "specialty")
                                (Barber.is_active b')).
  conjuncts; try reflexivity.
  - rewrite (find_rewritten Barber.id k f) by reflexivity.
    rewrite Hb. cbn [option_map]. rewrite Hk, Z.eqb_refl. unfold f. rewrite Hk.
    reflexivity.
  - intros k' Hk'. rewrite (find_rewritten Barber.id k f) by reflexivity.
    destruct (find (fun x => Barber.id x =? k') (barbers (db w))) as [b'|] eqn:Hb';
      [|reflexivity].
    cbn [option_map].
    assert (Barber.id b' = k') as ->
      by (apply find_some in Hb' as [_ H]; apply Z.eqb_eq, H).
    destruct (Z.eqb_spec k' k); [contradiction | reflexivity].
Qed.

Lemma find_above {A} (key : A -> Z) (l : list A) :
  find (fun y => key y =? next_id (map key l)) l = None.
Proof.
  destruct (find _ l) as [y|] eqn:Hy; [|reflexivity].
  apply find_some in Hy as [Hin Hk]. apply Z.eqb_eq in Hk.
  exfalso. apply (next_id_fresh (map key l)). rewrite <- Hk. apply in_map, Hin.
Qed.

(** X23.  [/admin/barbers/add] by an admin: a form without a name, or
    with an empty one, is answered with a warning and stores nothing.
    Any other name (it is not trimmed) gives a new barber, active, with
    the specialty as submitted and a key no barber had; the new barber is
    found under that key and the barbers already there are unchanged. *)
Theorem add_barber_adds_an_active_barber w form :
  is_admin w ->
  let out := respond (add_barber POST form) w in
  let d := db w in
  (truthy_str (form !! "name") = false ->
   out = (Redirect "add_barber",
          mk_world d (session w)
                   (flashes w ++ [(Literal "El nombre es obligatorio", "warning")])))
  /\ (forall name,
        form !! "name" = Some name -> name <> [] ->
        let b := Barber.mk (next_id (map Barber.id (barbers d))) name
                           (form !! "specialty") true in
        out = (Redirect "admin_barbers",
               mk_world
                 (mk_database (services d) (barbers d ++ [b]) (clients d)
                              (appointments d) (users d))
                 (session w) (flashes w ++ [(Literal "Barbero agregado", "success")]))
        /\ find (fun b' => Barber.id b' =? Barber.id b) (barbers d) = None
        /\ find (fun b' => Barber.id b' =? Barber.id b) (barbers (db (snd out))) = Some b).
Proof.
  intros Hadm out d. subst out d.
  assert (respond (add_barber POST form) w =
          if negb (truthy_str (form !! "name")) then
            (Redirect "add_barber",
             mk_world (db w) (session w)
                      (flashes w ++ [(Literal "El nombre es obligatorio", "warning")]))
          else
            (Redirect "admin_barbers",
             mk_world
               (mk_database (services (db w))
                  (barbers (db w) ++
                     [Barber.mk (next_id (map Barber.id (barbers (db w))))
                                (or_empty (form !! "name")) (form !! "specialty") true])
                  (clients (db w)) (appointments (db w)) (users (db w)))
               (session w) (flashes w ++ [(Literal "Barbero agregado", "success")])))
    as ->.
  { unfold respond, add_barber, mbind, handler_bind, session_get, form_get. run.
    rewrite (is_admin_not_admin w Hadm). run.
    destruct (truthy_str (form !! "name")); run; reflexivity. }
  split.
  - intros ->. reflexivity.
  - intros name Hname Hne b. rewrite Hname.
    destruct name as [|c name]; [congruence|]. cbn [truthy_str negb or_empty].
    split; [reflexivity|]. cbn [snd db barbers]. split.
    + apply (find_above Barber.id).
    + apply find_appended; [apply (find_above Barber.id) | apply Z.eqb_refl].
Qed.


(** ** Start-up *)

Lemma seed_initial_data_cases st :
  seed_initial_data st =
    let d := view st in
    let d1 :=
      mk_database
        (match services d with [] => default_services | _ :: _ => services d end)
        (match barbers d with [] => default_barbers | _ :: _ => barbers d end)
        (clients d) (appointments d) (users d) in
    (Next tt, mk_state d1 d1 (st_session st) (st_flashes st)).
Proof.
  destruct st as [[ss bs cs aps us] sd se fl].
  destruct ss as [|s ss], bs as [|b bs]; reflexivity.
Qed.

Lemma started_cases salt d :
  started salt d =
    mk_database
      (match services d with [] => default_services | _ :: _ => services d end)
      (match barbers d with [] => default_barbers | _ :: _ => barbers d end)
      (clients d) (appointments d)
      (match user_named d (lit "admin") with
       | Some _ => users d
       | None =>
           users d ++ [User.mk (next_id (map User.id (users d))) (lit "admin")
                               (generate_password_hash salt (lit "1234")) (lit "admin")]
       end).
Proof.
  unfold started, startup. unfold mbind at 1. unfold handler_bind at 1.
  rewrite seed_initial_data_cases. cbv zeta. cbn [view].
  unfold mbind, handler_bind, User_first_by_username, query, user_named. run.
  cbn [users].
  destruct (find _ (users d)) as [u|]; reflexivity.
Qed.

(** X24.  Start-up seeds only what is missing.  Clients and appointments
    are never touched.  A services table with at least one row is left as
    it is, and an empty one gets the three default services, all active;
    likewise for barbers.  The users already there are kept; when none is
    called [admin], one is added with the role [admin] and the hash of
    [1234], and when one is, of whatever role, no user is added and
    nothing about that user is changed. *)
Theorem startup_seeds_what_is_missing salt d :
  let d' := started salt d in
  clients d' = clients d
  /\ appointments d' = appointments d
  /\ (services d <> [] -> services d' = services d)
  /\ (services d = [] -> services d' = default_services)
  /\ (barbers d <> [] -> barbers d' = barbers d)
  /\ (barbers d = [] -> barbers d' = default_barbers)
  /\ (forall u, user_named d (lit "admin") = Some u -> users d' = users d)
  /\ (user_named d (lit "admin") = None ->
      exists u, users d' = users d ++ [u]
                /\ User.username u = lit "admin"
                /\ User.role u = lit "admin"
                /\ User.password u = generate_password_hash salt (lit "1234")).
Proof.
  intros d'. subst d'. rewrite started_cases.
  cbn [services barbers clients appointments users]. conjuncts; try reflexivity.
  - destruct (services d); [congruence | reflexivity].
  - intros ->. reflexivity.
  - destruct (barbers d); [congruence | reflexivity].
  - intros ->. reflexivity.
  - intros u ->. reflexivity.
  - intros ->. eexists. repeat split; reflexivity.
Qed.

(** X25.  Start-up is idempotent: starting a second time, with whatever
    salt, changes nothing in the database the first start left. *)
Theorem startup_is_idempotent salt salt' d :
  started salt' (started salt d) = started salt d.
Proof.
  rewrite (started_cases salt' (started salt d)).
  assert (exists u, user_named (started salt d) (lit "admin") = Some u) as [u ->].
  { rewrite started_cases. unfold user_named. cbn [users].
    destruct (find _ (users d)) as [u|] eqn:Hu.
    - exists u. exact Hu.
    - eexists. apply find_appended; [exact Hu|].
      apply bool_decide_eq_true. reflexivity. }
  assert (services (started salt d) <> []) as Hs.
  { rewrite started_cases. cbn [services]. destruct (services d); discriminate. }
  assert (barbers (started salt d) <> []) as Hb.
  { rewrite started_cases. cbn [barbers]. destruct (barbers d); discriminate. }
  destruct (services (started salt d)) eqn:Es; [congruence|].
  destruct (barbers (started salt d)) eqn:Eb; [congruence|].
  rewrite <- Es, <- Eb. apply database_eta.
Qed.

(** X26.  After a start-up on a database without a user called [admin],
    logging in as [admin] with the password [1234] succeeds and gives the
    session the role [admin], so that the admin routes are open to it.
    The hashing is assumed to accept the password it hashed. *)
Theorem default_admin_can_log_in salt d w form :
  user_named d (lit "admin") = None ->
  check_password_hash (generate_password_hash salt (lit "1234")) (lit "1234") = true ->
  db w = started salt d ->
  form_username form = lit "admin" ->
  form_password form = lit "1234" ->
  let out := respond (login POST form) w in
  fst out = Redirect "index"
  /\ is_admin (snd out)
  /\ session (snd out) !! "user_id"
     = Some (PyInt (next_id (map User.id (users d)))).
Proof.
  intros Hnone Hhash Hdb Hu Hp out. subst out.
  rewrite login_cases, Hu, Hp.
  change (empty (lit "admin") || empty (lit "1234")) with false.
  assert (user_named (db w) (lit "admin")
          = Some (User.mk (next_id (map User.id (users d))) (lit "admin")
                          (generate_password_hash salt (lit "1234")) (lit "admin")))
    as Hfound.
  { rewrite Hdb, started_cases. unfold user_named in *. cbn [users]. rewrite Hnone.
    apply find_appended; [exact Hnone|]. apply bool_decide_eq_true. reflexivity. }
  rewrite Hfound. cbn [User.password User.id User.role User.username].
  rewrite Hhash. cbn [fst snd session]. unfold is_admin. cbn [session].
  split; [reflexivity|]. split.
  - apply lookup_insert_eq.
  - rewrite lookup_insert_ne by discriminate. apply lookup_insert_eq.
Qed.

End App.

(** * The handlers on the sample shop *)

Lemma book_validation_order_witness :
  logged_in (mk_world shop ana_session []) 2
  /\ respond (book_appointment strptime_padded decimal POST
                (booking_form "Ana" "8888" "1" "1" "2029-06-01" "09:30") now_)
              (mk_world shop ana_session [])
     = (Redirect "book_appointment",
        mk_world shop ana_session [booking_flash PastDateError]).
Proof.
  assert (logged_in (mk_world shop ana_session []) 2) as H.
  { split; [reflexivity | lia]. }
  split; [exact H|].
  exact (book_validation_order strptime_padded decimal _
           (booking_form "Ana" "8888" "1" "1" "2029-06-01" "09:30") now_ 2 H).
Defined.

Lemma slot_conflict_ignores_status_witness :
  let w := mk_world shop ana_session [] in
  let form := booking_form "Ana" "8888" "1" "1" "2030-01-02" "10:00" in
  let a := Appointment.mk 1 (at_ 2030 1 2 10 0) (lit "cancelada") (Some []) 1 1 1 in
  In a (appointments shop)
  /\ Appointment.status a = lit "cancelada"
  /\ respond (book_appointment strptime_padded decimal POST form now_) w
     = (Redirect "book_appointment",
        mk_world shop ana_session [booking_flash SlotConflictError]).
Proof.
  intros w form a.
  assert (logged_in w 2) as Hl by (split; [reflexivity | lia]).
  assert (In a (appointments shop)) as Hin by (left; reflexivity).
  split; [exact Hin|]. split; [reflexivity|].
  exact (proj1 (slot_conflict_ignores_status strptime_padded decimal w form now_ 2 1
                  (at_ 2030 1 2 10 0) a
                  Hl eq_refl eq_refl eq_refl eq_refl eq_refl
                  Hin eq_refl eq_refl)).
Defined.

Lemma past_date_rejected_strictly_witness :
  let w := mk_world shop ana_session [] in
  let past := booking_form "Ana" "8888" "1" "1" "2029-06-01" "09:30" in
  let exact_ := booking_form "Ana" "8888" "1" "1" "2030-05-01" "09:30" in
  dt_ltb (at_ 2029 6 1 9 30) now_ = true
  /\ respond (book_appointment strptime_padded decimal POST past now_) w
     = (Redirect "book_appointment",
        mk_world shop ana_session [booking_flash PastDateError])
  /\ not_in_past strptime_padded exact_ (at_ 2030 5 1 9 30) = true
  /\ first_failure strptime_padded decimal shop exact_ (at_ 2030 5 1 9 30)
     <> Some PastDateError.
Proof.
  intros w past exact_.
  assert (logged_in w 2) as Hl by (split; [reflexivity | lia]).
  split; [reflexivity|]. split.
  - exact (proj1 (past_date_rejected_strictly strptime_padded decimal w past now_ 2
                    (at_ 2029 6 1 9 30)
                    Hl eq_refl eq_refl eq_refl)
                 eq_refl).
  - pose proof (proj2 (past_date_rejected_strictly strptime_padded decimal w exact_
                         (at_ 2030 5 1 9 30) 2 (at_ 2030 5 1 9 30)
                         Hl eq_refl eq_refl eq_refl)
                      (or_introl eq_refl)) as H.
    split; [exact (proj1 H) | exact (proj1 (proj2 H))].
Defined.

Lemma booking_keeps_existing_client_witness :
  let form := booking_form "Otra Persona" "0000" "1" "1" "2030-05-01" "09:30" in
  let dt := at_ 2030 5 1 9 30 in
  let success := (Literal "Tu cita ha sido registrada con éxito.", "success") in
  respond (book_appointment strptime_padded decimal POST form now_)
          (mk_world shop ana_session [])
  = (Redirect "index",
     mk_world
       (mk_database (services shop) (barbers shop) (clients shop)
          (appointments shop ++
             [Appointment.mk 5 dt (lit "pendiente") (Some []) 1 1 1])
          (users shop))
       ana_session [success])
  /\ respond (book_appointment strptime_padded decimal POST form now_)
             (mk_world shop dora_session [])
     = (Redirect "index",
        mk_world
          (mk_database (services shop) (barbers shop)
             (clients shop ++
                [Client.mk 3 4 (lit "Otra Persona") (lit "0000") (Some [])])
             (appointments shop ++
                [Appointment.mk 5 dt (lit "pendiente") (Some []) 3 1 1])
             (users shop))
          dora_session [success]).
Proof.
  intros form dt success.
  assert (logged_in (mk_world shop ana_session []) 2) as Hl by (split; [reflexivity | lia]).
  assert (logged_in (mk_world shop dora_session []) 4) as Hd by (split; [reflexivity | lia]).
  split.
  - exact (proj1 (booking_keeps_existing_client strptime_padded decimal
                    (mk_world shop ana_session []) form now_ 2 1 1 dt
                    Hl eq_refl eq_refl eq_refl eq_refl)
                 (Client.mk 1 2 (lit "Ana Mora") (lit "8888-0000")
                            (Some (lit "ana@example.com")))
                 eq_refl).
  - exact (proj2 (booking_keeps_existing_client strptime_padded decimal
                    (mk_world shop dora_session []) form now_ 4 1 1 dt
                    Hd eq_refl eq_refl eq_refl eq_refl)
                 eq_refl).
Defined.

Lemma inactive_service_or_barber_is_booked_witness :
  let w := mk_world shop ana_session [] in
  let form := booking_form "Ana" "8888" "2" "2" "2030-01-02" "10:00" in
  let s := Service.mk 2 (lit "Afeitado premium") None 40 15%float false in
  let b := Barber.mk 2 (lit "Luis") None false in
  In s (services shop) /\ In b (barbers shop)
  /\ Service.is_active s = false /\ Barber.is_active b = false
  /\ ids_resolve decimal shop form = true
  /\ exists d' a,
       respond (book_appointment strptime_padded decimal POST form now_) w =
         (Redirect "index",
          mk_world d' ana_session
            [(Literal "Tu cita ha sido registrada con éxito.", "success")])
       /\ appointments d' = appointments shop ++ [a]
       /\ Appointment.service_id a = 2
       /\ Appointment.barber_id a = 2
       /\ Appointment.status a = lit "pendiente".
Proof.
  intros w form s b.
  assert (logged_in w 2) as Hl by (split; [reflexivity | lia]).
  assert (In s (services shop)) as Hs by (right; left; reflexivity).
  assert (In b (barbers shop)) as Hb by (right; left; reflexivity).
  split; [exact Hs|]. split; [exact Hb|]. split; [reflexivity|]. split; [reflexivity|].
  exact (inactive_service_or_barber_is_booked strptime_padded decimal w form now_ 2
           s b (at_ 2030 1 2 10 0)
           Hl Hs Hb (or_introl eq_refl)
           eq_refl eq_refl eq_refl eq_refl eq_refl eq_refl).
Defined.

Lemma register_then_login_witness :
  let w := mk_world shop ∅ [] in
  let carla := User.mk 5 (lit "carla") (lit "secret9") (lit "cliente") in
  let d1 := mk_database (services shop) (barbers shop) (clients shop)
                        (appointments shop) (users shop ++ [carla]) in
  respond (register plain_hash POST (credentials "  carla " "secret9 ") (lit "salt")) w
  = (Redirect "login", mk_world d1 ∅ [(Literal "Registro exitoso.", "success")])
  /\ respond (login plain_check POST (credentials "carla" "secret9")) (mk_world d1 ∅ [])
     = (Redirect "index",
        mk_world d1 {[ "user_id" := PyInt 5; "role" := PyStr (lit "cliente") ]}
                 [(Formatted "Bienvenido " (lit "carla"), "success")]).
Proof.
  intros w carla d1.
  assert (3 <= len (form_username (credentials "  carla " "secret9 "))) as H3
    by (vm_compute; discriminate).
  assert (6 <= len (form_password (credentials "  carla " "secret9 "))) as H6
    by (vm_compute; discriminate).
  pose proof (register_then_login plain_hash plain_check w
                (credentials "  carla " "secret9 ") (lit "salt")
                H3 H6 eq_refl eq_refl) as [Hreg Hlog].
  split; [exact Hreg|].
  destruct (Hlog (mk_world d1 ∅ []) (credentials "carla" "secret9")
                 eq_refl eq_refl eq_refl) as [H _].
  rewrite H. vm_compute. reflexivity.
Defined.

Lemma failed_login_keeps_session_witness :
  let w := mk_world shop ∅ [] in
  credentials_wrong plain_check w (credentials "ana" "secret2")
  /\ respond (login plain_check POST (credentials "ana" "secret2")) w = auth_error w
  /\ credentials_wrong plain_check w (credentials "nadie" "secret1")
  /\ respond (login plain_check POST (credentials "nadie" "secret1")) w = auth_error w.
Proof.
  intros w.
  assert (credentials_wrong plain_check w (credentials "ana" "secret2")) as H1
    by reflexivity.
  assert (credentials_wrong plain_check w (credentials "nadie" "secret1")) as H2
    by exact I.
  split; [exact H1|]. split.
  - exact (proj2 (proj2 (proj2 (failed_login_keeps_session plain_check w _ H1)))).
  - split; [exact H2|].
    exact (proj2 (proj2 (proj2 (failed_login_keeps_session plain_check w _ H2)))).
Defined.

(** The login of an existing user with an empty password: the password
    does not match the stored hash, and the answer is the missing-fields
    warning, not the wrong-credentials message. *)
Lemma login_empty_password_not_auth_error :
  ~ failed_login_is_auth_error plain_check (mk_world shop ∅ []) (credentials "ana" "").
Proof.
  unfold failed_login_is_auth_error. intros H.
  assert (credentials_wrong plain_check (mk_world shop ∅ []) (credentials "ana" ""))
    as Hwrong by reflexivity.
  specialize (H Hwrong). vm_compute in H. discriminate H.
Qed.

Lemma service_create_checks_presence_witness :
  let w := mk_world shop admin_session [] in
  let create form := respond (admin_service_create decimal decimal_or_nan POST form) w in
  is_admin w
  /\ create (service_form "Tinte" "" "20")
     = (Redirect "admin_service_create",
        mk_world shop admin_session
                 [(Literal "Completa los campos obligatorios.", "warning")])
  /\ (exists s,
        create (service_form "Tinte" "45" "20")
        = (Redirect "admin_services",
           mk_world
             (mk_database (services shop ++ [s]) (barbers shop) (clients shop)
                          (appointments shop) (users shop))
             admin_session [(Literal "Servicio creado correctamente", "success")])
        /\ Service.is_active s = true
        /\ Service.duration_minutes s = 45)
  /\ create (service_form "Tinte" "abc" "20") = (Uncaught "ValueError", w)
  /\ create (service_form "Tinte" "9223372036854775808" "20")
     = (Uncaught "OverflowError", w)
  /\ create (service_form "Tinte" "45" "nan") = (Uncaught "IntegrityError", w).
Proof.
  intros w create. subst create. cbv beta.
  assert (is_admin w) as Hadm by reflexivity.
  split; [exact Hadm|]. split; [|split; [|split; [|split]]].
  - exact (proj1 (service_create_checks_presence decimal decimal_or_nan w
                    (service_form "Tinte" "" "20") Hadm) eq_refl).
  - destruct (proj1 (proj1 (proj2 (service_create_checks_presence decimal decimal_or_nan w
                                     (service_form "Tinte" "45" "20") Hadm))
                           eq_refl 45 20%float eq_refl eq_refl)
                    eq_refl eq_refl)
      as (s & Hout & Hact & _ & Hdur & _).
    exists s. split; [exact Hout|]. split; [exact Hact | exact Hdur].
  - exact (proj2 (proj2 (service_create_checks_presence decimal decimal_or_nan w
                           (service_form "Tinte" "abc" "20") Hadm))
                 eq_refl (or_introl eq_refl)).
  - exact (proj1 (proj2 (proj1 (proj2 (service_create_checks_presence decimal
                                         decimal_or_nan w
                                         (service_form "Tinte" "9223372036854775808" "20")
                                         Hadm))
                               eq_refl (2 ^ 63) 20%float eq_refl eq_refl))
                 eq_refl).
  - exact (proj2 (proj2 (proj1 (proj2 (service_create_checks_presence decimal
                                         decimal_or_nan w
                                         (service_form "Tinte" "45" "nan") Hadm))
                               eq_refl 45 PrimFloat.nan eq_refl eq_refl))
                 eq_refl eq_refl).
Defined.

(** A duration that is present and is not a number: the request does not
    end with a redirect. *)
Lemma create_with_text_duration_not_rejected :
  ~ create_rejects_non_numeric decimal decimal_float
      (mk_world shop admin_session []) (service_form "Tinte" "abc" "20").
Proof.
  unfold create_rejects_non_numeric. intros H.
  destruct (H (or_intror (or_introl eq_refl))) as [Hred _].
  vm_compute in Hred. exact Hred.
Qed.

Lemma client_cancellation_witness :
  let w := mk_world shop ana_session [] in
  let rejected_ (msg : string) (category : string) :=
    (Redirect "user_appointments", mk_world shop ana_session [(Literal msg, category)]) in
  may_cancel decimal w 4 now_
  /\ respond (cancel_user_appointment decimal 4 now_) w
     = (Redirect "user_appointments",
        mk_world (cancelled shop 4) ana_session [cancel_success])
  /\ find (fun a => Appointment.id a =? 4) (appointments (cancelled shop 4))
     = Some (Appointment.mk 4 (at_ 2030 3 5 11 0) (lit "cancelada") (Some []) 1 1 1)
  /\ respond (cancel_user_appointment decimal 3 now_) w
     = rejected_ "No puedes cancelar una cita que no es tuya." "danger"
  /\ respond (cancel_user_appointment decimal 2 now_) w
     = rejected_ "No puedes cancelar una cita que ya pasó." "warning".
Proof.
  intros w rejected_.
  assert (may_cancel decimal w 4 now_) as Hmay.
  { split; [reflexivity|].
    exists 2, (Client.mk 1 2 (lit "Ana Mora") (lit "8888-0000") (Some (lit "ana@example.com"))),
           (Appointment.mk 4 (at_ 2030 3 5 11 0) (lit "pendiente") (Some []) 1 1 1).
    repeat split; reflexivity. }
  split; [exact Hmay|].
  destruct (proj1 (client_cancellation decimal w 4 now_) Hmay) as (a & Ha & Hout & Hset).
  split; [exact Hout|]. split; [reflexivity|]. split.
  - refine (proj1 (proj2 (proj2 (client_cancellation decimal w 3 now_)) 2
                     (Client.mk 1 2 (lit "Ana Mora") (lit "8888-0000")
                                (Some (lit "ana@example.com")))
                     (Appointment.mk 3 (at_ 2030 2 10 15 0) (lit "pendiente") (Some []) 2 1 1)
                     eq_refl eq_refl eq_refl eq_refl) _).
    cbn. lia.
  - exact (proj2 (proj2 (proj2 (client_cancellation decimal w 2 now_)) 2
                    (Client.mk 1 2 (lit "Ana Mora") (lit "8888-0000")
                               (Some (lit "ana@example.com")))
                    (Appointment.mk 2 (at_ 2029 6 1 9 30) (lit "pendiente") (Some []) 1 1 1)
                    eq_refl eq_refl eq_refl eq_refl) eq_refl eq_refl).
Defined.

Lemma delete_only_without_appointments_witness :
  let w := mk_world shop admin_session [] in
  is_admin w
  /\ respond (admin_service_delete decimal 1) w
     = (Redirect "admin_services",
        mk_world shop admin_session
          [(Literal "No puedes eliminar un servicio con citas registradas. Desactívalo.",
            "warning")])
  /\ respond (admin_service_delete decimal 2) w
     = (Redirect "admin_services",
        mk_world (without_service shop 2) admin_session
                 [(Literal "Servicio eliminado", "success")])
  /\ respond (delete_barber decimal 1) w
     = (Redirect "admin_barbers",
        mk_world shop admin_session
          [(Literal "No puedes eliminar un barbero con citas registradas.", "warning")])
  /\ respond (delete_barber decimal 2) w
     = (Redirect "admin_barbers",
        mk_world (without_barber shop 2) admin_session
                 [(Literal "Barbero eliminado", "success")]).
Proof.
  intros w.
  assert (is_admin w) as Hadm by reflexivity.
  assert (forall k, k <> 1 -> forall a, In a (appointments shop) ->
                    Appointment.service_id a <> k /\ Appointment.barber_id a <> k) as Hfree.
  { intros k Hk a Hin. cbn in Hin.
    destruct Hin as [<- | [<- | [<- | [<- | []]]]]; cbn; split; congruence. }
  assert (exists a, In a (appointments shop) /\ Appointment.service_id a = 1
                    /\ Appointment.barber_id a = 1) as (a & Hin & Hs & Hb).
  { eexists. split; [left; reflexivity|]. split; reflexivity. }
  split; [exact Hadm|]. split; [|split; [|split]].
  - exact (proj1 (proj1 (delete_only_without_appointments decimal w 1 Hadm) _ eq_refl)
                 (ex_intro _ a (conj Hin Hs))).
  - refine (proj1 (proj2 (proj1 (delete_only_without_appointments decimal w 2 Hadm)
                            _ eq_refl) _)).
    intros a' Hin'. apply (Hfree 2); [lia | exact Hin'].
  - exact (proj1 (proj2 (delete_only_without_appointments decimal w 1 Hadm) _ eq_refl)
                 (ex_intro _ a (conj Hin Hb))).
  - refine (proj1 (proj2 (proj2 (delete_only_without_appointments decimal w 2 Hadm)
                            _ eq_refl) _)).
    intros a' Hin'. apply (Hfree 2); [lia | exact Hin'].
Defined.

(** ** More runs on the sample shop *)

Lemma admin_routes_need_admin_witness :
  let w := mk_world shop ana_session [] in
  let refused (msg : string) := mk_world shop ana_session [(Literal msg, "danger")] in
  session w !! "role" <> Some (PyStr (lit "admin"))
  /\ respond (admin_service_delete decimal 2) w
     = (Redirect "index", refused "No tienes permiso")
  /\ respond (update_appointment_status 4 (lit "confirmada")) w
     = (Redirect "index", refused "No tienes permiso para acceder aquí.")
  /\ serve admin_barbers w = (inr (Redirect "index"), refused "No tienes permiso").
Proof.
  intros w refused.
  assert (session w !! "role" <> Some (PyStr (lit "admin"))) as H
    by (intros E; vm_compute in E; discriminate E).
  split; [exact H|].
  pose proof (admin_routes_need_admin decimal decimal decimal_float w H) as T.
  cbv zeta in T.
  destruct T as (_ & _ & _ & T4 & _ & _ & _ & _ & T9 & _ & T11 & _).
  split; [exact (T4 2)|]. split; [exact (T9 4 (lit "confirmada")) | exact T11].
Defined.

Lemma client_routes_need_login_witness :
  let w := mk_world shop ∅ [] in
  let asked (msg : string) := mk_world shop ∅ [(Literal msg, "warning")] in
  truthy (session w !! "user_id") = false
  /\ respond (book_appointment strptime_padded decimal POST
                (booking_form "Ana" "8888" "1" "1" "2030-05-01" "09:30") now_) w
     = (Redirect "login", asked "Debes iniciar sesión para reservar una cita.")
  /\ respond (cancel_user_appointment decimal 4 now_) w
     = (Redirect "login", asked "Debes iniciar sesión.")
  /\ serve (user_appointments decimal) w
     = (inr (Redirect "login"), asked "Debes iniciar sesión para ver tus citas.").
Proof.
  intros w asked.
  assert (truthy (session w !! "user_id") = false) as H by reflexivity.
  split; [exact H|].
  pose proof (client_routes_need_login strptime_padded decimal w H) as T.
  cbv zeta in T. destruct T as (T1 & T2 & T3).
  split; [exact (T1 POST _ now_)|]. split; [exact (T2 4 now_) | exact T3].
Defined.

Lemma register_twice_is_refused_witness :
  let w := mk_world shop ∅ [] in
  let w1 := snd (respond (register plain_hash POST (credentials "carla" "secret9") []) w) in
  user_named shop (lit "carla") = None
  /\ respond (register plain_hash POST (credentials " carla  " "another-password") []) w1
     = (Redirect "register",
        mk_world (db w1) (session w1)
                 (flashes w1 ++ [(Literal "Ese usuario ya existe.", "danger")])).
Proof.
  intros w w1.
  assert (3 <= len (form_username (credentials "carla" "secret9"))) as H3
    by (vm_compute; discriminate).
  assert (6 <= len (form_password (credentials "carla" "secret9"))) as H6
    by (vm_compute; discriminate).
  assert (6 <= len (form_password (credentials " carla  " "another-password"))) as H6'
    by (vm_compute; discriminate).
  split; [reflexivity|].
  exact (proj2 (proj2 (register_twice_is_refused plain_hash w
                         (credentials "carla" "secret9") [] H3 H6 eq_refl
                         (credentials " carla  " "another-password") [] eq_refl))
               H6').
Defined.

Lemma login_succeeds_exactly_witness :
  let w := mk_world shop ∅ [] in
  fst (respond (login plain_check POST (credentials "ana" "secret1")) w) = Redirect "index"
  /\ session (snd (respond (login plain_check POST (credentials "ana" "secret1")) w))
     = <["role" := PyStr (lit "cliente")]> (<["user_id" := PyInt 2]> ∅)
  /\ fst (respond (login plain_check POST (credentials "ana" "secret2")) w)
     = Redirect "login".
Proof.
  intros w.
  pose proof (login_succeeds_exactly plain_check w (credentials "ana" "secret1")) as T.
  cbv zeta beta in T. destruct T as (_ & Tiff & Tses & _).
  assert (empty (form_username (credentials "ana" "secret1")) = false
          /\ empty (form_password (credentials "ana" "secret1")) = false
          /\ user_named (db w) (form_username (credentials "ana" "secret1"))
             = Some (User.mk 2 (lit "ana") (lit "secret1") (lit "cliente"))
          /\ plain_check (User.password (User.mk 2 (lit "ana") (lit "secret1") (lit "cliente")))
                         (form_password (credentials "ana" "secret1")) = true) as Hok
    by (repeat split; reflexivity).
  split; [exact (proj2 Tiff (ex_intro _ _ Hok))|].
  split; [exact (Tses _ Hok)|].
  pose proof (login_succeeds_exactly plain_check w (credentials "ana" "secret2")) as T.
  cbv zeta beta in T. destruct T as (_ & _ & _ & Tno).
  apply Tno. intros u (_ & _ & Hu & Hc).
  vm_compute in Hu. injection Hu as <-. vm_compute in Hc. discriminate Hc.
Defined.

Ltac distinct :=
  repeat (constructor; [cbn; intuition (first [lia | discriminate | congruence]) |]);
  constructor.

Lemma requests_keep_keys_unique_witness :
  let form := booking_form "Carla" "6000" "1" "2" "2030-05-01" "09:30" in
  let reqs :=
    [ Register POST (credentials "carla" "secret9") [];
      Login POST (credentials "carla" "secret9");
      BookAppointment POST form now_;
      AdminServiceDelete 2;
      Logout;
      Register POST (credentials "carla" "secret9") [] ] in
  let d := db (after strptime_padded decimal decimal decimal_float plain_hash plain_check
                     reqs (mk_world shop ∅ [])) in
  keys_unique shop
  /\ keys_unique d
  /\ map User.id (users d) = [1; 2; 3; 4; 5]
  /\ map Client.id (clients d) = [1; 2; 3]
  /\ map Appointment.id (appointments d) = [1; 2; 3; 4; 5].
Proof.
  intros form reqs d.
  assert (keys_unique shop) as H by (unfold keys_unique; cbn; repeat split; distinct).
  split; [exact H|]. split; [|repeat split; reflexivity].
  exact (requests_keep_keys_unique strptime_padded decimal decimal decimal_float
           plain_hash plain_check reqs (mk_world shop ∅ []) H).
Defined.

Lemma requests_keep_usernames_unique_witness :
  let reqs :=
    [ Register POST (credentials "carla" "secret9") [];
      Register POST (credentials " carla " "secret10") [];
      Register POST (credentials "ana" "secret11") [];
      Register POST (credentials "Ana" "secret12") [] ] in
  let d := db (after strptime_padded decimal decimal decimal_float plain_hash plain_check
                     reqs (mk_world shop ∅ [])) in
  usernames_unique shop
  /\ usernames_unique d
  /\ map User.username (users d)
     = [lit "admin"; lit "ana"; lit "beto"; lit "dora"; lit "carla"; lit "Ana"].
Proof.
  intros reqs d.
  assert (usernames_unique shop) as H by (unfold usernames_unique; cbn; distinct).
  split; [exact H|]. split; [|reflexivity].
  exact (requests_keep_usernames_unique strptime_padded decimal decimal decimal_float
           plain_hash plain_check reqs (mk_world shop ∅ []) H).
Defined.

Lemma requests_keep_one_client_per_user_witness :
  let reqs :=
    [ BookAppointment POST (booking_form "Dora" "5000" "1" "1" "2030-05-01" "09:30") now_;
      BookAppointment POST (booking_form "Dora D." "5001" "1" "1" "2030-05-02" "09:30") now_ ] in
  let d := db (after strptime_padded decimal decimal decimal_float plain_hash plain_check
                     reqs (mk_world shop dora_session [])) in
  one_client_per_user shop
  /\ one_client_per_user d
  /\ map Client.user_id (clients d) = [2; 3; 4]
  /\ length (appointments d) = 6%nat.
Proof.
  intros reqs d.
  assert (one_client_per_user shop) as H by (unfold one_client_per_user; cbn; distinct).
  split; [exact H|]. split; [|split; reflexivity].
  exact (requests_keep_one_client_per_user strptime_padded decimal decimal decimal_float
           plain_hash plain_check reqs (mk_world shop dora_session []) H).
Defined.

Lemma requests_keep_slots_unique_witness :
  let form := booking_form "Dora" "5000" "1" "1" "2030-05-01" "09:30" in
  let reqs :=
    [ BookAppointment POST form now_;
      BookAppointment POST form now_;
      CancelUserAppointment 5 now_;
      BookAppointment POST form now_ ] in
  let d := db (after strptime_padded decimal decimal decimal_float plain_hash plain_check
                     reqs (mk_world shop dora_session [])) in
  slots_unique shop
  /\ slots_unique d
  /\ length (appointments d) = 5%nat.
Proof.
  intros form reqs d.
  assert (slots_unique shop) as H by (unfold slots_unique; cbn; distinct).
  split; [exact H|]. split; [|reflexivity].
  exact (requests_keep_slots_unique strptime_padded decimal decimal decimal_float
           plain_hash plain_check reqs (mk_world shop dora_session []) H).
Defined.

Lemma second_booking_of_slot_rejected_witness :
  let form := booking_form "Dora" "5000" "1" "1" "2030-05-01" "09:30" in
  let form' := booking_form "Ana" "8888" "2" "1" "2030-05-01" "09:30" in
  let w1 := snd (respond (book_appointment strptime_padded decimal POST form now_)
                         (mk_world shop dora_session [])) in
  let w2 := mk_world (db w1) ana_session [] in
  first_failure strptime_padded decimal shop form now_ = None
  /\ respond (book_appointment strptime_padded decimal POST form' (at_ 2030 4 30 23 59)) w2
     = (Redirect "book_appointment",
        mk_world (db w1) ana_session [booking_flash SlotConflictError]).
Proof.
  intros form form' w1 w2.
  assert (logged_in (mk_world shop dora_session []) 4) as Hd by (split; [reflexivity | lia]).
  assert (logged_in w2 2) as Ha by (split; [reflexivity | lia]).
  split; [reflexivity|].
  exact (second_booking_of_slot_rejected strptime_padded decimal
           (mk_world shop dora_session []) form now_ 4 w2 form' (at_ 2030 4 30 23 59) 2
           1 (at_ 2030 5 1 9 30)
           Hd eq_refl eq_refl eq_refl eq_refl Ha eq_refl eq_refl eq_refl eq_refl eq_refl).
Defined.

Lemma user_sees_own_appointments_witness :
  let w := mk_world shop ana_session [] in
  truthy (session w !! "user_id") = true
  /\ int_param decimal (session w !! "user_id") = Some 2
  /\ exists l,
       serve (user_appointments decimal) w = (inl ("user_appointments.html", l), w)
       /\ map Appointment.id l = [4; 1; 2]
       /\ forall a, In a l -> Appointment.client_id a = 1.
Proof.
  intros w. split; [reflexivity|]. split; [reflexivity|].
  destruct (user_sees_own_appointments decimal w 2 eq_refl eq_refl) as (l & Hl & Hin & _).
  exists l. split; [exact Hl|]. split.
  - assert (inl ("user_appointments.html", l) = fst (serve (user_appointments decimal) w))
      as E by (rewrite Hl; reflexivity).
    vm_compute in E. injection E as ->. reflexivity.
  - intros a Ha. apply Hin in Ha as (_ & c & Hc & Hown).
    vm_compute in Hc. injection Hc as <-. exact Hown.
Defined.

Lemma booked_appointment_is_listed_witness :
  let form := booking_form "Dora" "5000" "2" "1" "2030-05-01" "09:30" in
  let w := mk_world shop dora_session [] in
  let w1 := snd (respond (book_appointment strptime_padded decimal POST form now_) w) in
  first_failure strptime_padded decimal shop form now_ = None
  /\ exists a l,
       serve (user_appointments decimal) w1 = (inl ("user_appointments.html", l), w1)
       /\ In a l
       /\ Appointment.status a = lit "pendiente"
       /\ Appointment.appointment_datetime a = at_ 2030 5 1 9 30
       /\ Appointment.service_id a = 2
       /\ Appointment.barber_id a = 1.
Proof.
  intros form w w1.
  assert (logged_in w 4) as Hl by (split; [reflexivity | lia]).
  split; [reflexivity|].
  exact (booked_appointment_is_listed strptime_padded decimal w form now_ 4 2 1
           (at_ 2030 5 1 9 30) Hl eq_refl eq_refl eq_refl eq_refl).
Defined.

Lemma lists_show_the_tables_witness :
  let w := mk_world shop admin_session [] in
  is_admin w
  /\ (exists l, serve admin_services w = (inl ("admin_services.html", l), w)
                /\ Permutation l (services shop)
                /\ Sorted (fun a b => (Service.id a <? Service.id b) = false) l)
  /\ (exists l, serve admin_appointments w = (inl ("admin_appointments.html", l), w)
                /\ Permutation l (appointments shop)
                /\ Sorted (fun a b => dt_ltb (Appointment.appointment_datetime a)
                                             (Appointment.appointment_datetime b) = false) l).
Proof.
  intros w.
  assert (is_admin w) as Hadm by reflexivity.
  split; [exact Hadm|].
  destruct (proj1 (lists_show_the_tables w) Hadm) as (Hs & _ & Ha).
  split; [exact Hs | exact Ha].
Defined.

Lemma admin_sets_any_status_witness :
  let w := mk_world shop admin_session [] in
  let any := lit "lo que sea" in
  is_admin w
  /\ find (fun a => Appointment.id a =? 1)
          (appointments (db (snd (respond (update_appointment_status 1 any) w))))
     = Some (Appointment.mk 1 (at_ 2030 1 2 10 0) any (Some []) 1 1 1)
  /\ respond (update_appointment_status 9 any) w = (NotFound404, w)
  /\ respond (update_appointment_status (2 ^ 63) any) w = (Uncaught "OverflowError", w).
Proof.
  intros w any.
  assert (is_admin w) as Hadm by reflexivity.
  split; [exact Hadm|].
  pose proof (admin_sets_any_status w 1 any Hadm) as T. cbv zeta beta in T.
  destruct T as (_ & T).
  destruct (T (Appointment.mk 1 (at_ 2030 1 2 10 0) (lit "cancelada") (Some []) 1 1 1)
              eq_refl) as (_ & Hfind & _).
  split; [exact Hfind|].
  pose proof (admin_sets_any_status w 9 any Hadm) as T9. cbv zeta beta in T9.
  split; [exact (proj1 (proj1 T9 eq_refl) eq_refl)|].
  pose proof (admin_sets_any_status w (2 ^ 63) any Hadm) as Tbig. cbv zeta beta in Tbig.
  exact (proj2 (proj1 Tbig eq_refl) eq_refl).
Defined.

Lemma cancellation_can_be_undone_witness :
  let w := mk_world shop ana_session [] in
  let a := Appointment.mk 4 (at_ 2030 3 5 11 0) (lit "pendiente") (Some []) 1 1 1 in
  let w1 := snd (respond (cancel_user_appointment decimal 4 now_) w) in
  let w2 := mk_world (db w1) admin_session [] in
  keys_unique shop
  /\ may_cancel decimal w 4 now_
  /\ db w1 <> shop
  /\ db (snd (respond (update_appointment_status 4 (lit "pendiente")) w2)) = shop.
Proof.
  intros w a w1 w2.
  assert (keys_unique shop) as Hk by (unfold keys_unique; cbn; repeat split; distinct).
  assert (may_cancel decimal w 4 now_) as Hmay.
  { split; [reflexivity|].
    exists 2, (Client.mk 1 2 (lit "Ana Mora") (lit "8888-0000") (Some (lit "ana@example.com"))), a.
    repeat split; reflexivity. }
  split; [exact Hk|]. split; [exact Hmay|]. split.
  - intros E. apply (f_equal (fun d => map Appointment.status (appointments d))) in E.
    vm_compute in E. discriminate E.
  - exact (cancellation_can_be_undone decimal w 4 now_ a w2 Hk Hmay eq_refl eq_refl eq_refl).
Defined.

Lemma cancelling_twice_changes_nothing_witness :
  let w := mk_world shop ana_session [] in
  let later := at_ 2030 1 15 12 0 in
  let w1 := snd (respond (cancel_user_appointment decimal 4 now_) w) in
  may_cancel decimal w 4 now_
  /\ may_cancel decimal w 4 later
  /\ respond (cancel_user_appointment decimal 4 later) w1
     = (Redirect "user_appointments",
        mk_world (db w1) (session w1) (flashes w1 ++ [cancel_success])).
Proof.
  intros w later w1.
  assert (forall t, dt_geb (at_ 2030 3 5 11 0) t = true -> may_cancel decimal w 4 t) as Hmay.
  { intros t Ht. split; [reflexivity|].
    exists 2, (Client.mk 1 2 (lit "Ana Mora") (lit "8888-0000") (Some (lit "ana@example.com"))),
           (Appointment.mk 4 (at_ 2030 3 5 11 0) (lit "pendiente") (Some []) 1 1 1).
    repeat split; try reflexivity. exact Ht. }
  split; [exact (Hmay now_ eq_refl)|]. split; [exact (Hmay later eq_refl)|].
  exact (cancelling_twice_changes_nothing decimal w 4 now_ later
           (Hmay now_ eq_refl) (Hmay later eq_refl)).
Defined.

Lemma toggling_twice_restores_witness :
  let w := mk_world shop admin_session [] in
  is_admin w
  /\ keys_unique shop
  /\ db (snd (respond (admin_service_toggle decimal 1) w)) <> shop
  /\ db (snd (respond (admin_service_toggle decimal 1)
                      (snd (respond (admin_service_toggle decimal 1) w)))) = shop
  /\ db (snd (respond (toggle_barber decimal 2)
                      (snd (respond (toggle_barber decimal 2) w)))) = shop.
Proof.
  intros w.
  assert (is_admin w) as Hadm by reflexivity.
  assert (keys_unique shop) as Hk by (unfold keys_unique; cbn; repeat split; distinct).
  split; [exact Hadm|]. split; [exact Hk|].
  destruct (toggling_twice_restores decimal w 1 Hadm Hk) as [Ts _].
  destruct (toggling_twice_restores decimal w 2 Hadm Hk) as [_ Tb].
  split; [|split].
  - intros E. apply (f_equal (fun d => map Service.is_active (services d))) in E.
    vm_compute in E. discriminate E.
  - exact (Ts _ eq_refl).
  - exact (Tb _ eq_refl).
Defined.

Lemma deactivated_service_leaves_home_page_witness :
  let w := mk_world shop admin_session [] in
  let s := Service.mk 1 (lit "Corte clasico") (Some (lit "Corte tradicional"))
                      30 10%float true in
  let w1 := snd (respond (admin_service_toggle decimal 1) w) in
  is_admin w
  /\ exists home all,
       serve index w1 = (inl ("index.html", home), w1)
       /\ serve list_services w1 = (inl ("services.html", all), w1)
       /\ (forall s', In s' home -> Service.id s' <> 1)
       /\ In (Service.mk 1 (lit "Corte clasico") (Some (lit "Corte tradicional"))
                         30 10%float false) all.
Proof.
  intros w s w1.
  assert (is_admin w) as Hadm by reflexivity.
  split; [exact Hadm|].
  destruct (deactivated_service_leaves_home_page decimal w 1 s Hadm eq_refl eq_refl)
    as (home & all & H1 & H2 & H3 & _ & H5).
  exists home, all. repeat split; assumption.
Defined.

Lemma service_edit_overwrites_witness :
  let w := mk_world shop admin_session [] in
  let form : gmap string pystr :=
    {[ "name" := lit ""; "duration" := lit "45"; "price" := lit "20" ]} in
  let out := respond (admin_service_edit decimal decimal decimal_float 2 POST form) w in
  is_admin w
  /\ fst out = Redirect "admin_services"
  /\ find (fun s' => Service.id s' =? 2) (services (db (snd out)))
     = Some (Service.mk 2 [] None 45 20%float false)
  /\ find (fun s' => Service.id s' =? 1) (services (db (snd out)))
     = find (fun s' => Service.id s' =? 1) (services shop).
Proof.
  intros w form out.
  assert (is_admin w) as Hadm by reflexivity.
  split; [exact Hadm|].
  pose proof (service_edit_overwrites decimal decimal decimal_float w 2
                (Service.mk 2 (lit "Afeitado premium") None 40 15%float false) form
                [] (lit "45") (lit "20") 45 20%float
                Hadm eq_refl eq_refl eq_refl eq_refl eq_refl eq_refl eq_refl eq_refl) as T.
  cbv zeta beta in T. destruct T as (T1 & T2 & T3 & _).
  split; [exact T1|]. split; [exact T2|]. apply T3. lia.
Defined.

Lemma service_edit_is_not_validated_witness :
  let w := mk_world shop admin_session [] in
  let edit form := respond (admin_service_edit decimal decimal decimal_or_nan 2 POST form) w in
  is_admin w
  /\ edit {[ "name" := lit "Tinte"; "price" := lit "20" ]} = (Uncaught "TypeError", w)
  /\ edit {[ "name" := lit "Tinte"; "duration" := lit "abc"; "price" := lit "20" ]}
     = (Uncaught "ValueError", w)
  /\ edit {[ "duration" := lit "45"; "price" := lit "20" ]} = (Uncaught "IntegrityError", w)
  /\ edit {[ "duration" := lit "9223372036854775808"; "price" := lit "20" ]}
     = (Uncaught "OverflowError", w)
  /\ edit {[ "name" := lit "Tinte"; "duration" := lit "45"; "price" := lit "nan" ]}
     = (Uncaught "IntegrityError", w).
Proof.
  intros w edit. subst edit. cbv beta.
  assert (is_admin w) as Hadm by reflexivity.
  split; [exact Hadm|].
  set (s := Service.mk 2 (lit "Afeitado premium") None 40 15%float false).
  pose proof (fun form => service_edit_is_not_validated decimal decimal decimal_or_nan
                            w 2 s form Hadm eq_refl) as T.
  cbv zeta in T.
  split; [|split; [|split; [|split]]].
  - exact (proj1 (T {[ "name" := lit "Tinte"; "price" := lit "20" ]}) eq_refl).
  - exact (proj1 (proj2 (T {[ "name" := lit "Tinte"; "duration" := lit "abc";
                              "price" := lit "20" ]}))
                 (lit "abc") eq_refl eq_refl).
  - exact (proj1 (proj2 (proj2 (proj2 (proj2 (proj2 (T {[ "duration" := lit "45";
                                                           "price" := lit "20" ]}))
                                             (lit "45") 45 eq_refl eq_refl))
                               (lit "20") 20%float eq_refl eq_refl))
                 eq_refl eq_refl).
  - exact (proj1 (proj2 (proj2 (proj2 (proj2 (T {[ "duration" := lit "9223372036854775808";
                                                    "price" := lit "20" ]}))
                                      (lit "9223372036854775808") (2 ^ 63)
                                      eq_refl eq_refl))
                        (lit "20") 20%float eq_refl eq_refl)
                 eq_refl).
  - exact (proj2 (proj2 (proj2 (proj2 (proj2 (proj2 (T {[ "name" := lit "Tinte";
                                                           "duration" := lit "45";
                                                           "price" := lit "nan" ]}))
                                             (lit "45") 45 eq_refl eq_refl))
                               (lit "nan") PrimFloat.nan eq_refl eq_refl))
                 eq_refl eq_refl).
Defined.

Lemma barber_edit_overwrites_witness :
  let w := mk_world shop admin_session [] in
  let b := Barber.mk 1 (lit "Carlos") (Some (lit "Cortes modernos")) true in
  let out := respond (edit_barber decimal 1 POST {[ "name" := lit "Carlos M." ]}) w in
  is_admin w
  /\ fst out = Redirect "admin_barbers"
  /\ find (fun b' => Barber.id b' =? 1) (barbers (db (snd out)))
     = Some (Barber.mk 1 (lit "Carlos M.") None true)
  /\ appointments (db (snd out)) = appointments shop
  /\ respond (edit_barber decimal 1 POST {[ "specialty" := lit "Barbas" ]}) w
     = (Uncaught "IntegrityError", w).
Proof.
  intros w b out.
  assert (is_admin w) as Hadm by reflexivity.
  split; [exact Hadm|].
  pose proof (barber_edit_overwrites decimal w 1 b {[ "name" := lit "Carlos M." ]}
                Hadm eq_refl) as T.
  cbv zeta beta in T. destruct T as (_ & T).
  destruct (T (lit "Carlos M.") eq_refl) as (T1 & T2 & _ & _ & T5).
  split; [exact T1|]. split; [exact T2|]. split; [exact T5|].
  pose proof (barber_edit_overwrites decimal w 1 b {[ "specialty" := lit "Barbas" ]}
                Hadm eq_refl) as T'.
  cbv zeta beta in T'. exact (proj1 T' eq_refl).
Defined.

Lemma add_barber_adds_an_active_barber_witness :
  let w := mk_world shop admin_session [] in
  let form : gmap string pystr := {[ "name" := lit " Eva " ]} in
  let b := Barber.mk 3 (lit " Eva ") None true in
  is_admin w
  /\ respond (add_barber POST form) w
     = (Redirect "admin_barbers",
        mk_world
          (mk_database (services shop) (barbers shop ++ [b]) (clients shop)
                       (appointments shop) (users shop))
          admin_session [(Literal "Barbero agregado", "success")])
  /\ respond (add_barber POST {[ "name" := lit "" ]}) w
     = (Redirect "add_barber",
        mk_world shop admin_session [(Literal "El nombre es obligatorio", "warning")]).
Proof.
  intros w form b.
  assert (is_admin w) as Hadm by reflexivity.
  split; [exact Hadm|].
  pose proof (add_barber_adds_an_active_barber w form Hadm) as T.
  cbv zeta beta in T. destruct T as (_ & T).
  assert (lit " Eva " <> []) as Hne by discriminate.
  destruct (T (lit " Eva ") eq_refl Hne) as (T1 & _).
  split; [exact T1|].
  pose proof (add_barber_adds_an_active_barber w {[ "name" := lit "" ]} Hadm) as T'.
  cbv zeta beta in T'. exact (proj1 T' eq_refl).
Defined.

Lemma startup_seeds_what_is_missing_witness :
  let empty_db := mk_database [] [] [] [] [] in
  started plain_hash [] empty_db
  = mk_database default_services default_barbers [] []
      [User.mk 1 (lit "admin") (lit "1234") (lit "admin")]
  /\ services (started plain_hash [] shop) = services shop
  /\ barbers (started plain_hash [] shop) = barbers shop
  /\ users (started plain_hash [] shop) = users shop.
Proof.
  intros empty_db.
  pose proof (startup_seeds_what_is_missing plain_hash [] shop) as T.
  cbv zeta in T. destruct T as (_ & _ & Ts & _ & Tb & _ & Tu & _).
  split; [reflexivity|].
  assert (services shop <> []) as Hs by discriminate.
  assert (barbers shop <> []) as Hb by discriminate.
  split; [exact (Ts Hs)|]. split; [exact (Tb Hb)|].
  exact (Tu (User.mk 1 (lit "admin") (lit "1234") (lit "admin")) eq_refl).
Defined.

Lemma default_admin_can_log_in_witness :
  let empty_db := mk_database [] [] [] [] [] in
  let w := mk_world (started plain_hash [] empty_db) ∅ [] in
  let out := respond (login plain_check POST (credentials "admin" "1234")) w in
  user_named empty_db (lit "admin") = None
  /\ fst out = Redirect "index"
  /\ is_admin (snd out)
  /\ fst (respond (admin_service_toggle decimal 1) (snd out)) = Redirect "admin_services".
Proof.
  intros empty_db w out.
  split; [reflexivity|].
  destruct (default_admin_can_log_in plain_hash plain_check [] empty_db w
              (credentials "admin" "1234") eq_refl eq_refl eq_refl eq_refl eq_refl)
    as (H1 & H2 & _).
  split; [exact H1|]. split; [exact H2 | reflexivity].
Defined.
